(** * India Crime Data Explorer: the data-handling pipeline of [app.py]

    A shallow embedding of the script's table handling: header
    normalisation, schema backfill and validation, the sidebar filters,
    the exact-match selection and the four aggregate views, followed by
    the properties the specification states about them.

    Modelling conventions.
    - Column labels and string cells are [string]s over 7-bit characters;
      the [str] methods below follow Python on that range (code points
      above 127 are not represented).
    - The numbers in the cells are integers [Z] (years, crime counts);
      the numeric parser behind [pd.to_numeric] is a parameter of the
      development.  Sums are not computed in [Z]: what pandas makes of
      them depends on the dtype (int64 wraps around, float64 rounds), so
      the reductions are parameters too, see [Pandas].
    - [st.dataframe] raises on a table with a label twice; the run then
      ends in [Raised], as for any exception the script does not catch.
    - A pandas column is typed: numeric dtype or object dtype, a missing
      cell ([NaN]) being [None]. *)

From Stdlib Require Import List String Ascii ZArith Bool Lia Arith.
From Stdlib Require Import Sorted Permutation.
Import ListNotations.
Local Open Scope string_scope.

(** ** Python [str] methods used on the header *)

Module PyStr.

(** [str.isspace] on one ASCII character: TAB, LF, VT, FF, CR, the four
    separators FS, GS, RS, US, and the space. *)
Definition isspace (c : ascii) : bool :=
  let n := nat_of_ascii c in
  ((9 <=? n) && (n <=? 13) || (28 <=? n) && (n <=? 32))%nat.

Definition LF : ascii := "010"%char.
Definition CR : ascii := "013"%char.

Fixpoint lstrip (s : string) : string :=
  match s with
  | EmptyString => EmptyString
  | String c r => if isspace c then lstrip r else s
  end.

Fixpoint rstrip (s : string) : string :=
  match s with
  | EmptyString => EmptyString
  | String c r =>
      match rstrip r with
      | EmptyString => if isspace c then EmptyString else String c EmptyString
      | r' => String c r'
      end
  end.

(** [s.strip()] *)
Definition strip (s : string) : string := rstrip (lstrip s).

(** [s.replace(old, new)] for a one-character pattern [old]. *)
Fixpoint replace (old : ascii) (new : string) (s : string) : string :=
  match s with
  | EmptyString => EmptyString
  | String c r =>
      if Ascii.eqb c old then new ++ replace old new r
      else String c (replace old new r)
  end.

Definition islower (c : ascii) : bool :=
  let n := nat_of_ascii c in ((97 <=? n) && (n <=? 122))%nat.

Definition upper_char (c : ascii) : ascii :=
  if islower c then ascii_of_nat (nat_of_ascii c - 32) else c.

(** [s.upper()] *)
Fixpoint upper (s : string) : string :=
  match s with
  | EmptyString => EmptyString
  | String c r => String (upper_char c) (upper r)
  end.

(** [all(p(c) for c in s)] *)
Fixpoint all (p : ascii -> bool) (s : string) : bool :=
  match s with
  | EmptyString => true
  | String c r => p c && all p r
  end.

(** [s.endswith(suf)] *)
Definition endswith (s suf : string) : bool :=
  let n := String.length s in
  let m := String.length suf in
  (m <=? n)%nat && String.eqb (substring (n - m) m s) suf.

End PyStr.

(** ** The header: line 31 and the rename table of lines 34-41 *)

(** One label through [.str.strip().str.replace('\n', '')
    .str.replace('\r', '').str.upper()]. *)
Definition normalize_label (s : string) : string :=
  PyStr.upper
    (PyStr.replace PyStr.CR "" (PyStr.replace PyStr.LF "" (PyStr.strip s))).

Definition rename_map : list (string * string) :=
  [ ("STATES/UTS", "STATE/UT");
    ("STATE", "STATE/UT");
    ("DISTRICT", "DISTRICT");
    ("YEAR", "YEAR");
    ("TOTAL COGNIZABLE IPC CRIMES", "TOTAL IPC CRIMES") ].

(** Dictionary lookup [d.get(k)], keys compared with [==]. *)
Fixpoint dict_get {V : Type} (d : list (string * V)) (k : string) : option V :=
  match d with
  | [] => None
  | (k', v) :: d' => if String.eqb k k' then Some v else dict_get d' k
  end.

(** What [rename(columns=m)] does to one label. *)
Definition rename_label (m : list (string * string)) (c : string) : string :=
  match dict_get m c with
  | Some c' => c'
  | None => c
  end.

(** The vectorised accessors of the [Index] of labels. *)
Definition str_strip (ls : list string) : list string := map PyStr.strip ls.
Definition str_replace (old : ascii) (new : string) (ls : list string) :=
  map (PyStr.replace old new) ls.
Definition str_upper (ls : list string) : list string := map PyStr.upper ls.
Definition rename_columns (m : list (string * string)) (ls : list string) :=
  map (rename_label m) ls.

(** The header transformation, from the raw header to the canonical one. *)
Definition standardize_header (ls : list string) : list string :=
  rename_columns rename_map
    (str_upper (str_replace PyStr.CR "" (str_replace PyStr.LF "" (str_strip ls)))).

(** A label is upper-case when it holds no lower-case letter, and clean
    when it holds neither a line feed nor a carriage return. *)
Definition is_upper (s : string) : bool :=
  PyStr.all (fun c => negb (PyStr.islower c)) s.
Definition no_newline (s : string) : bool :=
  PyStr.all (fun c => negb (Ascii.eqb c PyStr.LF) && negb (Ascii.eqb c PyStr.CR)) s.

(** ** Tables *)

(** A scalar held by a cell or returned by a widget. *)
Inductive value : Type :=
| VNum (z : Z)
| VStr (s : string).

(** A cell: a scalar, or missing ([NaN]). *)
Definition cell : Type := option value.

(** A column with its dtype: [int64]/[float64] or [object]. *)
Inductive column : Type :=
| NumCol (xs : list (option Z))
| ObjCol (xs : list (option string)).

Definition cells (c : column) : list cell :=
  match c with
  | NumCol xs => map (option_map VNum) xs
  | ObjCol xs => map (option_map VStr) xs
  end.

(** A frame: the number of rows (the length of its index) and the
    labelled columns, in header order.  Labels may repeat. *)
Record DataFrame : Type := mkDF {
  nrows : nat;
  cols : list (string * column)
}.

(** [df.columns] *)
Definition columns (df : DataFrame) : list string := map fst (cols df).

(** Every column is as long as the index. *)
Definition well_formed (df : DataFrame) : Prop :=
  Forall (fun p => List.length (cells (snd p)) = nrows df) (cols df).

Definition value_eqb (a b : value) : bool :=
  match a, b with
  | VNum x, VNum y => Z.eqb x y
  | VStr x, VStr y => String.eqb x y
  | _, _ => false
  end.

(** Element-wise [==] of a cell with a widget's answer: a missing cell
    equals nothing, and nothing equals [None]. *)
Definition cell_eqb (x : cell) (sel : option value) : bool :=
  match x, sel with
  | Some a, Some b => value_eqb a b
  | _, _ => false
  end.

(** The order [sorted] uses inside one column; a column holds numbers or
    strings, never both, so the mixed cases are never compared. *)
Definition value_leb (a b : value) : bool :=
  match a, b with
  | VNum x, VNum y => Z.leb x y
  | VStr x, VStr y => String.leb x y
  | VNum _, VStr _ => true
  | VStr _, VNum _ => false
  end.

(** [label in df.columns] *)
Definition has_column (df : DataFrame) (c : string) : bool :=
  existsb (String.eqb c) (columns df).

(** [df.columns = labels] *)
Definition set_columns (df : DataFrame) (labels : list string) : DataFrame :=
  mkDF (nrows df) (combine labels (map snd (cols df))).

(** [df[c]] as a Series: the column labelled [c] when exactly one column
    carries that label.  An absent label is a [KeyError]; a repeated one
    selects a sub-frame, on which the Series operations of the script
    ([pd.to_numeric], [.unique()]) raise. *)
Definition getitem (df : DataFrame) (c : string) : option column :=
  match filter (fun p => String.eqb (fst p) c) (cols df) with
  | [(_, col)] => Some col
  | _ => None
  end.

(** [df[c] = col]: overwrite the column labelled [c], or append it. *)
Definition setitem (df : DataFrame) (c : string) (col : column) : DataFrame :=
  if has_column df c
  then mkDF (nrows df)
            (map (fun p => if String.eqb (fst p) c then (fst p, col) else p) (cols df))
  else mkDF (nrows df) (cols df ++ [(c, col)]).

(** A scalar broadcast over the index. *)
Definition broadcast (n : nat) (v : value) : column :=
  match v with
  | VNum z => NumCol (repeat (Some z) n)
  | VStr s => ObjCol (repeat (Some s) n)
  end.

(** Boolean indexing [xs[m]]. *)
Fixpoint select {A : Type} (m : list bool) (xs : list A) : list A :=
  match m, xs with
  | b :: m', x :: xs' => if b then x :: select m' xs' else select m' xs'
  | _, _ => []
  end.

Definition col_select (m : list bool) (c : column) : column :=
  match c with
  | NumCol xs => NumCol (select m xs)
  | ObjCol xs => ObjCol (select m xs)
  end.

(** [df[m]] for a boolean Series [m]. *)
Definition take_rows (df : DataFrame) (m : list bool) : DataFrame :=
  mkDF (List.length (select m (seq 0 (nrows df))))
       (map (fun p => (fst p, col_select m (snd p))) (cols df)).

(** [m1 & m2] *)
Definition mask_and (m1 m2 : list bool) : list bool :=
  map (fun p => andb (fst p) (snd p)) (combine m1 m2).

(** [df[c] == v] *)
Definition eq_mask (c : column) (sel : option value) : list bool :=
  map (fun x => cell_eqb x sel) (cells c).

Definition notna (c : column) : list bool :=
  map (fun x => match x with Some _ => true | None => false end) (cells c).

(** [pd.to_numeric(s, errors='coerce')]: a numeric column is kept, the
    strings of an object column go through the parser [parse], and what
    does not parse becomes missing. *)
Definition to_numeric (parse : string -> option Z) (c : column) : list (option Z) :=
  match c with
  | NumCol xs => xs
  | ObjCol xs => map (fun o => match o with Some s => parse s | None => None end) xs
  end.

(** [df.dropna(subset=labels)]: a row goes when any column carrying one
    of the labels has a missing cell there. *)
Definition dropna (df : DataFrame) (subset : list string) : DataFrame :=
  take_rows df
    (fold_left
       (fun m p => if existsb (String.eqb (fst p)) subset
                   then mask_and m (notna (snd p)) else m)
       (cols df) (repeat true (nrows df))).

(** [df.empty] *)
Definition empty (df : DataFrame) : bool :=
  (nrows df =? 0)%nat || match cols df with [] => true | _ => false end.

(** [df[labels]]: the columns carrying the labels, in the order asked. *)
Definition getitems (df : DataFrame) (labels : list string) : DataFrame :=
  mkDF (nrows df)
       (flat_map (fun l => filter (fun p => String.eqb (fst p) l) (cols df)) labels).

(** The rows of a frame, as records from label to cell. *)
Definition row : Type := list (string * cell).

Fixpoint transpose (n : nat) (cs : list (string * list cell)) : list row :=
  match n with
  | O => []
  | S n' =>
      map (fun p => (fst p, hd None (snd p))) cs
        :: transpose n' (map (fun p => (fst p, tl (snd p))) cs)
  end.

Definition rows (df : DataFrame) : list row :=
  transpose (nrows df) (map (fun p => (fst p, cells (snd p))) (cols df)).

(** [r[c]]: the cell of a row under a label (the first, if repeated). *)
Definition field (r : row) (c : string) : cell :=
  match dict_get r c with
  | Some x => x
  | None => None
  end.

(** ** Sorting, distinct values, grouping *)

Fixpoint insert {A : Type} (leb : A -> A -> bool) (x : A) (l : list A) : list A :=
  match l with
  | [] => [x]
  | y :: l' => if leb x y then x :: l else y :: insert leb x l'
  end.

(** A stable sort by [leb]. *)
Definition sort {A : Type} (leb : A -> A -> bool) (l : list A) : list A :=
  fold_right (insert leb) [] l.

(** Distinct elements, by first appearance. *)
Fixpoint unique {A : Type} (eqb : A -> A -> bool) (l : list A) : list A :=
  match l with
  | [] => []
  | x :: l' => x :: filter (fun y => negb (eqb x y)) (unique eqb l')
  end.

(** The cells that are present. *)
Fixpoint present {A : Type} (l : list (option A)) : list A :=
  match l with
  | [] => []
  | Some x :: l' => x :: present l'
  | None :: l' => present l'
  end.

(** [sorted(s.unique())] on a column without missing cells, which is
    what [dropna] leaves in the three dimension columns. *)
Definition sorted_unique (c : column) : list value :=
  sort value_leb (unique value_eqb (present (cells c))).

(** What pandas decides and a table of this model does not.  A sum is
    computed in the dtype of the column, int64 wrapping around and
    float64 rounding, and a [column] does not record which of the two it
    is; [sort_values] sorts with an unstable algorithm and promises no
    order among equal values.  These are taken as they come, and nothing
    is assumed of them: every property below holds for every [Pandas].
    - [frame_sum l xs] is what [DataFrame.sum] gives for the numeric
      column labelled [l] holding [xs], missing cells skipped, [None]
      being [NaN];
    - [group_sum xs] is what [groupby(...).sum()] gives for a group of the
      total column whose values are [xs], missing values skipped; like
      the cells, it is an integer;
    - [tie_rank k] places the entry keyed [k] among the entries of equal
      value in the result of [sort_values].  The keys of a grouped series
      are pairwise distinct, so every order the sort can leave equal
      values in is the order of some [tie_rank]. *)
Record Pandas : Type := mkPandas {
  frame_sum : string -> list (option Z) -> option Z;
  group_sum : list (option Z) -> Z;
  tie_rank : value -> nat
}.

(** [df.groupby(key)[val].sum()]: one entry per distinct key, keys in
    sorted order, rows with a missing key left out; the entry of a key
    is the sum of the values of the rows with that key, in row order. *)
Definition groupby_sum (pd : Pandas) (keys : column) (vals : list (option Z))
  : list (value * Z) :=
  map (fun k => (k, group_sum pd (select (eq_mask keys (Some k)) vals)))
      (sorted_unique keys).

(** The order of [sort_values(ascending=False)]: greater values first,
    equal values as [tie_rank] has them. *)
Definition desc_leb (pd : Pandas) (a b : value * Z) : bool :=
  Z.ltb (snd b) (snd a)
  || (Z.eqb (snd a) (snd b) && Nat.leb (tie_rank pd (fst a)) (tie_rank pd (fst b))).

(** [s.sort_values(ascending=False)] *)
Definition sort_values_desc (pd : Pandas) (s : list (value * Z)) : list (value * Z) :=
  sort (desc_leb pd) s.

(** [s.sort_index()] *)
Definition sort_index (s : list (value * Z)) : list (value * Z) :=
  sort (fun a b => value_leb (fst a) (fst b)) s.

(** [s.head(n)] *)
Definition head {A : Type} (n : nat) (s : list A) : list A := firstn n s.

(** [sub.sum(numeric_only=True)]: one total per numeric column, missing
    cells skipped; object columns are left out. *)
Definition sum_numeric_only (pd : Pandas) (df : DataFrame) : list (string * option Z) :=
  flat_map
    (fun p => match snd p with
              | NumCol xs => [(fst p, frame_sum pd (fst p) xs)]
              | ObjCol _ => []
              end)
    (cols df).

(** [pd.to_numeric(s, errors='coerce').dropna()] on the Series of totals,
    which is numeric already: the totals that are [NaN] go. *)
Definition series_dropna (s : list (string * option Z)) : list (string * Z) :=
  flat_map (fun p => match snd p with Some z => [(fst p, z)] | None => [] end) s.

(** [s[s > 0]] *)
Definition positive_only (s : list (string * Z)) : list (string * Z) :=
  select (map (fun p => Z.ltb 0 (snd p)) s) s.

(** ** Schema backfill and validation: lines 44-55 *)

(** Lines 31 and 41 on a frame: only the labels change. *)
Definition standardize (df : DataFrame) : DataFrame :=
  let df1 :=
    set_columns df
      (str_upper
         (str_replace PyStr.CR "" (str_replace PyStr.LF "" (str_strip (columns df))))) in
  set_columns df1 (rename_columns rename_map (columns df1)).

Definition backfill (df : DataFrame) : DataFrame :=
  let df1 :=
    if negb (has_column df "DISTRICT")
    then setitem df "DISTRICT" (broadcast (nrows df) (VStr "ALL"))
    else df in
  if negb (has_column df1 "YEAR")
  then setitem df1 "YEAR" (broadcast (nrows df1) (VNum 2012))
  else df1.

Definition required_columns : list string := ["STATE/UT"; "DISTRICT"; "YEAR"].

(** [required_columns.issubset(df.columns)] *)
Definition has_required (df : DataFrame) : bool :=
  forallb (has_column df) required_columns.

(** ** Widgets *)

(** [st.selectbox(label, options)]: the option the user picked, the first
    one by default, [None] when there is nothing to pick from. *)
Definition selectbox {A : Type} (options : list A) (pick : nat) : option A :=
  match nth_error options pick with
  | Some x => Some x
  | None => hd_error options
  end.

(** [st.multiselect(label, options, default=default)]: the default until
    the user chooses, then the chosen options. *)
Definition multiselect (options default : list string) (pick : option (list string))
  : list string :=
  match pick with
  | None => default
  | Some chosen => filter (fun c => existsb (String.eqb c) options) chosen
  end.

(** ** The sidebar and the selection: lines 57-87 *)

Notation "'let?' x ':=' m 'in' k" :=
  (match m with Some x => k | None => None end)
  (at level 10, x name, m at level 100, k at level 200).

(** Lines 62-63. *)
Definition coerce_and_drop (parse : string -> option Z) (df : DataFrame)
  : option DataFrame :=
  let? year := getitem df "YEAR" in
  Some (dropna (setitem df "YEAR" (NumCol (to_numeric parse year))) required_columns).

(** Lines 66, 72 and 75: the three lists of choices. *)
Definition state_options (df : DataFrame) : option (list value) :=
  let? st := getitem df "STATE/UT" in Some (sorted_unique st).

Definition state_data (df : DataFrame) (selected_state : option value)
  : option DataFrame :=
  let? st := getitem df "STATE/UT" in Some (take_rows df (eq_mask st selected_state)).

Definition district_options (df : DataFrame) (selected_state : option value)
  : option (list value) :=
  let? sd := state_data df selected_state in
  let? d := getitem sd "DISTRICT" in Some (sorted_unique d).

Definition year_options (df : DataFrame) (selected_state : option value)
  : option (list value) :=
  let? sd := state_data df selected_state in
  let? y := getitem sd "YEAR" in Some (sorted_unique y).

(** Lines 78-79. *)
Definition crime_columns (df : DataFrame) : list string :=
  filter (fun c => negb (existsb (String.eqb c) required_columns)) (columns df).

Definition valid_defaults (df : DataFrame) : list string :=
  filter (fun c => existsb (String.eqb c) (crime_columns df)) ["MURDER"; "RAPE"].

(** Lines 83-87. *)
Definition filtered_data (df : DataFrame) (s d y : option value) : option DataFrame :=
  let? st := getitem df "STATE/UT" in
  let? di := getitem df "DISTRICT" in
  let? ye := getitem df "YEAR" in
  Some (take_rows df (mask_and (mask_and (eq_mask st s) (eq_mask di d)) (eq_mask ye y))).

(** The row test the specification words: all three fields equal. *)
Definition exact_match (s d y : option value) (r : row) : bool :=
  cell_eqb (field r "STATE/UT") s
  && cell_eqb (field r "DISTRICT") d
  && cell_eqb (field r "YEAR") y.

(** The user's answers and what the sidebar derives from them. *)
Record Picks : Type := mkPicks {
  pick_file : nat;
  pick_state : nat;
  pick_district : nat;
  pick_year : nat;
  pick_crimes : option (list string)
}.

Record Selection : Type := mkSelection {
  working : DataFrame;
  states : list value;
  districts : list value;
  years : list value;
  selected_state : option value;
  selected_district : option value;
  selected_year : option value;
  selected_crimes : list string
}.

Definition sidebar (parse : string -> option Z) (p : Picks) (df0 : DataFrame)
  : option Selection :=
  let? df := coerce_and_drop parse df0 in
  let? sts := state_options df in
  let s := selectbox sts (pick_state p) in
  let? dis := district_options df s in
  let d := selectbox dis (pick_district p) in
  let? yrs := year_options df s in
  let y := selectbox yrs (pick_year p) in
  let crimes := multiselect (crime_columns df) (valid_defaults df) (pick_crimes p) in
  Some (mkSelection df sts dis yrs s d y crimes).

(** ** The aggregate views: lines 96-103, 118-119, 127-129 *)

Definition total_selected (pd : Pandas) (fd : DataFrame) (crimes : list string)
  : list (string * option Z) :=
  sum_numeric_only pd (getitems fd crimes).

Definition cleaned (total : list (string * option Z)) : list (string * Z) :=
  positive_only (series_dropna total).

(** Line 118: the total column made numeric in place. *)
Definition coerce_total (parse : string -> option Z) (df : DataFrame)
  : option DataFrame :=
  let? t := getitem df "TOTAL IPC CRIMES" in
  Some (setitem df "TOTAL IPC CRIMES" (NumCol (to_numeric parse t))).

(** The values a numeric column holds. *)
Definition numbers (c : column) : list (option Z) :=
  match c with
  | NumCol xs => xs
  | ObjCol xs => map (fun _ => None) xs
  end.

(** Line 119, on the table line 118 left. *)
Definition top_states (pd : Pandas) (df : DataFrame) : option (list (value * Z)) :=
  let? st := getitem df "STATE/UT" in
  let? t := getitem df "TOTAL IPC CRIMES" in
  Some (head 5 (sort_values_desc pd (groupby_sum pd st (numbers t)))).

(** Lines 127-129, on the table line 118 left. *)
Definition trend_data (pd : Pandas) (parse : string -> option Z) (df : DataFrame)
  (selected_state : option value) : option (list (value * Z)) :=
  let? trend := state_data df selected_state in
  let? t := getitem trend "TOTAL IPC CRIMES" in
  let trend := setitem trend "TOTAL IPC CRIMES" (NumCol (to_numeric parse t)) in
  let? y := getitem trend "YEAR" in
  let? t := getitem trend "TOTAL IPC CRIMES" in
  Some (sort_index (groupby_sum pd y (numbers t))).

(** ** The session *)

(** What the page shows.  Headings are left out. *)
Inductive event : Type :=
| StError (msg : string)
| StWarning (msg : string)
| StInfo (msg : string)
| StDataframe (d : DataFrame)
| StWrite (s : list (string * option Z))
| StPyplot (s : list (string * Z))
| StBarChart (s : list (value * Z))
| StLineChart (s : list (value * Z)).

(** How a run can end before the last line: [st.stop()], or an exception
    nobody catches. *)
Inductive halt : Type := Stopped | Raised.

(** A run: what was shown so far, and either a halt or a result. *)
Definition ui (A : Type) : Type := (list event * (halt + A))%type.

Definition ret {A : Type} (a : A) : ui A := ([], inr a).

Definition bind {A B : Type} (m : ui A) (k : A -> ui B) : ui B :=
  match m with
  | (evs, inl h) => (evs, inl h)
  | (evs, inr a) => let (evs', r) := k a in ((evs ++ evs')%list, r)
  end.

Notation "x <- m ;; k" := (bind m (fun x => k))
  (at level 61, m at next level, right associativity).
Notation "m ;;; k" := (bind m (fun _ => k))
  (at level 61, right associativity).

Definition show (e : event) : ui unit := ([e], inr tt).
Definition st_stop {A : Type} : ui A := ([], inl Stopped).

(** A library call that raises when it has no result. *)
Definition try {A : Type} (o : option A) : ui A :=
  match o with
  | Some a => ret a
  | None => ([], inl Raised)
  end.

(** The data folder and the CSV reader, as the run finds them. *)
Record World : Type := mkWorld {
  listdir : list string;
  read_csv : string -> string + DataFrame
}.

Definition DATA_FOLDER : string := "crime".

(** [os.path.join(DATA_FOLDER, f)] *)
Definition path_join (d f : string) : string := d ++ "/" ++ f.

(** Lines 12-28. *)
Definition load (w : World) (p : Picks) : ui DataFrame :=
  let csv_files := filter (fun f => PyStr.endswith f ".csv") (listdir w) in
  (match csv_files with
   | [] => show (StError "No CSV files found in the data folder.") ;;; st_stop
   | _ => ret tt
   end) ;;;
  selected_file <- try (selectbox csv_files (pick_file p)) ;;
  match read_csv w (path_join DATA_FOLDER selected_file) with
  | inl e => show (StError ("Failed to read the file: " ++ e)) ;;; st_stop
  | inr df => ret df
  end.

(** Lines 30-55. *)
Definition prepare (df : DataFrame) : ui DataFrame :=
  let df := backfill (standardize df) in
  if negb (has_required df)
  then show (StError
         "This dataset is missing required columns: 'STATE/UT', 'DISTRICT', or 'YEAR'")
       ;;; st_stop
  else ret df.

(** No label occurs twice. *)
Fixpoint distinct (ls : list string) : bool :=
  match ls with
  | [] => true
  | l :: ls' => negb (existsb (String.eqb l) ls') && distinct ls'
  end.

(** [st.dataframe(d)]: the table is shown, unless two of its columns share
    a label, which [st.dataframe] refuses with an exception. *)
Definition st_dataframe (d : DataFrame) : ui unit :=
  if distinct (columns d) then show (StDataframe d) else ([], inl Raised).

(** Lines 82-112: the table, the totals and the pie chart. *)
Definition filtered_view (pd : Pandas) (sel : Selection) : ui unit :=
  fd <- try (filtered_data (working sel) (selected_state sel)
               (selected_district sel) (selected_year sel)) ;;
  if negb (empty fd) && negb (match selected_crimes sel with [] => true | _ => false end)
  then
    st_dataframe (getitems fd (selected_crimes sel)) ;;;
    let total := total_selected pd fd (selected_crimes sel) in
    show (StWrite total) ;;;
    match cleaned total with
    | [] => show (StInfo "No valid data for pie chart.")
    | c => show (StPyplot c)
    end
  else
    show (StWarning
      "No data available for the selected filters or no crime types selected.").

(** Lines 116-123: the ranking. *)
Definition ranking_view (pd : Pandas) (df : DataFrame) : ui unit :=
  top <- try (top_states pd df) ;;
  match top with
  | [] => show (StWarning
            "No data available for 'TOTAL IPC CRIMES' to generate bar chart.")
  | _ => show (StBarChart top)
  end.

(** Lines 125-133: the trend. *)
Definition trend_view (pd : Pandas) (parse : string -> option Z) (df : DataFrame)
  (s : option value) : ui unit :=
  tr <- try (trend_data pd parse df s) ;;
  match tr with
  | [] => show (StWarning "No data available for the crime trend chart.")
  | _ => show (StLineChart tr)
  end.

(** Lines 114-135. *)
Definition total_views (pd : Pandas) (parse : string -> option Z) (sel : Selection)
  : ui unit :=
  if has_column (working sel) "TOTAL IPC CRIMES"
  then
    df <- try (coerce_total parse (working sel)) ;;
    ranking_view pd df ;;;
    trend_view pd parse df (selected_state sel)
  else
    show (StWarning
      "No 'TOTAL IPC CRIMES' column found in the dataset to generate charts.").

(** The script, top to bottom. *)
Definition app (pd : Pandas) (parse : string -> option Z) (w : World) (p : Picks)
  : ui unit :=
  df <- load w p ;;
  df <- prepare df ;;
  sel <- try (sidebar parse p df) ;;
  filtered_view pd sel ;;;
  total_views pd parse sel.

(** ** Vocabulary of the properties *)

(** One pass doing what the two [replace] calls and [upper] do together:
    line feeds and carriage returns go, the rest is upper-cased. *)
Fixpoint squash (s : string) : string :=
  match s with
  | EmptyString => EmptyString
  | String c r =>
      if Ascii.eqb c PyStr.LF || Ascii.eqb c PyStr.CR then squash r
      else String (PyStr.upper_char c) (squash r)
  end.

(** A string with nothing to strip on the left, or on the right. *)
Definition left_clean (s : string) : Prop := PyStr.lstrip s = s.
Definition right_clean (s : string) : Prop := PyStr.rstrip s = s.

Definition labelled (c : string) (p : string * column) : bool := String.eqb (fst p) c.

(** What [backfill] adds: nothing for a label the header has. *)
Definition backfill_extra (df : DataFrame) : list (string * column) :=
  (if has_column df "DISTRICT" then []
   else [("DISTRICT", ObjCol (repeat (Some "ALL") (nrows df)))])
  ++ (if has_column df "YEAR" then []
      else [("YEAR", NumCol (repeat (Some 2012%Z) (nrows df)))]).

Definition is_present {A : Type} (x : option A) : bool :=
  match x with Some _ => true | None => false end.

(** The row test behind [dropna(subset=...)]: every cell under one of the
    labels is present. *)
Definition row_complete (subset : list string) (r : row) : bool :=
  forallb (fun e => negb (existsb (String.eqb (fst e)) subset) || is_present (snd e)) r.

(** One step of the mask computation in [dropna]. *)
Definition dropna_step (subset : list string) (m : list bool) (p : string * column)
  : list bool :=
  if existsb (String.eqb (fst p)) subset then mask_and m (notna (snd p)) else m.

Definition no_data_warning : string :=
  "No data available for the selected filters or no crime types selected.".

Definition no_total_warning : string :=
  "No 'TOTAL IPC CRIMES' column found in the dataset to generate charts.".

(** What the pie chart slot shows for the cleaned totals. *)
Definition pie_event (c : list (string * Z)) : event :=
  match c with
  | [] => StInfo "No valid data for pie chart."
  | _ => StPyplot c
  end.

Definition ranking_event (top : list (value * Z)) : event :=
  match top with
  | [] => StWarning "No data available for 'TOTAL IPC CRIMES' to generate bar chart."
  | _ => StBarChart top
  end.

Definition trend_event (tr : list (value * Z)) : event :=
  match tr with
  | [] => StWarning "No data available for the crime trend chart."
  | _ => StLineChart tr
  end.



(** How many columns carry the label [c]. *)
Definition label_count (df : DataFrame) (c : string) : nat :=
  List.length (filter (fun l => String.eqb l c) (columns df)).

(** Line 14. *)
Definition csv_files (w : World) : list string :=
  filter (fun f => PyStr.endswith f ".csv") (listdir w).

(** The three conditions under which the script calls [st.stop()]. *)
Definition no_files (w : World) : Prop := csv_files w = [].

Definition unreadable (w : World) (p : Picks) : Prop :=
  exists f e,
    selectbox (csv_files w) (pick_file p) = Some f
    /\ read_csv w (path_join DATA_FOLDER f) = inl e.

Definition missing_dimension (w : World) (p : Picks) : Prop :=
  exists f df,
    selectbox (csv_files w) (pick_file p) = Some f
    /\ read_csv w (path_join DATA_FOLDER f) = inr df
    /\ has_required (backfill (standardize df)) = false.

(** ** Sample data *)

(** A small table in canonical form, for running the definitions. *)
Definition sample : DataFrame :=
  mkDF 3
    [ ("STATE/UT", ObjCol [Some "Goa"; Some "Goa"; Some "Kerala"]);
      ("DISTRICT", ObjCol [Some "North Goa"; Some "South Goa"; Some "Idukki"]);
      ("YEAR", NumCol [Some 2012%Z; Some 2013%Z; Some 2012%Z]);
      ("MURDER", NumCol [Some 5%Z; Some 0%Z; Some 7%Z]);
      ("RAPE", NumCol [Some 2%Z; None; Some 1%Z]);
      ("TOTAL IPC CRIMES", NumCol [Some 50%Z; Some 10%Z; Some 70%Z]) ].

(** A reader of unsigned decimal numerals, standing for the numeric parser
    where one is run. *)
Fixpoint digits (acc : Z) (s : string) : option Z :=
  match s with
  | EmptyString => Some acc
  | String c r =>
      let n := nat_of_ascii c in
      if ((48 <=? n) && (n <=? 57))%nat
      then digits (10 * acc + Z.of_nat (n - 48)) r
      else None
  end.

Definition parse_decimal (s : string) : option Z :=
  match s with
  | EmptyString => None
  | _ => digits 0 s
  end.

(** A table as a file gives it: raw labels, years as text, a state
    missing in one row, no DISTRICT column. *)
Definition raw_sample : DataFrame :=
  mkDF 4
    [ (" States/UTs", ObjCol [Some "Goa"; Some "Goa"; None; Some "Kerala"]);
      ("Year ", ObjCol [Some "2012"; Some "n/a"; Some "2013"; Some "2012"]);
      ("Murder", NumCol [Some 5%Z; Some 1%Z; Some 3%Z; Some 7%Z]);
      ("Total Cognizable" ++ String PyStr.LF " IPC Crimes",
       NumCol [Some 50%Z; Some 10%Z; Some 30%Z; Some 70%Z]) ].

Definition sample_world : World :=
  mkWorld ["notes.txt"; "crime_2012.csv"] (fun _ => inr raw_sample).

Definition sample_picks : Picks := mkPicks 0 0 0 0 None.

(** The reductions of pandas when every numeric column is int64, with equal
    values left in the order of their keys. *)
Definition wrap64 (z : Z) : Z := ((z + 2 ^ 63) mod 2 ^ 64 - 2 ^ 63)%Z.

Definition int64_pandas : Pandas :=
  mkPandas
    (fun _ xs => Some (wrap64 (fold_right Z.add 0%Z (present xs))))
    (fun xs => wrap64 (fold_right Z.add 0%Z (present xs)))
    (fun _ => 0).

(** A table whose header has two labels that differ in case only. *)
Definition twice_murder : DataFrame :=
  mkDF 1
    [ ("State", ObjCol [Some "Goa"]);
      ("District", ObjCol [Some "North Goa"]);
      ("Year", NumCol [Some 2012%Z]);
      ("Murder", NumCol [Some 5%Z]);
      ("murder", NumCol [Some 4%Z]) ].

Definition twice_murder_world : World :=
  mkWorld ["crime.csv"] (fun _ => inr twice_murder).

(** The sidebar's answer on [sample] for Goa, North Goa, 2012. *)
Definition sample_selection : Selection :=
  mkSelection sample
    [VStr "Goa"; VStr "Kerala"]
    [VStr "North Goa"; VStr "South Goa"]
    [VNum 2012; VNum 2013]
    (Some (VStr "Goa")) (Some (VStr "North Goa")) (Some (VNum 2012))
    ["MURDER"; "RAPE"].

(** ** Vocabulary of the further properties *)

(** The characters of a label other than white space, in order. *)
Definition visible (s : string) : list ascii :=
  filter (fun c => negb (PyStr.isspace c)) (list_ascii_of_string s).

(** A table in canonical form with a header and no row. *)
Definition header_only : DataFrame :=
  mkDF 0
    [ ("STATE/UT", ObjCol []); ("DISTRICT", ObjCol []); ("YEAR", ObjCol []);
      ("MURDER", ObjCol []); ("TOTAL IPC CRIMES", ObjCol []) ].

(** * Properties *)

(** ** Characters and labels *)

Section Labels.

Import PyStr.

Lemma squash_spec (s : string) :
  upper (replace CR "" (replace LF "" s)) = squash s.
Proof.
  induction s as [|c r IH]; simpl; [reflexivity|].
  destruct (Ascii.eqb c LF) eqn:El; simpl; [exact IH|].
  destruct (Ascii.eqb c CR) eqn:Ec; simpl; [exact IH|].
  now rewrite IH.
Qed.

Ltac by_cases c := destruct c as [[] [] [] [] [] [] [] []]; vm_compute; auto.

Lemma upper_char_not_lower (c : ascii) : islower (upper_char c) = false.
Proof. by_cases c. Qed.

Lemma upper_char_idem (c : ascii) : upper_char (upper_char c) = upper_char c.
Proof. by_cases c. Qed.

Lemma upper_char_newline (c : ascii) :
  Ascii.eqb (upper_char c) LF || Ascii.eqb (upper_char c) CR
  = Ascii.eqb c LF || Ascii.eqb c CR.
Proof. by_cases c. Qed.

Lemma upper_char_space (c : ascii) : isspace (upper_char c) = isspace c.
Proof. by_cases c. Qed.

Lemma newline_is_space (c : ascii) :
  Ascii.eqb c LF || Ascii.eqb c CR = true -> isspace c = true.
Proof. by_cases c. Qed.

Lemma squash_idem (s : string) : squash (squash s) = squash s.
Proof.
  induction s as [|c r IH]; simpl; [reflexivity|].
  destruct (Ascii.eqb c LF || Ascii.eqb c CR) eqn:E; [exact IH|].
  simpl. rewrite upper_char_newline, E, upper_char_idem, IH. reflexivity.
Qed.

Lemma squash_upper (s : string) : is_upper (squash s) = true.
Proof.
  induction s as [|c r IH]; simpl; [reflexivity|].
  destruct (Ascii.eqb c LF || Ascii.eqb c CR); [exact IH|].
  unfold is_upper in *. simpl. now rewrite upper_char_not_lower, IH.
Qed.

Lemma squash_no_newline (s : string) : no_newline (squash s) = true.
Proof.
  induction s as [|c r IH]; simpl; [reflexivity|].
  destruct (Ascii.eqb c LF || Ascii.eqb c CR) eqn:E; [exact IH|].
  unfold no_newline in *. simpl. rewrite IH, andb_true_r.
  rewrite <- negb_orb, upper_char_newline, E. reflexivity.
Qed.

Lemma left_clean_inv (c : ascii) (r : string) :
  left_clean (String c r) -> isspace c = false.
Proof.
  unfold left_clean. simpl. destruct (isspace c) eqn:E; [|reflexivity].
  intros H. exfalso.
  assert (L : forall t, String.length (lstrip t) <= String.length t).
  { induction t as [|a t IHt]; simpl; [lia|].
    destruct (isspace a); simpl; lia. }
  specialize (L r). rewrite H in L. simpl in L. lia.
Qed.

Lemma right_clean_inv (c : ascii) (r : string) :
  right_clean (String c r) ->
  (r = EmptyString /\ isspace c = false) \/ (r <> EmptyString /\ right_clean r).
Proof.
  unfold right_clean. simpl. destruct (rstrip r) as [|a t] eqn:E.
  - destruct (isspace c); [discriminate|].
    intros H. injection H as H. left. now split.
  - intros H. injection H as H. right. subst r. split; [discriminate|reflexivity].
Qed.

Lemma squash_left_clean (s : string) : left_clean s -> left_clean (squash s).
Proof.
  destruct s as [|c r]; [reflexivity|].
  intros H. pose proof (left_clean_inv _ _ H) as Hc. simpl.
  destruct (Ascii.eqb c LF || Ascii.eqb c CR) eqn:E.
  - apply newline_is_space in E. congruence.
  - unfold left_clean. simpl. now rewrite upper_char_space, Hc.
Qed.

Lemma squash_right_clean_nonempty (s : string) :
  s <> EmptyString -> right_clean s -> squash s <> EmptyString.
Proof.
  induction s as [|c r IH]; [congruence|].
  intros _ H. simpl. destruct (right_clean_inv _ _ H) as [[-> Hc]|[Hr Hrc]].
  - destruct (Ascii.eqb c LF || Ascii.eqb c CR) eqn:E; [|discriminate].
    apply newline_is_space in E. congruence.
  - destruct (Ascii.eqb c LF || Ascii.eqb c CR); [now apply IH|discriminate].
Qed.

Lemma squash_right_clean (s : string) : right_clean s -> right_clean (squash s).
Proof.
  induction s as [|c r IH]; [reflexivity|].
  intros H. simpl. destruct (right_clean_inv _ _ H) as [[-> Hc]|[Hr Hrc]].
  - destruct (Ascii.eqb c LF || Ascii.eqb c CR) eqn:E; [reflexivity|].
    unfold right_clean. simpl. now rewrite upper_char_space, Hc.
  - specialize (IH Hrc).
    pose proof (squash_right_clean_nonempty r Hr Hrc) as Hne.
    destruct (Ascii.eqb c LF || Ascii.eqb c CR); [exact IH|].
    unfold right_clean in *. simpl. rewrite IH.
    destruct (squash r); [congruence|reflexivity].
Qed.

Lemma rstrip_right_clean (s : string) : right_clean (rstrip s).
Proof.
  unfold right_clean. induction s as [|c r IH]; [reflexivity|].
  simpl. destruct (rstrip r) as [|a t] eqn:E.
  - destruct (isspace c) eqn:Ec; [reflexivity|]. simpl. now rewrite Ec.
  - simpl in *. rewrite IH. reflexivity.
Qed.

Lemma rstrip_left_clean (s : string) : left_clean s -> left_clean (rstrip s).
Proof.
  destruct s as [|c r]; [reflexivity|].
  intros H. pose proof (left_clean_inv _ _ H) as Hc.
  unfold left_clean. simpl. rewrite Hc.
  destruct (rstrip r); simpl; now rewrite Hc.
Qed.

Lemma lstrip_left_clean (s : string) : left_clean (lstrip s).
Proof.
  unfold left_clean. induction s as [|c r IH]; [reflexivity|].
  simpl. destruct (isspace c) eqn:E; [exact IH|]. simpl. now rewrite E.
Qed.

Lemma strip_fixed (s : string) : left_clean s -> right_clean s -> strip s = s.
Proof. unfold strip. intros Hl Hr. rewrite Hl. exact Hr. Qed.

Lemma normalize_label_squash (s : string) :
  normalize_label s = squash (strip s).
Proof. unfold normalize_label. apply squash_spec. Qed.

Lemma normalize_label_clean (s : string) :
  strip (normalize_label s) = normalize_label s.
Proof.
  rewrite normalize_label_squash. apply strip_fixed.
  - apply squash_left_clean, rstrip_left_clean, lstrip_left_clean.
  - apply squash_right_clean, rstrip_right_clean.
Qed.

Lemma rename_label_cases (l : string) :
  (rename_label rename_map l = l)
  \/ (l = "STATES/UTS" /\ rename_label rename_map l = "STATE/UT")
  \/ (l = "STATE" /\ rename_label rename_map l = "STATE/UT")
  \/ (l = "TOTAL COGNIZABLE IPC CRIMES"
      /\ rename_label rename_map l = "TOTAL IPC CRIMES").
Proof.
  unfold rename_label, rename_map, dict_get.
  destruct (String.eqb_spec l "STATES/UTS") as [->|_]; [right; left; now split|].
  destruct (String.eqb_spec l "STATE") as [->|_]; [right; right; left; now split|].
  destruct (String.eqb_spec l "DISTRICT") as [->|_]; [now left|].
  destruct (String.eqb_spec l "YEAR") as [->|_]; [now left|].
  destruct (String.eqb_spec l "TOTAL COGNIZABLE IPC CRIMES") as [->|_];
    [right; right; right; now split|now left].
Qed.

Lemma rename_label_keeps (P : string -> bool) (l : string) :
  P "STATE/UT" = true -> P "TOTAL IPC CRIMES" = true ->
  P l = true -> P (rename_label rename_map l) = true.
Proof.
  intros H1 H2 Hl.
  destruct (rename_label_cases l) as [E|[[_ E]|[[_ E]|[_ E]]]]; now rewrite E.
Qed.

End Labels.

(** ** The header of a frame *)

Lemma lstrip_split (s : string) :
  exists a, s = a ++ PyStr.lstrip s /\ PyStr.all PyStr.isspace a = true.
Proof.
  induction s as [|c r [a [Ha Hsp]]]; [now exists ""|]. simpl.
  destruct (PyStr.isspace c) eqn:E.
  - exists (String c a). simpl. rewrite E, Hsp. split; [now rewrite <- Ha|reflexivity].
  - now exists "".
Qed.

Lemma rstrip_split (s : string) :
  exists b, s = PyStr.rstrip s ++ b /\ PyStr.all PyStr.isspace b = true.
Proof.
  induction s as [|c r [b [Hb Hsp]]]; [now exists ""|]. simpl.
  destruct (PyStr.rstrip r) as [|c' r'] eqn:E.
  - simpl in Hb. subst b. destruct (PyStr.isspace c) eqn:Ec.
    + exists (String c r). simpl. rewrite Ec, Hsp. now split.
    + exists r. simpl. now split.
  - exists b. simpl. split; [|exact Hsp]. simpl in Hb. now rewrite <- Hb.
Qed.

Lemma right_clean_last (t r : string) (c : ascii) :
  right_clean t -> t = r ++ String c "" -> PyStr.isspace c = false.
Proof.
  revert t. induction r as [|x r IH]; intros t Ht ->; simpl in *.
  - destruct (right_clean_inv _ _ Ht) as [[_ H]|[H _]]; [exact H|congruence].
  - destruct (right_clean_inv _ _ Ht) as [[H _]|[_ H]].
    + destruct r; discriminate.
    + exact (IH _ H eq_refl).
Qed.

Lemma squash_chars (s : string) :
  list_ascii_of_string (squash s)
  = map PyStr.upper_char
      (filter (fun c => negb (Ascii.eqb c PyStr.LF) && negb (Ascii.eqb c PyStr.CR))
         (list_ascii_of_string s)).
Proof.
  induction s as [|c r IH]; simpl; [reflexivity|].
  rewrite <- negb_orb.
  destruct (Ascii.eqb c PyStr.LF || Ascii.eqb c PyStr.CR); simpl; now rewrite IH.
Qed.

Lemma rename_label_other (l : string) :
  l <> "STATES/UTS" -> l <> "STATE" -> l <> "TOTAL COGNIZABLE IPC CRIMES" ->
  rename_label rename_map l = l.
Proof.
  intros H1 H2 H3.
  destruct (rename_label_cases l) as [E|[[E _]|[[E _]|[E _]]]];
    [exact E|contradiction|contradiction|contradiction].
Qed.

(** A label that neither begins nor ends with a white-space character. *)
Lemma clean_ends (s : string) :
  left_clean s -> right_clean s ->
  (forall c r, s = String c r -> PyStr.isspace c = false)
  /\ (forall r c, s = r ++ String c "" -> PyStr.isspace c = false).
Proof.
  intros Hl Hr. split.
  - intros c r ->. exact (left_clean_inv c r Hl).
  - intros r c E. exact (right_clean_last s r c Hr E).
Qed.

Lemma canonical_clean (l : string) :
  left_clean (rename_label rename_map (normalize_label l))
  /\ right_clean (rename_label rename_map (normalize_label l)).
Proof.
  assert (Hl : left_clean (normalize_label l)).
  { rewrite normalize_label_squash.
    apply squash_left_clean, rstrip_left_clean, lstrip_left_clean. }
  assert (Hr : right_clean (normalize_label l)).
  { rewrite normalize_label_squash. apply squash_right_clean, rstrip_right_clean. }
  destruct (rename_label_cases (normalize_label l)) as [E|[[_ E]|[[_ E]|[_ E]]]];
    rewrite E; split; try assumption; reflexivity.
Qed.

Lemma set_columns_map (f : string -> string) (df : DataFrame) :
  cols (set_columns df (map f (columns df)))
  = map (fun p => (f (fst p), snd p)) (cols df).
Proof.
  unfold set_columns, columns. simpl.
  induction (cols df) as [|p l IH]; simpl; [reflexivity|]. now rewrite IH.
Qed.

Lemma standardize_cols (df : DataFrame) :
  cols (standardize df)
  = map (fun p => (rename_label rename_map (normalize_label (fst p)), snd p)) (cols df).
Proof.
  unfold standardize, str_upper, str_replace, str_strip, rename_columns.
  rewrite !map_map. rewrite set_columns_map.
  rewrite (set_columns_map
             (fun x => PyStr.upper (PyStr.replace PyStr.CR ""
                         (PyStr.replace PyStr.LF "" (PyStr.strip x)))) df).
  rewrite map_map. reflexivity.
Qed.

Lemma standardize_columns (df : DataFrame) :
  columns (standardize df) = standardize_header (columns df).
Proof.
  unfold columns at 1. rewrite standardize_cols.
  unfold standardize_header, str_upper, str_replace, str_strip, rename_columns, columns.
  rewrite !map_map. reflexivity.
Qed.

(** C9. Normalising a column label (strip, drop line feeds and carriage
    returns, upper-case) a second time changes nothing. *)
Theorem normalize_label_idempotent (s : string) :
  normalize_label (normalize_label s) = normalize_label s.
Proof.
  rewrite (normalize_label_squash (normalize_label s)).
  rewrite normalize_label_clean.
  rewrite normalize_label_squash. apply squash_idem.
Qed.

(** C2. The canonical header is a function of the raw header alone: each
    label is stripped, freed of line feeds and carriage returns and
    upper-cased, then looked up in the rename table by exact comparison;
    the data under the labels is untouched.  Stripping takes a run of
    white space from the front of the label and one from its back and
    nothing else: what is left neither begins nor ends with white space,
    and the normalised label is that core without its line feeds and
    carriage returns, every character upper-cased, where upper-casing
    moves the letters a to z to A to Z and keeps every other character.
    The table turns STATES/UTS and STATE into STATE/UT and TOTAL
    COGNIZABLE IPC CRIMES into TOTAL IPC CRIMES, after normalisation and
    by exact comparison, and leaves every other label as it is.  So every
    label of the canonical header is upper-case, holds neither a line
    feed nor a carriage return, and neither begins nor ends with white
    space. *)
Theorem header_transformation (df : DataFrame) :
  columns (standardize df)
  = map (fun l => rename_label rename_map (normalize_label l)) (columns df)
  /\ standardize_header (columns df) = columns (standardize df)
  /\ map snd (cols (standardize df)) = map snd (cols df)
  /\ (forall l, rename_label rename_map l = l
        \/ (l = "STATES/UTS" /\ rename_label rename_map l = "STATE/UT")
        \/ (l = "STATE" /\ rename_label rename_map l = "STATE/UT")
        \/ (l = "TOTAL COGNIZABLE IPC CRIMES"
            /\ rename_label rename_map l = "TOTAL IPC CRIMES"))
  /\ Forall (fun l => is_upper l = true /\ no_newline l = true)
       (columns (standardize df))
  /\ (rename_label rename_map "STATES/UTS" = "STATE/UT"
      /\ rename_label rename_map "STATE" = "STATE/UT"
      /\ rename_label rename_map "TOTAL COGNIZABLE IPC CRIMES" = "TOTAL IPC CRIMES"
      /\ (forall l, l <> "STATES/UTS" -> l <> "STATE" ->
                    l <> "TOTAL COGNIZABLE IPC CRIMES" ->
                    rename_label rename_map l = l))
  /\ (forall l, exists a core b,
        l = a ++ core ++ b
        /\ PyStr.all PyStr.isspace a = true
        /\ PyStr.all PyStr.isspace b = true
        /\ (forall c r, core = String c r -> PyStr.isspace c = false)
        /\ (forall r c, core = r ++ String c "" -> PyStr.isspace c = false)
        /\ list_ascii_of_string (normalize_label l)
           = map PyStr.upper_char
               (filter (fun c => negb (Ascii.eqb c PyStr.LF)
                                 && negb (Ascii.eqb c PyStr.CR))
                  (list_ascii_of_string core)))
  /\ (forall c, (PyStr.islower c = false -> PyStr.upper_char c = c)
                /\ (PyStr.islower c = true ->
                    nat_of_ascii (PyStr.upper_char c) + 32 = nat_of_ascii c))
  /\ Forall (fun l => (forall c r, l = String c r -> PyStr.isspace c = false)
                      /\ (forall r c, l = r ++ String c "" ->
                                      PyStr.isspace c = false))
       (columns (standardize df))
  /\ standardize_header
       ["  States/UTs "; "state"; "District"; "Total Cognizable IPC crimes";
        "Murder"]
     = ["STATE/UT"; "STATE/UT"; "DISTRICT"; "TOTAL IPC CRIMES"; "MURDER"].
Proof.
  assert (E : columns (standardize df)
              = map (fun l => rename_label rename_map (normalize_label l)) (columns df)).
  { unfold columns. rewrite standardize_cols, !map_map. reflexivity. }
  split; [exact E|]. split; [symmetry; apply standardize_columns|].
  split; [rewrite standardize_cols, map_map; reflexivity|].
  split; [exact rename_label_cases|].
  split.
  { rewrite E. apply Forall_forall. intros l Hl.
    apply in_map_iff in Hl. destruct Hl as [raw [<- _]].
    rewrite normalize_label_squash. split.
    - apply (rename_label_keeps is_upper); [reflexivity|reflexivity|apply squash_upper].
    - apply (rename_label_keeps no_newline);
        [reflexivity|reflexivity|apply squash_no_newline]. }
  split.
  { split; [reflexivity|]. split; [reflexivity|]. split; [reflexivity|].
    exact rename_label_other. }
  split.
  { intros l. destruct (lstrip_split l) as [a [Ha Hsa]].
    destruct (rstrip_split (PyStr.lstrip l)) as [b [Hb Hsb]].
    exists a, (PyStr.strip l), b. unfold PyStr.strip at 1.
    split; [now rewrite <- Hb|]. split; [exact Hsa|]. split; [exact Hsb|].
    assert (Hl : left_clean (PyStr.strip l))
      by apply rstrip_left_clean, lstrip_left_clean.
    assert (Hr : right_clean (PyStr.strip l)) by apply rstrip_right_clean.
    destruct (clean_ends _ Hl Hr) as [H1 H2].
    split; [exact H1|]. split; [exact H2|].
    rewrite normalize_label_squash. apply squash_chars. }
  split.
  { intros c. unfold PyStr.upper_char. split.
    - now intros ->.
    - intros H. rewrite H. unfold PyStr.islower in H.
      rewrite andb_true_iff, !Nat.leb_le in H.
      rewrite nat_ascii_embedding by lia. lia. }
  split.
  { rewrite E. apply Forall_forall. intros l Hl.
    apply in_map_iff in Hl. destruct Hl as [raw [<- _]].
    destruct (canonical_clean raw) as [Hl Hr]. now apply clean_ends. }
  reflexivity.
Qed.

(** ** Masks, columns and rows *)

Lemma select_map {A B : Type} (f : A -> B) (m : list bool) (xs : list A) :
  select m (map f xs) = map f (select m xs).
Proof.
  revert xs. induction m as [|b m IH]; intros [|x xs]; simpl; try reflexivity.
  destruct b; simpl; now rewrite IH.
Qed.

Lemma select_length {A B : Type} (m : list bool) (xs : list A) (ys : list B) :
  List.length xs = List.length ys ->
  List.length (select m xs) = List.length (select m ys).
Proof.
  revert xs ys. induction m as [|b m IH]; intros [|x xs] [|y ys] H; simpl in *;
    try reflexivity; try discriminate.
  injection H as H. destruct b; simpl; auto.
Qed.

Lemma filter_select {A : Type} (f : A -> bool) (l : list A) :
  filter f l = select (map f l) l.
Proof.
  induction l as [|x l IH]; simpl; [reflexivity|]. now rewrite IH.
Qed.

Lemma select_In {A : Type} (m : list bool) (xs : list A) (x : A) :
  In x (select m xs) -> In x xs.
Proof.
  revert xs. induction m as [|b m IH]; intros [|y xs]; simpl; try tauto.
  destruct b; simpl; intros H; [destruct H as [H|H]|]; auto.
Qed.

Lemma mask_and_map {A : Type} (f g : A -> bool) (l : list A) :
  mask_and (map f l) (map g l) = map (fun x => f x && g x) l.
Proof.
  unfold mask_and. induction l as [|x l IH]; simpl; [reflexivity|]. now rewrite IH.
Qed.

Lemma cells_col_select (m : list bool) (c : column) :
  cells (col_select m c) = select m (cells c).
Proof. destruct c; simpl; now rewrite select_map. Qed.

Lemma dict_get_map {V W : Type} (f : V -> W) (d : list (string * V)) (k : string) :
  dict_get (map (fun p => (fst p, f (snd p))) d) k = option_map f (dict_get d k).
Proof.
  induction d as [|[k' v] d IH]; simpl; [reflexivity|].
  destruct (String.eqb k k'); [reflexivity|exact IH].
Qed.

Lemma dict_get_In {V : Type} (d : list (string * V)) (k : string) (v : V) :
  dict_get d k = Some v -> In (k, v) d.
Proof.
  induction d as [|[k' x] d IH]; simpl; [discriminate|].
  destruct (String.eqb_spec k k') as [->|_].
  - intros H. injection H as ->. now left.
  - intros H. right. now apply IH.
Qed.

Lemma transpose_length (n : nat) (cs : list (string * list cell)) :
  List.length (transpose n cs) = n.
Proof. revert cs. induction n as [|n IH]; intros cs; simpl; [reflexivity|]. now rewrite IH. Qed.

(** Reading one label off every row gives back the column. *)
Lemma transpose_field (n : nat) (cs : list (string * list cell)) (c : string)
  (xs : list cell) :
  Forall (fun p => List.length (snd p) = n) cs ->
  dict_get cs c = Some xs ->
  map (fun r => field r c) (transpose n cs) = xs.
Proof.
  revert cs xs. induction n as [|n IH]; intros cs xs Hlen Hget.
  - apply dict_get_In in Hget. rewrite Forall_forall in Hlen.
    apply Hlen in Hget. simpl in Hget. destruct xs; [reflexivity|discriminate].
  - assert (Hxs : List.length xs = S n).
    { rewrite Forall_forall in Hlen. apply (Hlen (c, xs)). now apply dict_get_In. }
    destruct xs as [|x xs]; [discriminate|]. cbn [transpose map]. f_equal.
    + unfold field. rewrite (dict_get_map (hd (None : cell))), Hget. reflexivity.
    + apply IH.
      * apply Forall_map. eapply Forall_impl; [|exact Hlen].
        intros [l ys] Hy. simpl in *. destruct ys; simpl in *; [discriminate|lia].
      * rewrite (dict_get_map (@tl cell)), Hget. reflexivity.
Qed.

(** Selecting the rows of the transposed table is selecting in every
    column. *)
Lemma transpose_select (m : list bool) (n : nat) (cs : list (string * list cell)) :
  List.length m = n ->
  Forall (fun p => List.length (snd p) = n) cs ->
  transpose (List.length (select m (seq 0 n)))
            (map (fun p => (fst p, select m (snd p))) cs)
  = select m (transpose n cs).
Proof.
  revert n cs. induction m as [|b m IH]; intros n cs Hm Hlen.
  - simpl in Hm. subst n. reflexivity.
  - destruct n as [|n]; [discriminate|]. simpl in Hm. injection Hm as Hm.
    assert (Htl : Forall (fun p => List.length (snd p) = n)
                    (map (fun p => (fst p, tl (snd p))) cs)).
    { apply Forall_map. eapply Forall_impl; [|exact Hlen].
      intros [l ys] Hy. simpl in *. destruct ys; simpl in *; [discriminate|lia]. }
    specialize (IH n _ Hm Htl).
    assert (Hk : List.length (select m (seq 1 n)) = List.length (select m (seq 0 n))).
    { apply select_length. now rewrite !length_seq. }
    cbn [seq select transpose]. destruct b.
    + cbn [List.length]. rewrite Hk. cbn [transpose]. rewrite <- IH.
      rewrite !map_map. apply (f_equal2 cons).
      * apply map_ext_in. intros [l ys] Hin. rewrite Forall_forall in Hlen.
        apply Hlen in Hin. simpl in *. destruct ys; [discriminate|reflexivity].
      * f_equal. apply map_ext_in. intros [l ys] Hin. rewrite Forall_forall in Hlen.
        apply Hlen in Hin. simpl in *. destruct ys; [discriminate|reflexivity].
    + rewrite Hk, <- IH. rewrite !map_map. f_equal.
      apply map_ext_in. intros [l ys] Hin. rewrite Forall_forall in Hlen.
      apply Hlen in Hin. simpl in *. destruct ys; [discriminate|reflexivity].
Qed.

Lemma rows_length (df : DataFrame) : List.length (rows df) = nrows df.
Proof. apply transpose_length. Qed.

Lemma rows_take_rows (df : DataFrame) (m : list bool) :
  well_formed df -> List.length m = nrows df ->
  rows (take_rows df m) = select m (rows df).
Proof.
  intros Hwf Hm. unfold rows, take_rows. simpl.
  rewrite <- transpose_select; [|exact Hm|].
  - f_equal. rewrite !map_map. apply map_ext. intros [l c]. simpl.
    now rewrite cells_col_select.
  - apply Forall_map. exact Hwf.
Qed.

Lemma take_rows_well_formed (df : DataFrame) (m : list bool) :
  well_formed df -> well_formed (take_rows df m).
Proof.
  unfold well_formed, take_rows. simpl. intros H. apply Forall_map.
  eapply Forall_impl; [|exact H]. intros [l c] Hc. simpl in *.
  rewrite cells_col_select. apply select_length. now rewrite length_seq.
Qed.

Lemma getitem_dict_get (df : DataFrame) (c : string) (col : column) :
  getitem df c = Some col -> dict_get (cols df) c = Some col.
Proof.
  unfold getitem. induction (cols df) as [|[l x] d IH]; simpl; [discriminate|].
  rewrite (String.eqb_sym c l). destruct (String.eqb l c).
  - destruct (filter _ d) as [|q t]; [|destruct q; discriminate].
    intros H. injection H as ->. reflexivity.
  - exact IH.
Qed.

Lemma rows_field (df : DataFrame) (c : string) (col : column) :
  well_formed df -> getitem df c = Some col ->
  map (fun r => field r c) (rows df) = cells col.
Proof.
  intros Hwf Hget. unfold rows. apply transpose_field.
  - apply Forall_map. exact Hwf.
  - rewrite (dict_get_map cells), (getitem_dict_get _ _ _ Hget). reflexivity.
Qed.

Lemma getitem_length (df : DataFrame) (c : string) (col : column) :
  well_formed df -> getitem df c = Some col ->
  List.length (cells col) = nrows df.
Proof.
  intros Hwf Hget. rewrite <- (rows_field df c col Hwf Hget).
  rewrite length_map. apply rows_length.
Qed.

Lemma value_eqb_eq (a b : value) : value_eqb a b = true <-> a = b.
Proof.
  destruct a, b; simpl; try (split; [discriminate|congruence]).
  - rewrite Z.eqb_eq. split; congruence.
  - rewrite String.eqb_eq. split; congruence.
Qed.

Lemma cell_eqb_eq (x : cell) (v : value) : cell_eqb x (Some v) = true <-> x = Some v.
Proof.
  destruct x as [a|]; simpl; [|split; [discriminate|congruence]].
  rewrite value_eqb_eq. split; congruence.
Qed.

(** ** Labels of a frame *)

Lemma has_column_In (df : DataFrame) (c : string) :
  has_column df c = true <-> In c (columns df).
Proof.
  unfold has_column. rewrite existsb_exists. split.
  - intros [x [Hx E]]. apply String.eqb_eq in E. now subst.
  - intros H. exists c. split; [exact H|apply String.eqb_refl].
Qed.

Lemma filter_absent (l : list (string * column)) (c : string) :
  existsb (String.eqb c) (map fst l) = false -> filter (labelled c) l = [].
Proof.
  induction l as [|p l IH]; simpl; [reflexivity|].
  unfold labelled at 1. rewrite (String.eqb_sym (fst p) c).
  destruct (String.eqb c (fst p)); simpl; [discriminate|exact IH].
Qed.

Lemma getitem_filter (df : DataFrame) (c : string) :
  getitem df c = match filter (labelled c) (cols df) with
                 | [(_, col)] => Some col
                 | _ => None
                 end.
Proof. reflexivity. Qed.

Lemma setitem_absent (df : DataFrame) (c : string) (col : column) :
  has_column df c = false ->
  setitem df c col = mkDF (nrows df) (cols df ++ [(c, col)]).
Proof. unfold setitem. now intros ->. Qed.

Lemma has_column_app (n : nat) (l1 l2 : list (string * column)) (c : string) :
  has_column (mkDF n (l1 ++ l2)) c
  = existsb (String.eqb c) (map fst l1) || existsb (String.eqb c) (map fst l2).
Proof. unfold has_column, columns. simpl. now rewrite map_app, existsb_app. Qed.

Lemma backfill_cols (df : DataFrame) :
  backfill df = mkDF (nrows df) (cols df ++ backfill_extra df).
Proof.
  unfold backfill, backfill_extra.
  destruct (has_column df "DISTRICT") eqn:Ed; simpl.
  - destruct (has_column df "YEAR") eqn:Ey; simpl.
    + rewrite app_nil_r. now destruct df.
    + rewrite (setitem_absent _ _ _ Ey). reflexivity.
  - rewrite (setitem_absent _ _ _ Ed). simpl.
    assert (Ey' : has_column
                    {| nrows := nrows df;
                       cols := cols df ++ [("DISTRICT", ObjCol (repeat (Some "ALL") (nrows df)))] |}
                    "YEAR" = has_column df "YEAR").
    { rewrite has_column_app. simpl. now rewrite orb_false_r. }
    rewrite Ey'. destruct (has_column df "YEAR") eqn:Ey; simpl.
    + reflexivity.
    + unfold setitem. rewrite Ey'. simpl. now rewrite <- app_assoc.
Qed.

Lemma backfill_well_formed (df : DataFrame) :
  well_formed df -> well_formed (backfill df).
Proof.
  intros H. rewrite backfill_cols. unfold well_formed in *. simpl.
  apply Forall_app. split; [exact H|]. unfold backfill_extra.
  destruct (has_column df "DISTRICT"), (has_column df "YEAR"); simpl;
    repeat constructor; simpl; now rewrite length_map, repeat_length.
Qed.

Lemma repeat_Forall {A : Type} (x : A) (n : nat) (P : A -> Prop) :
  P x -> Forall P (repeat x n).
Proof. intros H. induction n; simpl; constructor; auto. Qed.

Lemma map_const_Forall {A B : Type} (f : A -> B) (l : list A) (b : B) (n : nat) :
  map f l = repeat b n -> Forall (fun a => f a = b) l.
Proof.
  revert n. induction l as [|a l IH]; intros n H; [constructor|].
  destruct n as [|n]; simpl in H; [discriminate|].
  injection H as H1 H2. constructor; [exact H1|now apply (IH n)].
Qed.

(** ** The exact-match selection *)

Lemma filtered_data_rows (df : DataFrame) (s d y : option value) (fd : DataFrame) :
  well_formed df ->
  filtered_data df s d y = Some fd ->
  columns fd = columns df
  /\ well_formed fd
  /\ rows fd = filter (exact_match s d y) (rows df).
Proof.
  intros Hwf. unfold filtered_data.
  destruct (getitem df "STATE/UT") as [st|] eqn:Es; [|discriminate].
  destruct (getitem df "DISTRICT") as [di|] eqn:Ed; [|discriminate].
  destruct (getitem df "YEAR") as [ye|] eqn:Ey; [|discriminate].
  intros H. injection H as <-.
  assert (Hm : mask_and (mask_and (eq_mask st s) (eq_mask di d)) (eq_mask ye y)
               = map (exact_match s d y) (rows df)).
  { unfold eq_mask.
    rewrite <- (rows_field df _ _ Hwf Es), <- (rows_field df _ _ Hwf Ed),
      <- (rows_field df _ _ Hwf Ey).
    rewrite !map_map, !mask_and_map. reflexivity. }
  split; [|split].
  - unfold columns, take_rows. simpl. now rewrite map_map.
  - now apply take_rows_well_formed.
  - rewrite Hm, filter_select. apply rows_take_rows; [exact Hwf|].
    rewrite length_map. apply rows_length.
Qed.

Lemma sample_well_formed : well_formed sample.
Proof. repeat constructor. Qed.

(** C1. On a well-formed table where each of STATE/UT, DISTRICT and YEAR
    labels one column, the selection for (S, D, Y) succeeds, keeps the
    header, and its rows are the rows of the table, in order and with
    their multiplicity, whose three fields all equal S, D and Y exactly:
    no other row is kept and no such row is left out. *)
Theorem filtered_data_exact (df : DataFrame) (S D Y : value) (st di ye : column) :
  well_formed df ->
  getitem df "STATE/UT" = Some st ->
  getitem df "DISTRICT" = Some di ->
  getitem df "YEAR" = Some ye ->
  exists fd,
    filtered_data df (Some S) (Some D) (Some Y) = Some fd
    /\ columns fd = columns df
    /\ rows fd = filter (exact_match (Some S) (Some D) (Some Y)) (rows df)
    /\ (forall r, In r (rows fd) <->
                  In r (rows df)
                  /\ field r "STATE/UT" = Some S
                  /\ field r "DISTRICT" = Some D
                  /\ field r "YEAR" = Some Y).
Proof.
  intros Hwf Es Ed Ey.
  assert (Hfd : filtered_data df (Some S) (Some D) (Some Y)
                = Some (take_rows df (mask_and (mask_and (eq_mask st (Some S))
                                                  (eq_mask di (Some D)))
                                         (eq_mask ye (Some Y))))).
  { unfold filtered_data. now rewrite Es, Ed, Ey. }
  eexists. split; [exact Hfd|].
  destruct (filtered_data_rows _ _ _ _ _ Hwf Hfd) as [Hc [_ Hr]].
  split; [exact Hc|]. split; [exact Hr|].
  intros r. rewrite Hr, filter_In. unfold exact_match.
  rewrite !andb_true_iff, !cell_eqb_eq. tauto.
Qed.

Lemma filtered_data_exact_witness :
  well_formed sample
  /\ exists fd,
       filtered_data sample (Some (VStr "Goa")) (Some (VStr "North Goa"))
         (Some (VNum 2012)) = Some fd
       /\ columns fd = columns sample
       /\ rows fd = filter (exact_match (Some (VStr "Goa")) (Some (VStr "North Goa"))
                              (Some (VNum 2012))) (rows sample)
       /\ (forall r, In r (rows fd) <->
                     In r (rows sample)
                     /\ field r "STATE/UT" = Some (VStr "Goa")
                     /\ field r "DISTRICT" = Some (VStr "North Goa")
                     /\ field r "YEAR" = Some (VNum 2012)).
Proof.
  split; [exact sample_well_formed|].
  apply (filtered_data_exact sample (VStr "Goa") (VStr "North Goa") (VNum 2012)
           (ObjCol [Some "Goa"; Some "Goa"; Some "Kerala"])
           (ObjCol [Some "North Goa"; Some "South Goa"; Some "Idukki"])
           (NumCol [Some 2012%Z; Some 2013%Z; Some 2012%Z]));
    [exact sample_well_formed|reflexivity|reflexivity|reflexivity].
Defined.

(** C3. After the backfill the header has DISTRICT and YEAR.  A table
    without DISTRICT gets one column of that label holding 'ALL' in each
    of its rows, a table without YEAR one holding 2012; the columns the
    table came with, DISTRICT and YEAR among them, stay as they are and
    nothing is added under a label the header already had. *)
Theorem backfill_schema (df : DataFrame) :
  has_column (backfill df) "DISTRICT" = true
  /\ has_column (backfill df) "YEAR" = true
  /\ nrows (backfill df) = nrows df
  /\ (exists extra,
        cols (backfill df) = (cols df ++ extra)%list
        /\ Forall (fun p => has_column df (fst p) = false) extra)
  /\ (has_column df "DISTRICT" = false ->
      getitem (backfill df) "DISTRICT"
      = Some (ObjCol (repeat (Some "ALL") (nrows df))))
  /\ (has_column df "YEAR" = false ->
      getitem (backfill df) "YEAR"
      = Some (NumCol (repeat (Some 2012%Z) (nrows df))))
  /\ (forall c, has_column df c = true ->
      filter (labelled c) (cols (backfill df)) = filter (labelled c) (cols df))
  /\ (well_formed df -> has_column df "DISTRICT" = false ->
      Forall (fun r => field r "DISTRICT" = Some (VStr "ALL")) (rows (backfill df)))
  /\ (well_formed df -> has_column df "YEAR" = false ->
      Forall (fun r => field r "YEAR" = Some (VNum 2012)) (rows (backfill df))).
Proof.
  assert (Hext : Forall (fun p => has_column df (fst p) = false) (backfill_extra df)).
  { unfold backfill_extra.
    destruct (has_column df "DISTRICT") eqn:Ed, (has_column df "YEAR") eqn:Ey;
      simpl; repeat constructor; assumption. }
  assert (Hd : has_column df "DISTRICT" = false ->
               getitem (backfill df) "DISTRICT"
               = Some (ObjCol (repeat (Some "ALL") (nrows df)))).
  { intros Ed. rewrite backfill_cols, getitem_filter. simpl.
    rewrite filter_app, (filter_absent _ _ Ed). unfold backfill_extra.
    rewrite Ed. destruct (has_column df "YEAR"); reflexivity. }
  assert (Hy : has_column df "YEAR" = false ->
               getitem (backfill df) "YEAR"
               = Some (NumCol (repeat (Some 2012%Z) (nrows df)))).
  { intros Ey. rewrite backfill_cols, getitem_filter. simpl.
    rewrite filter_app, (filter_absent _ _ Ey). unfold backfill_extra.
    rewrite Ey. destruct (has_column df "DISTRICT"); reflexivity. }
  repeat split.
  - rewrite backfill_cols, has_column_app. unfold backfill_extra.
    fold (columns df). fold (has_column df "DISTRICT").
    destruct (has_column df "DISTRICT"); [reflexivity|].
    destruct (has_column df "YEAR"); reflexivity.
  - rewrite backfill_cols, has_column_app. unfold backfill_extra.
    fold (columns df). fold (has_column df "YEAR").
    destruct (has_column df "YEAR"); [reflexivity|].
    destruct (has_column df "DISTRICT"); reflexivity.
  - now rewrite backfill_cols.
  - exists (backfill_extra df). split; [now rewrite backfill_cols|exact Hext].
  - exact Hd.
  - exact Hy.
  - intros c Hc. rewrite backfill_cols. simpl. rewrite filter_app.
    assert (E : forall ex, Forall (fun p => has_column df (fst p) = false) ex ->
                filter (labelled c) ex = []).
    { intros ex H. induction H as [|[l0 c0] l Hp _ IH]; [reflexivity|].
      cbn [filter]. unfold labelled at 1. cbn [fst] in *.
      destruct (String.eqb_spec l0 c) as [->|_]; [congruence|exact IH]. }
    rewrite (E _ Hext). apply app_nil_r.
  - intros Hwf Ed.
    pose proof (rows_field _ _ _ (backfill_well_formed df Hwf) (Hd Ed)) as Hr.
    simpl in Hr. rewrite map_repeat in Hr. simpl in Hr.
    now apply (map_const_Forall _ _ _ _ Hr).
  - intros Hwf Ey.
    pose proof (rows_field _ _ _ (backfill_well_formed df Hwf) (Hy Ey)) as Hr.
    simpl in Hr. rewrite map_repeat in Hr. simpl in Hr.
    now apply (map_const_Forall _ _ _ _ Hr).
Qed.

(** ** Dropping incomplete rows *)

Lemma nth_mask_and (m q : list bool) (i : nat) :
  nth i (mask_and m q) false = nth i m false && nth i q false.
Proof.
  unfold mask_and. revert q i.
  induction m as [|a m IH]; intros [|b q] [|i]; simpl; try reflexivity.
  - now rewrite andb_false_r.
  - now rewrite andb_false_r.
  - apply IH.
Qed.

Lemma dropna_mask_below (subset : list string) (cs : list (string * column))
  (m0 : list bool) (i : nat) :
  nth i (fold_left (dropna_step subset) cs m0) false = true ->
  nth i m0 false = true
  /\ forall p, In p cs -> existsb (String.eqb (fst p)) subset = true ->
               nth i (notna (snd p)) false = true.
Proof.
  revert m0. induction cs as [|p cs IH]; intros m0 H; simpl in *.
  - split; [exact H|tauto].
  - apply IH in H. destruct H as [H0 Hcs]. unfold dropna_step in H0.
    destruct (existsb (String.eqb (fst p)) subset) eqn:E.
    + rewrite nth_mask_and in H0. apply andb_true_iff in H0. destruct H0 as [Ha Hb].
      split; [exact Ha|]. intros q [<-|Hq] Hsub; [exact Hb|now apply Hcs].
    + split; [exact H0|]. intros q [<-|Hq] Hsub; [congruence|now apply Hcs].
Qed.

Lemma select_Forall {A : Type} (f : A -> bool) (m : list bool) (xs : list A) :
  (forall i, nth i m false = true -> nth i (map f xs) false = true) ->
  Forall (fun x => f x = true) (select m xs).
Proof.
  revert xs. induction m as [|b m IH]; intros [|x xs] H; simpl; try constructor.
  assert (Hrest : Forall (fun x => f x = true) (select m xs)).
  { apply IH. intros i Hi. exact (H (S i) Hi). }
  destruct b; [|exact Hrest]. constructor; [exact (H 0 eq_refl)|exact Hrest].
Qed.

Lemma dropna_columns (df : DataFrame) (subset : list string) :
  columns (dropna df subset) = columns df.
Proof. unfold dropna, take_rows, columns. simpl. now rewrite map_map. Qed.

(** No column under one of the labels keeps a missing cell. *)
Lemma dropna_complete (df : DataFrame) (subset : list string) :
  Forall (fun p => existsb (String.eqb (fst p)) subset = true ->
                   Forall (fun x => is_present x = true) (cells (snd p)))
         (cols (dropna df subset)).
Proof.
  unfold dropna, take_rows. simpl. apply Forall_map, Forall_forall.
  intros p Hp Hsub. simpl in *. rewrite cells_col_select.
  apply select_Forall. intros i Hi.
  apply (dropna_mask_below subset (cols df)) in Hi. destruct Hi as [_ Hi].
  exact (Hi p Hp Hsub).
Qed.

Lemma mask_and_assoc (a b c : list bool) :
  mask_and a (mask_and b c) = mask_and (mask_and a b) c.
Proof.
  unfold mask_and. revert b c.
  induction a as [|x a IH]; intros [|y b] [|z c]; simpl; try reflexivity.
  now rewrite IH, andb_assoc.
Qed.

Lemma mask_and_true_r (m : list bool) (n : nat) :
  List.length m = n -> mask_and m (repeat true n) = m.
Proof.
  unfold mask_and. revert n. induction m as [|x m IH]; intros [|n] H; simpl in *;
    try reflexivity; try discriminate.
  injection H as H. now rewrite (IH n H), andb_true_r.
Qed.

Lemma mask_and_true_l (m : list bool) (n : nat) :
  List.length m = n -> mask_and (repeat true n) m = m.
Proof.
  unfold mask_and. revert n. induction m as [|x m IH]; intros [|n] H; simpl in *;
    try reflexivity; try discriminate.
  injection H as H. now rewrite (IH n H).
Qed.

Lemma mask_and_length (a b : list bool) (n : nat) :
  List.length a = n -> List.length b = n -> List.length (mask_and a b) = n.
Proof.
  intros Ha Hb. unfold mask_and. rewrite length_map, length_combine. lia.
Qed.

Lemma transpose_nil (n : nat) : transpose n [] = repeat [] n.
Proof. induction n as [|n IH]; simpl; [reflexivity|]. now rewrite IH. Qed.

(** The rows of a table with one more column in front. *)
Lemma transpose_cons (n : nat) (l : string) (xs : list cell)
  (cs : list (string * list cell)) :
  List.length xs = n ->
  transpose n ((l, xs) :: cs)
  = map (fun q => (l, fst q) :: snd q) (combine xs (transpose n cs)).
Proof.
  revert xs cs. induction n as [|n IH]; intros xs cs H.
  - destruct xs; [reflexivity|discriminate].
  - destruct xs as [|x xs]; [discriminate|]. injection H as H.
    cbn [transpose map fst snd hd tl combine]. now rewrite (IH xs _ H).
Qed.

Lemma dropna_mask_rows (subset : list string) (n : nat)
  (cs : list (string * column)) (m0 : list bool) :
  Forall (fun p => List.length (cells (snd p)) = n) cs ->
  List.length m0 = n ->
  fold_left (dropna_step subset) cs m0
  = mask_and m0
      (map (row_complete subset)
           (transpose n (map (fun p => (fst p, cells (snd p))) cs))).
Proof.
  revert m0. induction cs as [|[l c] cs IH]; intros m0 Hlen Hm.
  - simpl. rewrite transpose_nil, map_repeat. simpl.
    symmetry. now apply mask_and_true_r.
  - apply Forall_cons_iff in Hlen. destruct Hlen as [Hc Hcs]. simpl in Hc.
    cbn [fold_left map fst snd].
    rewrite (transpose_cons _ l (cells c) _ Hc).
    assert (Hstep : List.length (dropna_step subset m0 (l, c)) = n).
    { unfold dropna_step. cbn [fst snd].
      destruct (existsb (String.eqb l) subset); [|exact Hm].
      apply mask_and_length; [exact Hm|]. unfold notna. now rewrite length_map. }
    rewrite (IH _ Hcs Hstep).
    set (rs := transpose _ _).
    assert (Hrs : List.length rs = List.length (cells c)).
    { rewrite Hc. apply transpose_length. }
    assert (E : map (row_complete subset)
                  (map (fun q => (l, fst q) :: snd q) (combine (cells c) rs))
                = mask_and
                    (map (fun x => negb (existsb (String.eqb l) subset) || is_present x)
                         (cells c))
                    (map (row_complete subset) rs)).
    { clear -Hrs. revert Hrs. generalize (cells c) as xs. generalize rs as ys.
      induction ys as [|y ys IHy]; intros [|x xs] H; simpl in *;
        try reflexivity; try discriminate.
      injection H as H. unfold mask_and in *. simpl. now rewrite <- (IHy xs). }
    rewrite E, mask_and_assoc. f_equal.
    unfold dropna_step. cbn [fst snd].
    destruct (existsb (String.eqb l) subset); simpl.
    + reflexivity.
    + assert (R : map (fun _ : option value => true) (cells c) = repeat true n).
      { rewrite <- Hc. generalize (cells c) as xs.
        induction xs; simpl; congruence. }
      rewrite R. symmetry. now apply mask_and_true_r.
Qed.

Lemma dropna_rows (df : DataFrame) (subset : list string) :
  well_formed df ->
  well_formed (dropna df subset)
  /\ rows (dropna df subset) = filter (row_complete subset) (rows df).
Proof.
  intros Hwf. split; [now apply take_rows_well_formed|].
  unfold dropna. fold (dropna_step subset).
  rewrite (dropna_mask_rows subset (nrows df) (cols df) _ Hwf (repeat_length _ _)).
  fold (rows df). rewrite mask_and_true_l by (rewrite length_map; apply rows_length).
  rewrite filter_select. apply rows_take_rows; [exact Hwf|].
  rewrite length_map. apply rows_length.
Qed.

(** ** Reading and writing one column *)

Lemma getitem_has_column (df : DataFrame) (c : string) (col : column) :
  getitem df c = Some col -> has_column df c = true.
Proof.
  intros H. destruct (has_column df c) eqn:E; [reflexivity|].
  rewrite getitem_filter, (filter_absent _ _ E) in H. discriminate.
Qed.

Lemma setitem_present (df : DataFrame) (c : string) (col : column) :
  has_column df c = true ->
  setitem df c col
  = mkDF (nrows df)
         (map (fun p => if String.eqb (fst p) c then (fst p, col) else p) (cols df)).
Proof. unfold setitem. now intros ->. Qed.

Lemma setitem_columns (df : DataFrame) (c : string) (col : column) :
  has_column df c = true -> columns (setitem df c col) = columns df.
Proof.
  intros H. rewrite (setitem_present _ _ _ H). unfold columns. simpl.
  rewrite map_map. apply map_ext. intros p. now destruct (String.eqb (fst p) c).
Qed.

Lemma filter_setitem_same (l : list (string * column)) (c : string) (col : column) :
  filter (labelled c)
    (map (fun p => if String.eqb (fst p) c then (fst p, col) else p) l)
  = map (fun p => (fst p, col)) (filter (labelled c) l).
Proof.
  unfold labelled. induction l as [|p l IH]; simpl; [reflexivity|].
  destruct (String.eqb (fst p) c) eqn:E; simpl; rewrite E; simpl; now rewrite IH.
Qed.

Lemma filter_setitem_other (l : list (string * column)) (c c' : string) (col : column) :
  c' <> c ->
  filter (labelled c')
    (map (fun p => if String.eqb (fst p) c then (fst p, col) else p) l)
  = filter (labelled c') l.
Proof.
  intros Hne. unfold labelled. induction l as [|p l IH]; simpl; [reflexivity|].
  destruct (String.eqb_spec (fst p) c) as [Ec|Ec]; simpl.
  - destruct (String.eqb_spec (fst p) c') as [Ec'|_]; [congruence|exact IH].
  - now rewrite IH.
Qed.

Lemma getitem_setitem (df : DataFrame) (c : string) (old col : column) :
  getitem df c = Some old -> getitem (setitem df c col) c = Some col.
Proof.
  intros H. rewrite (setitem_present _ _ _ (getitem_has_column _ _ _ H)).
  rewrite getitem_filter in *. cbn [cols]. rewrite filter_setitem_same.
  destruct (filter (labelled c) (cols df)) as [|[l x] [|q t]]; try discriminate.
  reflexivity.
Qed.

Lemma getitem_setitem_other (df : DataFrame) (c c' : string) (col : column) :
  has_column df c = true -> c' <> c ->
  getitem (setitem df c col) c' = getitem df c'.
Proof.
  intros H Hne. rewrite (setitem_present _ _ _ H), !getitem_filter. cbn [cols].
  now rewrite filter_setitem_other.
Qed.

Lemma setitem_well_formed (df : DataFrame) (c : string) (col : column) :
  well_formed df -> List.length (cells col) = nrows df ->
  well_formed (setitem df c col).
Proof.
  unfold well_formed, setitem. intros Hwf Hlen.
  destruct (has_column df c); simpl.
  - apply Forall_map. eapply Forall_impl; [|exact Hwf].
    intros p Hp. now destruct (String.eqb (fst p) c).
  - apply Forall_app. split; [exact Hwf|]. now repeat constructor.
Qed.

Lemma to_numeric_length (parse : string -> option Z) (c : column) :
  List.length (to_numeric parse c) = List.length (cells c).
Proof. destruct c; simpl; now rewrite !length_map. Qed.

Lemma getitem_take_rows (df : DataFrame) (m : list bool) (c : string) :
  getitem (take_rows df m) c = option_map (col_select m) (getitem df c).
Proof.
  rewrite !getitem_filter. unfold take_rows. simpl.
  assert (E : filter (labelled c) (map (fun p => (fst p, col_select m (snd p))) (cols df))
              = map (fun p => (fst p, col_select m (snd p)))
                    (filter (labelled c) (cols df))).
  { unfold labelled. induction (cols df) as [|p l IH]; simpl; [reflexivity|].
    destruct (String.eqb (fst p) c); simpl; now rewrite IH. }
  rewrite E. destruct (filter (labelled c) (cols df)) as [|[l x] [|q t]]; reflexivity.
Qed.

Lemma take_rows_columns (df : DataFrame) (m : list bool) :
  columns (take_rows df m) = columns df.
Proof. unfold columns, take_rows. simpl. now rewrite map_map. Qed.

Lemma has_column_columns (df df' : DataFrame) (c : string) :
  columns df' = columns df -> has_column df' c = has_column df c.
Proof. unfold has_column. now intros ->. Qed.

Lemma existsb_required (c : string) :
  existsb (String.eqb c) required_columns = true <-> In c required_columns.
Proof.
  rewrite existsb_exists. split.
  - intros [x [Hx E]]. apply String.eqb_eq in E. now subst.
  - intros H. exists c. split; [exact H|apply String.eqb_refl].
Qed.

Lemma is_present_iff {A : Type} (x : option A) : is_present x = true <-> x <> None.
Proof. destruct x; simpl; split; congruence. Qed.

(** ** The working dataset *)

Lemma coerce_and_drop_some (parse : string -> option Z) (df : DataFrame) (year : column) :
  getitem df "YEAR" = Some year ->
  coerce_and_drop parse df
  = Some (dropna (setitem df "YEAR" (NumCol (to_numeric parse year))) required_columns).
Proof. unfold coerce_and_drop. now intros ->. Qed.

Lemma coerce_and_drop_columns (parse : string -> option Z) (df df' : DataFrame) :
  coerce_and_drop parse df = Some df' -> columns df' = columns df.
Proof.
  unfold coerce_and_drop. destruct (getitem df "YEAR") as [year|] eqn:E; [|discriminate].
  intros H. injection H as <-. rewrite dropna_columns.
  apply setitem_columns. exact (getitem_has_column _ _ _ E).
Qed.

Lemma coerce_and_drop_well_formed (parse : string -> option Z) (df df' : DataFrame) :
  well_formed df -> coerce_and_drop parse df = Some df' -> well_formed df'.
Proof.
  intros Hwf. unfold coerce_and_drop.
  destruct (getitem df "YEAR") as [year|] eqn:E; [|discriminate].
  intros H. injection H as <-. apply dropna_rows, setitem_well_formed; [exact Hwf|].
  simpl. rewrite length_map, to_numeric_length. exact (getitem_length _ _ _ Hwf E).
Qed.

Lemma sidebar_inv (parse : string -> option Z) (p : Picks) (df : DataFrame)
  (sel : Selection) :
  sidebar parse p df = Some sel ->
  coerce_and_drop parse df = Some (working sel)
  /\ state_options (working sel) = Some (states sel)
  /\ selected_state sel = selectbox (states sel) (pick_state p)
  /\ district_options (working sel) (selected_state sel) = Some (districts sel)
  /\ selected_district sel = selectbox (districts sel) (pick_district p)
  /\ year_options (working sel) (selected_state sel) = Some (years sel)
  /\ selected_year sel = selectbox (years sel) (pick_year p)
  /\ selected_crimes sel
     = multiselect (crime_columns (working sel)) (valid_defaults (working sel))
         (pick_crimes p).
Proof.
  unfold sidebar.
  destruct (coerce_and_drop parse df) as [w|] eqn:Ec; [|discriminate].
  destruct (state_options w) as [sts|] eqn:Es; [|discriminate].
  destruct (district_options w _) as [dis|] eqn:Ed; [|discriminate].
  destruct (year_options w _) as [yrs|] eqn:Ey; [|discriminate].
  intros H. injection H as <-. simpl. repeat split; assumption.
Qed.

(** C4. Once YEAR has been coerced and the incomplete rows dropped, the
    working dataset keeps the header; its YEAR column is numeric without a
    missing value, and no column labelled STATE/UT, DISTRICT or YEAR holds
    a missing cell.  On a well-formed table the rows kept are the rows,
    YEAR coerced, that have all three dimension cells, in order.  The
    three lists of choices of the sidebar are computed from that
    dataset. *)
Theorem coerce_and_drop_invariant (parse : string -> option Z) (df : DataFrame)
  (year : column) :
  getitem df "YEAR" = Some year ->
  exists df',
    coerce_and_drop parse df = Some df'
    /\ columns df' = columns df
    /\ (exists ys, getitem df' "YEAR" = Some (NumCol ys)
                   /\ Forall (fun y => y <> None) ys)
    /\ Forall (fun p => In (fst p) required_columns ->
                        Forall (fun x => x <> None) (cells (snd p)))
         (cols df')
    /\ (well_formed df ->
        well_formed df'
        /\ rows df'
           = filter (row_complete required_columns)
               (rows (setitem df "YEAR" (NumCol (to_numeric parse year)))))
    /\ (forall p sel, sidebar parse p df = Some sel ->
          working sel = df'
          /\ state_options df' = Some (states sel)
          /\ district_options df' (selected_state sel) = Some (districts sel)
          /\ year_options df' (selected_state sel) = Some (years sel)).
Proof.
  intros Hy. pose proof (coerce_and_drop_some parse df year Hy) as Hcd.
  eexists. split; [exact Hcd|].
  set (df1 := setitem df "YEAR" (NumCol (to_numeric parse year))) in *.
  assert (Hall : Forall (fun p => In (fst p) required_columns ->
                                  Forall (fun x => x <> None) (cells (snd p)))
                   (cols (dropna df1 required_columns))).
  { eapply Forall_impl; [|apply dropna_complete]. intros q Hq Hin.
    apply existsb_required in Hin. specialize (Hq Hin).
    eapply Forall_impl; [|exact Hq]. intros x. apply is_present_iff. }
  split; [exact (coerce_and_drop_columns _ _ _ Hcd)|].
  split; [|split; [exact Hall|split]].
  - unfold dropna at 1. rewrite getitem_take_rows.
    unfold df1. rewrite (getitem_setitem _ _ _ _ Hy). simpl.
    eexists. split; [reflexivity|].
    assert (Hin : In ("YEAR", NumCol (select
                    (fold_left (fun m p => if existsb (String.eqb (fst p)) required_columns
                                           then mask_and m (notna (snd p)) else m)
                       (cols (setitem df "YEAR" (NumCol (to_numeric parse year))))
                       (repeat true (nrows (setitem df "YEAR" (NumCol (to_numeric parse year))))))
                    (to_numeric parse year)))
                  (cols (dropna df1 required_columns))).
    { apply dict_get_In, getitem_dict_get. unfold dropna at 1.
      rewrite getitem_take_rows. unfold df1.
      now rewrite (getitem_setitem _ _ _ _ Hy). }
    rewrite Forall_forall in Hall. specialize (Hall _ Hin). simpl in Hall.
    specialize (Hall (or_intror (or_intror (or_introl eq_refl)))).
    rewrite Forall_map in Hall. eapply Forall_impl; [|exact Hall].
    intros [z|] Hz; simpl in *; congruence.
  - intros Hwf. apply dropna_rows. apply setitem_well_formed; [exact Hwf|].
    simpl. rewrite length_map, to_numeric_length. exact (getitem_length _ _ _ Hwf Hy).
  - intros p sel Hs. apply sidebar_inv in Hs.
    destruct Hs as [Hw [Hst [_ [Hdi [_ [Hye _]]]]]].
    rewrite Hcd in Hw. injection Hw as Hw. rewrite Hw. now repeat split.
Qed.

(** ** Sorting and distinct values *)

Section Sorting.

Context {A : Type} (leb : A -> A -> bool).

Lemma insert_perm (x : A) (l : list A) : Permutation (insert leb x l) (x :: l).
Proof.
  induction l as [|y l IH]; simpl; [apply Permutation_refl|].
  destruct (leb x y); [apply Permutation_refl|].
  eapply Permutation_trans; [apply perm_skip, IH|apply perm_swap].
Qed.

Lemma sort_perm (l : list A) : Permutation (sort leb l) l.
Proof.
  induction l as [|x l IH]; simpl; [constructor|].
  eapply Permutation_trans; [apply insert_perm|now apply perm_skip].
Qed.

Lemma sort_In (l : list A) (x : A) : In x (sort leb l) <-> In x l.
Proof.
  split; apply Permutation_in; [apply sort_perm|apply Permutation_sym, sort_perm].
Qed.

Hypothesis leb_total : forall x y, leb x y = false -> leb y x = true.
Hypothesis leb_trans : forall x y z, leb x y = true -> leb y z = true -> leb x z = true.

Let le (x y : A) : Prop := leb x y = true.

Lemma insert_sorted (x : A) (l : list A) :
  StronglySorted le l -> StronglySorted le (insert leb x l).
Proof.
  induction 1 as [|y l Hs IH Hy]; simpl; [repeat constructor|].
  destruct (leb x y) eqn:E.
  - constructor; [now constructor|]. constructor; [exact E|].
    eapply Forall_impl; [|exact Hy]. intros z Hz. exact (leb_trans _ _ _ E Hz).
  - constructor; [exact IH|].
    apply (Permutation_Forall (Permutation_sym (insert_perm x l))).
    constructor; [exact (leb_total _ _ E)|exact Hy].
Qed.

Lemma sort_sorted (l : list A) : StronglySorted le (sort leb l).
Proof.
  induction l as [|x l IH]; simpl; [constructor|]. now apply insert_sorted.
Qed.

End Sorting.

Lemma sort_map {A B : Type} (f : A -> B) (leb : A -> A -> bool)
  (leb' : B -> B -> bool) (l : list A) :
  (forall x y, leb' (f x) (f y) = leb x y) ->
  sort leb' (map f l) = map f (sort leb l).
Proof.
  intros H. induction l as [|x l IH]; simpl; [reflexivity|]. rewrite IH.
  generalize (sort leb l) as s. induction s as [|y s IHs]; simpl; [reflexivity|].
  rewrite H. destruct (leb x y); simpl; [reflexivity|]. now rewrite IHs.
Qed.



Lemma firstn_In {A : Type} (n : nat) (l : list A) (x : A) :
  In x (firstn n l) -> In x l.
Proof. intros H. rewrite <- (firstn_skipn n l). apply in_or_app. now left. Qed.

Section Unique.

Context {A : Type} (eqb : A -> A -> bool).
Hypothesis eqb_eq : forall x y, eqb x y = true <-> x = y.

Lemma unique_In (l : list A) (x : A) : In x (unique eqb l) <-> In x l.
Proof.
  induction l as [|y l IH]; simpl; [tauto|].
  rewrite filter_In, IH. cbn beta. split.
  - intros [H|[H _]]; auto.
  - intros [H|H]; [now left|].
    destruct (eqb y x) eqn:E; [left; now apply eqb_eq|right; now split].
Qed.

Lemma unique_NoDup (l : list A) : NoDup (unique eqb l).
Proof.
  induction l as [|y l IH]; simpl; constructor.
  - rewrite filter_In. cbn beta. intros [_ H].
    assert (E : eqb y y = true) by now apply eqb_eq. rewrite E in H. discriminate.
  - now apply NoDup_filter.
Qed.

End Unique.

Lemma present_In {A : Type} (l : list (option A)) (x : A) :
  In x (present l) <-> In (Some x) l.
Proof.
  induction l as [|[y|] l IH]; simpl; [tauto| |].
  - rewrite IH. split; intros [H|H]; auto; left; congruence.
  - rewrite IH. split; [auto|]. intros [H|H]; [discriminate|exact H].
Qed.

Lemma present_map {A B : Type} (f : A -> B) (l : list (option A)) :
  present (map (option_map f) l) = map f (present l).
Proof.
  induction l as [|[y|] l IH]; simpl; [reflexivity| |exact IH]. now rewrite IH.
Qed.

Lemma unique_map {A B : Type} (f : A -> B) (eqa : A -> A -> bool)
  (eqb : B -> B -> bool) (l : list A) :
  (forall x y, eqb (f x) (f y) = eqa x y) ->
  unique eqb (map f l) = map f (unique eqa l).
Proof.
  intros H. induction l as [|x l IH]; simpl; [reflexivity|]. rewrite IH. f_equal.
  generalize (unique eqa l) as u. induction u as [|y u IHu]; simpl; [reflexivity|].
  rewrite H. destruct (eqa x y); simpl; now rewrite IHu.
Qed.

(** The distinct values of a column: each present value once. *)
Lemma sorted_unique_In (c : column) (k : value) :
  In k (sorted_unique c) <-> In (Some k) (cells c).
Proof.
  unfold sorted_unique. rewrite sort_In, (unique_In _ value_eqb_eq). apply present_In.
Qed.

Lemma sorted_unique_NoDup (c : column) : NoDup (sorted_unique c).
Proof.
  unfold sorted_unique.
  apply (Permutation_NoDup (Permutation_sym (sort_perm _ _))).
  apply (unique_NoDup _ value_eqb_eq).
Qed.

(** On a numeric column the distinct values are numbers in increasing
    order. *)
Lemma sorted_unique_numeric (ys : list (option Z)) :
  sorted_unique (NumCol ys) = map VNum (sort Z.leb (unique Z.eqb (present ys))).
Proof.
  unfold sorted_unique. simpl. rewrite present_map.
  rewrite (unique_map VNum Z.eqb value_eqb) by reflexivity.
  now rewrite (sort_map VNum Z.leb value_leb) by reflexivity.
Qed.

Lemma Z_leb_total (x y : Z) : Z.leb x y = false -> Z.leb y x = true.
Proof. rewrite Z.leb_gt, Z.leb_le. lia. Qed.

Lemma Z_leb_trans (x y z : Z) : Z.leb x y = true -> Z.leb y z = true -> Z.leb x z = true.
Proof. rewrite !Z.leb_le. lia. Qed.

Lemma sorted_NoDup_lt (l : list Z) :
  StronglySorted (fun x y => Z.leb x y = true) l -> NoDup l -> StronglySorted Z.lt l.
Proof.
  induction 1 as [|x l Hs IH Hx]; intros Hnd; constructor.
  - apply IH. now inversion Hnd.
  - inversion Hnd as [|? ? Hnin _]; subst. apply Forall_forall. intros y Hy.
    rewrite Forall_forall in Hx. specialize (Hx y Hy). apply Z.leb_le in Hx.
    assert (x <> y) by (intros ->; contradiction). lia.
Qed.

(** ** The totals and the pie chart *)

Lemma series_dropna_In (s : list (string * option Z)) (l : string) (z : Z) :
  In (l, z) (series_dropna s) <-> In (l, Some z) s.
Proof.
  unfold series_dropna. rewrite in_flat_map. split.
  - intros [[l' [z'|]] [Hin H]]; simpl in H; [|contradiction].
    destruct H as [H|[]]. injection H as -> ->. exact Hin.
  - intros H. exists (l, Some z). split; [exact H|now left].
Qed.

Lemma positive_only_In (s : list (string * Z)) (p : string * Z) :
  In p (positive_only s) <-> In p s /\ (0 < snd p)%Z.
Proof.
  unfold positive_only. rewrite <- filter_select, filter_In, Z.ltb_lt. tauto.
Qed.

Lemma cleaned_In (total : list (string * option Z)) (l : string) (z : Z) :
  In (l, z) (cleaned total) <-> In (l, Some z) total /\ (0 < z)%Z.
Proof.
  unfold cleaned. rewrite positive_only_In, series_dropna_In. reflexivity.
Qed.

Lemma cleaned_positive (total : list (string * option Z)) :
  Forall (fun p => (0 < snd p)%Z) (cleaned total).
Proof.
  apply Forall_forall. intros p Hp. unfold cleaned in Hp.
  now apply positive_only_In in Hp.
Qed.

Lemma sum_numeric_only_In (pd : Pandas) (df : DataFrame) (l : string) (o : option Z) :
  In (l, o) (sum_numeric_only pd df) <->
  exists xs, In (l, NumCol xs) (cols df) /\ o = frame_sum pd l xs.
Proof.
  unfold sum_numeric_only. rewrite in_flat_map. split.
  - intros [[l' [xs|xs]] [Hin H]]; simpl in H; [|contradiction].
    destruct H as [H|[]]. injection H as -> <-. now exists xs.
  - intros [xs [Hin ->]]. exists (l, NumCol xs). split; [exact Hin|now left].
Qed.

Lemma distinct_NoDup (ls : list string) : distinct ls = true <-> NoDup ls.
Proof.
  induction ls as [|l ls IH]; simpl.
  - split; [constructor|reflexivity].
  - rewrite andb_true_iff, negb_true_iff, IH, NoDup_cons_iff.
    assert (E : existsb (String.eqb l) ls = false <-> ~ In l ls).
    { rewrite <- not_true_iff_false, existsb_exists. split.
      - intros H Hin. apply H. exists l. split; [exact Hin|apply String.eqb_refl].
      - intros H [x [Hx Hl]]. apply String.eqb_eq in Hl. now subst. }
    now rewrite E.
Qed.

Lemma filtered_view_shown (pd : Pandas) (sel : Selection) (fd : DataFrame) :
  filtered_data (working sel) (selected_state sel) (selected_district sel)
    (selected_year sel) = Some fd ->
  empty fd = false -> selected_crimes sel <> [] ->
  distinct (columns (getitems fd (selected_crimes sel))) = true ->
  filtered_view pd sel
  = ([StDataframe (getitems fd (selected_crimes sel));
      StWrite (total_selected pd fd (selected_crimes sel));
      pie_event (cleaned (total_selected pd fd (selected_crimes sel)))], inr tt).
Proof.
  intros Hfd He Hc Hd. unfold filtered_view. rewrite Hfd. unfold try, ret, bind.
  rewrite He. destruct (selected_crimes sel) as [|c cs] eqn:E; [congruence|].
  cbn [negb andb]. unfold st_dataframe. rewrite Hd. unfold show, pie_event.
  now destruct (cleaned _).
Qed.

Lemma filtered_view_raised (pd : Pandas) (sel : Selection) (fd : DataFrame) :
  filtered_data (working sel) (selected_state sel) (selected_district sel)
    (selected_year sel) = Some fd ->
  empty fd = false -> selected_crimes sel <> [] ->
  distinct (columns (getitems fd (selected_crimes sel))) = false ->
  filtered_view pd sel = ([], inl Raised).
Proof.
  intros Hfd He Hc Hd. unfold filtered_view. rewrite Hfd. unfold try, ret, bind.
  rewrite He. destruct (selected_crimes sel) as [|c cs] eqn:E; [congruence|].
  cbn [negb andb]. unfold st_dataframe. now rewrite Hd.
Qed.

Lemma filtered_view_warned (pd : Pandas) (sel : Selection) (fd : DataFrame) :
  filtered_data (working sel) (selected_state sel) (selected_district sel)
    (selected_year sel) = Some fd ->
  empty fd = true \/ selected_crimes sel = [] ->
  filtered_view pd sel = ([StWarning no_data_warning], inr tt).
Proof.
  intros Hfd H. unfold filtered_view. rewrite Hfd. unfold try, ret, bind.
  destruct H as [H|H]; rewrite H; [reflexivity|].
  now rewrite andb_false_r.
Qed.

(** C5. The totals are what pandas sums, one per selected numeric column
    over the selected rows; the pie chart gets those totals that are
    numbers and strictly positive, nothing else: every value it is given
    is strictly positive, whatever the arithmetic of the sums.  With rows
    selected and crime types chosen under distinct labels the view shows
    the table, the totals, and then the chart, or the placeholder when no
    total is left; a chart is never drawn from an empty series.  When two
    columns of the table to show share a label, the run ends there with
    an exception and neither chart nor placeholder is shown. *)
Theorem pie_chart_input (pd : Pandas) (sel : Selection) (fd : DataFrame) :
  filtered_data (working sel) (selected_state sel) (selected_district sel)
    (selected_year sel) = Some fd ->
  let total := total_selected pd fd (selected_crimes sel) in
  (forall l o, In (l, o) total <->
     exists xs, In (l, NumCol xs) (cols (getitems fd (selected_crimes sel)))
                /\ o = frame_sum pd l xs)
  /\ (forall l z, In (l, z) (cleaned total) <-> In (l, Some z) total /\ (0 < z)%Z)
  /\ (forall c, In (StPyplot c) (fst (filtered_view pd sel)) ->
        c = cleaned total /\ c <> [] /\ Forall (fun p => (0 < snd p)%Z) c)
  /\ (empty fd = false -> selected_crimes sel <> [] ->
      distinct (columns (getitems fd (selected_crimes sel))) = true ->
      filtered_view pd sel
      = ([StDataframe (getitems fd (selected_crimes sel)); StWrite total;
          match cleaned total with
          | [] => StInfo "No valid data for pie chart."
          | c => StPyplot c
          end], inr tt))
  /\ (empty fd = false -> selected_crimes sel <> [] ->
      distinct (columns (getitems fd (selected_crimes sel))) = false ->
      filtered_view pd sel = ([], inl Raised)).
Proof.
  intros Hfd total. split; [|split; [|split; [|split]]].
  - intros l o. apply sum_numeric_only_In.
  - apply cleaned_In.
  - intros c Hin.
    destruct (empty fd) eqn:He.
    { rewrite (filtered_view_warned pd sel fd Hfd (or_introl He)) in Hin.
      simpl in Hin. destruct Hin as [H|[]]. discriminate. }
    destruct (selected_crimes sel) as [|c0 cs] eqn:Ec.
    { rewrite (filtered_view_warned pd sel fd Hfd (or_intror Ec)) in Hin.
      simpl in Hin. destruct Hin as [H|[]]. discriminate. }
    destruct (distinct (columns (getitems fd (c0 :: cs)))) eqn:Hd.
    + rewrite (filtered_view_shown pd sel fd Hfd He) in Hin;
        [|rewrite Ec; discriminate|rewrite Ec; exact Hd].
      rewrite Ec in Hin. fold total in Hin. simpl in Hin.
      destruct Hin as [H|[H|[H|[]]]]; try discriminate.
      unfold pie_event in H. destruct (cleaned total) as [|q t] eqn:Eq; [discriminate|].
      injection H as <-. split; [reflexivity|]. split; [discriminate|].
      rewrite <- Eq. apply cleaned_positive.
    + rewrite (filtered_view_raised pd sel fd Hfd He) in Hin;
        [|rewrite Ec; discriminate|rewrite Ec; exact Hd].
      destruct Hin.
  - intros He Hc Hd. rewrite (filtered_view_shown pd sel fd Hfd He Hc Hd).
    unfold pie_event, total. now destruct (cleaned _).
  - intros He Hc Hd. exact (filtered_view_raised pd sel fd Hfd He Hc Hd).
Qed.

(** ** The ranking and the trend *)

Lemma ranking_view_run (pd : Pandas) (df : DataFrame) (top : list (value * Z)) :
  top_states pd df = Some top -> ranking_view pd df = ([ranking_event top], inr tt).
Proof.
  intros H. unfold ranking_view. rewrite H. unfold try, ret, bind, show, ranking_event.
  now destruct top.
Qed.

Lemma trend_view_run (pd : Pandas) (parse : string -> option Z) (df : DataFrame)
  (s : option value) (tr : list (value * Z)) :
  trend_data pd parse df s = Some tr ->
  trend_view pd parse df s = ([trend_event tr], inr tt).
Proof.
  intros H. unfold trend_view. rewrite H. unfold try, ret, bind, show, trend_event.
  now destruct tr.
Qed.

Lemma total_views_absent (pd : Pandas) (parse : string -> option Z) (sel : Selection) :
  has_column (working sel) "TOTAL IPC CRIMES" = false ->
  total_views pd parse sel = ([StWarning no_total_warning], inr tt).
Proof. intros H. unfold total_views. now rewrite H. Qed.

Lemma total_views_run (pd : Pandas) (parse : string -> option Z) (sel : Selection)
  (df : DataFrame) (top tr : list (value * Z)) :
  has_column (working sel) "TOTAL IPC CRIMES" = true ->
  coerce_total parse (working sel) = Some df ->
  top_states pd df = Some top ->
  trend_data pd parse df (selected_state sel) = Some tr ->
  total_views pd parse sel = ([ranking_event top; trend_event tr], inr tt).
Proof.
  intros Hc Hd Ht Hr. unfold total_views. rewrite Hc, Hd.
  unfold try, ret. unfold bind at 1.
  rewrite (ranking_view_run _ _ _ Ht), (trend_view_run _ _ _ _ _ Hr). reflexivity.
Qed.






Lemma desc_leb_total (pd : Pandas) (a b : value * Z) :
  desc_leb pd a b = false -> desc_leb pd b a = true.
Proof.
  unfold desc_leb. rewrite orb_false_iff, andb_false_iff, orb_true_iff, andb_true_iff.
  rewrite Z.ltb_ge, Z.ltb_lt, !Z.eqb_eq, Z.eqb_neq, Nat.leb_gt, Nat.leb_le.
  intros [H1 H2]. destruct (Z.eq_dec (snd a) (snd b)) as [E|E].
  - right. split; [now symmetry|]. destruct H2 as [H2|H2]; [contradiction|lia].
  - left. lia.
Qed.

Lemma desc_leb_trans (pd : Pandas) (a b c : value * Z) :
  desc_leb pd a b = true -> desc_leb pd b c = true -> desc_leb pd a c = true.
Proof.
  unfold desc_leb. rewrite !orb_true_iff, !andb_true_iff.
  rewrite !Z.ltb_lt, !Z.eqb_eq, !Nat.leb_le.
  intros [H1|[H1 H1']] [H2|[H2 H2']]; [left; lia|left; lia|left; lia|].
  right. split; [congruence|lia].
Qed.

Lemma desc_leb_le (pd : Pandas) (a b : value * Z) :
  desc_leb pd a b = true -> (snd b <= snd a)%Z.
Proof.
  unfold desc_leb. rewrite orb_true_iff, andb_true_iff, Z.ltb_lt, Z.eqb_eq. lia.
Qed.

Lemma sort_values_desc_sorted (pd : Pandas) (s : list (value * Z)) :
  StronglySorted (fun a b => desc_leb pd a b = true) (sort_values_desc pd s).
Proof.
  apply (sort_sorted (desc_leb pd)); [apply desc_leb_total|apply desc_leb_trans].
Qed.




Lemma coerce_total_inv (parse : string -> option Z) (df : DataFrame) (t : column) :
  getitem df "TOTAL IPC CRIMES" = Some t ->
  coerce_total parse df
  = Some (setitem df "TOTAL IPC CRIMES" (NumCol (to_numeric parse t)))
  /\ getitem (setitem df "TOTAL IPC CRIMES" (NumCol (to_numeric parse t)))
       "TOTAL IPC CRIMES" = Some (NumCol (to_numeric parse t))
  /\ (forall c, c <> "TOTAL IPC CRIMES" ->
        getitem (setitem df "TOTAL IPC CRIMES" (NumCol (to_numeric parse t))) c
        = getitem df c).
Proof.
  intros H. split; [unfold coerce_total; now rewrite H|].
  split; [exact (getitem_setitem _ _ _ _ H)|].
  intros c Hc. apply getitem_setitem_other; [|exact Hc].
  exact (getitem_has_column _ _ _ H).
Qed.


Lemma select_nil_r {A : Type} (m : list bool) : select m (@nil A) = [].
Proof. now destruct m. Qed.


Lemma select_combine_In {A B : Type} (f : A -> bool) (cs : list A) (xs : list B) (x : B) :
  In x (select (map f cs) xs) <-> exists c, In (c, x) (combine cs xs) /\ f c = true.
Proof.
  revert xs. induction cs as [|c cs IH]; intros [|x0 xs]; simpl.
  - split; [tauto|]. intros [c [[] _]].
  - split; [tauto|]. intros [c [[] _]].
  - split; [tauto|]. intros [c' [[] _]].
  - destruct (f c) eqn:E; simpl; rewrite IH; split.
    + intros [->|[c' [H1 H2]]]; [exists c; auto|exists c'; auto].
    + intros [c' [[H|H] H2]]; [left; congruence|right; now exists c'].
    + intros [c' [H1 H2]]. exists c'. auto.
    + intros [c' [[H|H] H2]]; [|now exists c'].
      injection H as -> ->. congruence.
Qed.


Lemma state_data_inv (df : DataFrame) (s : option value) (st : column) :
  getitem df "STATE/UT" = Some st ->
  state_data df s = Some (take_rows df (eq_mask st s)).
Proof. unfold state_data. now intros ->. Qed.


(** ** Labels that occur once *)

Lemma label_count_filter (df : DataFrame) (c : string) :
  label_count df c = List.length (filter (labelled c) (cols df)).
Proof.
  unfold label_count, columns, labelled.
  induction (cols df) as [|p l IH]; simpl; [reflexivity|].
  destruct (String.eqb (fst p) c); simpl; now rewrite IH.
Qed.

Lemma getitem_count (df : DataFrame) (c : string) :
  (exists col, getitem df c = Some col) <-> label_count df c = 1.
Proof.
  rewrite label_count_filter, getitem_filter.
  destruct (filter (labelled c) (cols df)) as [|[l x] [|q t]]; simpl; split;
    try discriminate; try (intros [col H]; discriminate).
  - intros _. reflexivity.
  - intros _. now exists x.
Qed.

Lemma has_column_count (df : DataFrame) (c : string) :
  has_column df c = true <-> 1 <= label_count df c.
Proof.
  unfold has_column, label_count.
  induction (columns df) as [|l ls IH]; simpl.
  - split; [discriminate|lia].
  - rewrite (String.eqb_sym c l). destruct (String.eqb l c); simpl; [|exact IH].
    split; [lia|reflexivity].
Qed.

Lemma getitem_same_header (df df' : DataFrame) (c : string) (col : column) :
  columns df' = columns df -> getitem df c = Some col ->
  exists col', getitem df' c = Some col'.
Proof.
  intros Hc H. apply getitem_count. unfold label_count. rewrite Hc.
  apply getitem_count. now exists col.
Qed.

Lemma getitem_present_once (df : DataFrame) (c : string) :
  has_column df c = true -> label_count df c <= 1 ->
  exists col, getitem df c = Some col.
Proof.
  intros H1 H2. apply getitem_count. apply has_column_count in H1. lia.
Qed.

Lemma backfill_extra_absent (df : DataFrame) :
  Forall (fun p => has_column df (fst p) = false) (backfill_extra df).
Proof.
  unfold backfill_extra.
  destruct (has_column df "DISTRICT") eqn:Ed, (has_column df "YEAR") eqn:Ey;
    simpl; repeat constructor; assumption.
Qed.

(** ** Headers without a repeated label *)

Lemma filter_eqb_NoDup (c : string) (ls : list string) :
  NoDup ls -> List.length (filter (fun l => String.eqb l c) ls) <= 1.
Proof.
  induction 1 as [|l ls Hn Hnd IH]; simpl; [lia|].
  destruct (String.eqb_spec l c) as [->|_]; [|exact IH]. simpl.
  assert (E : filter (fun l => String.eqb l c) ls = []).
  { clear -Hn. induction ls as [|x ls IH]; [reflexivity|]. simpl.
    destruct (String.eqb_spec x c) as [->|_]; [contradiction Hn; now left|].
    apply IH. intros H. apply Hn. now right. }
  rewrite E. simpl. lia.
Qed.

Lemma NoDup_label_count (df : DataFrame) (c : string) :
  NoDup (columns df) -> label_count df c <= 1.
Proof. apply filter_eqb_NoDup. Qed.

Lemma backfill_NoDup (df : DataFrame) :
  NoDup (columns df) -> NoDup (columns (backfill df)).
Proof.
  intros H. rewrite backfill_cols. unfold columns. cbn [cols]. rewrite map_app.
  apply NoDup_app; [exact H| |].
  - unfold backfill_extra.
    destruct (has_column df "DISTRICT"), (has_column df "YEAR"); simpl;
      repeat constructor; simpl; try tauto.
    intros [E|[]]. discriminate.
  - intros a Ha Hb. apply has_column_In in Ha.
    pose proof (backfill_extra_absent df) as Hext.
    rewrite Forall_forall in Hext. apply in_map_iff in Hb.
    destruct Hb as [q [<- Hq]]. specialize (Hext q Hq). simpl in Hext. congruence.
Qed.

Lemma filter_fst_NoDup (f : string * column -> bool) (l : list (string * column)) :
  NoDup (map fst l) -> NoDup (map fst (filter f l)).
Proof.
  induction l as [|q l IH]; simpl; [intros _; constructor|].
  rewrite NoDup_cons_iff. intros [Hn Hnd]. destruct (f q); simpl; [|now apply IH].
  constructor; [|now apply IH]. intros H. apply Hn.
  apply in_map_iff in H. destruct H as [q' [E Hq']]. apply filter_In in Hq'.
  apply in_map_iff. exists q'. tauto.
Qed.

Lemma getitems_columns (df : DataFrame) (ls : list string) (l : string) :
  In l (columns (getitems df ls)) <-> In l ls /\ In l (columns df).
Proof.
  unfold columns, getitems. cbn [cols]. rewrite in_map_iff. split.
  - intros [q [<- Hq]]. apply in_flat_map in Hq. destruct Hq as [l' [Hl' Hq]].
    apply filter_In in Hq. destruct Hq as [Hq E]. unfold labelled in E.
    apply String.eqb_eq in E. subst l'. split; [exact Hl'|].
    apply in_map_iff. now exists q.
  - intros [Hl Hc]. apply in_map_iff in Hc. destruct Hc as [q [<- Hq]].
    exists q. split; [reflexivity|]. apply in_flat_map. exists (fst q).
    split; [exact Hl|]. apply filter_In. split; [exact Hq|].
    unfold labelled. apply String.eqb_refl.
Qed.

Lemma getitems_NoDup (df : DataFrame) (ls : list string) :
  NoDup (columns df) -> NoDup ls -> NoDup (columns (getitems df ls)).
Proof.
  intros Hdf. induction 1 as [|l ls Hn Hnd IH]; [constructor|].
  unfold columns, getitems in *. cbn [cols flat_map] in *. rewrite map_app.
  apply NoDup_app; [now apply filter_fst_NoDup|exact IH|].
  intros a Ha Hb. apply in_map_iff in Ha. destruct Ha as [q [<- Hq]].
  apply filter_In in Hq. destruct Hq as [_ E]. apply String.eqb_eq in E.
  rewrite E in Hb.
  pose proof (proj1 (getitems_columns df ls l)) as G.
  unfold columns, getitems in G. cbn [cols] in G. now apply G in Hb.
Qed.

Lemma multiselect_NoDup (options default : list string) (pick : option (list string)) :
  NoDup default -> (forall chosen, pick = Some chosen -> NoDup chosen) ->
  NoDup (multiselect options default pick).
Proof.
  intros Hd Hp. destruct pick as [chosen|]; simpl; [|exact Hd].
  apply NoDup_filter. now apply Hp.
Qed.

Lemma valid_defaults_NoDup (df : DataFrame) : NoDup (valid_defaults df).
Proof.
  unfold valid_defaults. apply NoDup_filter.
  repeat constructor; simpl; try tauto. intros [E|[]]. discriminate.
Qed.

Lemma filtered_data_take (df : DataFrame) (s d y : option value) (fd : DataFrame) :
  filtered_data df s d y = Some fd -> exists m, fd = take_rows df m.
Proof.
  unfold filtered_data.
  destruct (getitem df "STATE/UT"); [|discriminate].
  destruct (getitem df "DISTRICT"); [|discriminate].
  destruct (getitem df "YEAR"); [|discriminate].
  intros H. injection H as <-. eexists. reflexivity.
Qed.

(** ** The views always answer *)

Lemma trend_data_some (pd : Pandas) (parse : string -> option Z) (df : DataFrame)
  (s : option value) (st y t : column) :
  getitem df "STATE/UT" = Some st ->
  getitem df "YEAR" = Some y ->
  getitem df "TOTAL IPC CRIMES" = Some t ->
  exists tr, trend_data pd parse df s = Some tr.
Proof.
  intros Hst Hy Ht. unfold trend_data. rewrite (state_data_inv df s st Hst).
  rewrite getitem_take_rows, Ht. cbn [option_map].
  assert (Hg : getitem (take_rows df (eq_mask st s)) "TOTAL IPC CRIMES"
               = Some (col_select (eq_mask st s) t)).
  { now rewrite getitem_take_rows, Ht. }
  destruct (coerce_total_inv parse _ _ Hg) as [_ [Ht' Hother]].
  rewrite Hother by discriminate. rewrite getitem_take_rows, Hy. cbn [option_map].
  rewrite Ht'. eexists. reflexivity.
Qed.

Lemma sidebar_some (parse : string -> option Z) (p : Picks) (df : DataFrame)
  (st di ye : column) :
  getitem df "STATE/UT" = Some st ->
  getitem df "DISTRICT" = Some di ->
  getitem df "YEAR" = Some ye ->
  exists sel, sidebar parse p df = Some sel /\ columns (working sel) = columns df.
Proof.
  intros Hst Hdi Hye. unfold sidebar.
  pose proof (coerce_and_drop_some parse df ye Hye) as Hcd. rewrite Hcd.
  pose proof (coerce_and_drop_columns _ _ _ Hcd) as Hcols.
  set (w := dropna _ _) in *.
  destruct (getitem_same_header df w _ _ Hcols Hst) as [st' Hst'].
  destruct (getitem_same_header df w _ _ Hcols Hdi) as [di' Hdi'].
  destruct (getitem_same_header df w _ _ Hcols Hye) as [ye' Hye'].
  unfold state_options, district_options, year_options. rewrite Hst'.
  rewrite (state_data_inv w _ st' Hst').
  rewrite !getitem_take_rows, Hdi', Hye'. cbn [option_map].
  eexists. split; [reflexivity|exact Hcols].
Qed.

Lemma filtered_data_some (df : DataFrame) (s d y : option value) (st di ye : column) :
  getitem df "STATE/UT" = Some st ->
  getitem df "DISTRICT" = Some di ->
  getitem df "YEAR" = Some ye ->
  exists fd, filtered_data df s d y = Some fd.
Proof. intros Hs Hd Hy. unfold filtered_data. rewrite Hs, Hd, Hy. eexists. reflexivity. Qed.

Lemma total_views_cases (pd : Pandas) (parse : string -> option Z) (sel : Selection)
  (st ye : column) :
  getitem (working sel) "STATE/UT" = Some st ->
  getitem (working sel) "YEAR" = Some ye ->
  label_count (working sel) "TOTAL IPC CRIMES" <= 1 ->
  (has_column (working sel) "TOTAL IPC CRIMES" = false
   /\ total_views pd parse sel = ([StWarning no_total_warning], inr tt))
  \/ (has_column (working sel) "TOTAL IPC CRIMES" = true
      /\ exists df top tr,
           coerce_total parse (working sel) = Some df
           /\ top_states pd df = Some top
           /\ trend_data pd parse df (selected_state sel) = Some tr
           /\ total_views pd parse sel = ([ranking_event top; trend_event tr], inr tt)).
Proof.
  intros Hst Hye Hcount.
  destruct (has_column (working sel) "TOTAL IPC CRIMES") eqn:Hc.
  - right. split; [reflexivity|].
    destruct (getitem_present_once _ _ Hc Hcount) as [t Ht].
    destruct (coerce_total_inv parse _ _ Ht) as [Hd [Ht' Hother]].
    set (df := setitem _ _ _) in *.
    assert (Hst' : getitem df "STATE/UT" = Some st) by (rewrite Hother; [exact Hst|discriminate]).
    assert (Hye' : getitem df "YEAR" = Some ye) by (rewrite Hother; [exact Hye|discriminate]).
    destruct (trend_data_some pd parse df (selected_state sel) _ _ _ Hst' Hye' Ht')
      as [tr Htr].
    exists df. eexists. exists tr.
    assert (Htop : top_states pd df
                   = Some (head 5 (sort_values_desc pd
                                     (groupby_sum pd st
                                        (numbers (NumCol (to_numeric parse t))))))).
    { unfold top_states. now rewrite Hst', Ht'. }
    split; [exact Hd|]. split; [exact Htop|]. split; [exact Htr|].
    now apply total_views_run with (df := df).
  - left. split; [reflexivity|now apply total_views_absent].
Qed.

(** ** The session: what halts it and what does not *)

Lemma bind_ret {A B : Type} (a : A) (k : A -> ui B) : bind ([], inr a) k = k a.
Proof. unfold bind. now destruct (k a). Qed.

Lemma bind_run {A B : Type} (evs evs' : list event) (a : A) (k : A -> ui B)
  (r : halt + B) :
  k a = (evs', r) -> bind (evs, inr a) k = ((evs ++ evs')%list, r).
Proof. unfold bind. now intros ->. Qed.

Lemma selectbox_nonempty {A : Type} (x : A) (l : list A) (pick : nat) :
  exists y, selectbox (x :: l) pick = Some y.
Proof.
  unfold selectbox. destruct (nth_error (x :: l) pick) as [y|]; [now exists y|].
  now exists x.
Qed.

Lemma selectbox_In {A : Type} (l : list A) (pick : nat) (y : A) :
  selectbox l pick = Some y -> In y l.
Proof.
  unfold selectbox. destruct (nth_error l pick) as [z|] eqn:E.
  - intros H. injection H as ->. exact (nth_error_In _ _ E).
  - destruct l; simpl; [discriminate|]. intros H. injection H as ->. now left.
Qed.

Lemma load_cases (w : World) (p : Picks) :
  (no_files w
   /\ load w p = ([StError "No CSV files found in the data folder."], inl Stopped))
  \/ (exists f e,
        selectbox (csv_files w) (pick_file p) = Some f
        /\ read_csv w (path_join DATA_FOLDER f) = inl e
        /\ load w p = ([StError ("Failed to read the file: " ++ e)], inl Stopped))
  \/ (exists f df,
        selectbox (csv_files w) (pick_file p) = Some f
        /\ read_csv w (path_join DATA_FOLDER f) = inr df
        /\ load w p = ([], inr df)).
Proof.
  unfold load, no_files. fold (csv_files w).
  destruct (csv_files w) as [|x l] eqn:E; [left; now split|right].
  destruct (selectbox_nonempty x l (pick_file p)) as [f Hf]. rewrite Hf.
  unfold ret. rewrite bind_ret. unfold try, ret. rewrite bind_ret.
  destruct (read_csv w (path_join DATA_FOLDER f)) as [e|df] eqn:Er.
  - left. exists f, e. now repeat split.
  - right. exists f, df. now repeat split.
Qed.

Lemma prepare_cases (df : DataFrame) :
  (has_required (backfill (standardize df)) = false
   /\ exists msg, prepare df = ([StError msg], inl Stopped))
  \/ (has_required (backfill (standardize df)) = true
      /\ prepare df = ([], inr (backfill (standardize df)))).
Proof.
  unfold prepare. destruct (has_required (backfill (standardize df))); simpl.
  - right. now split.
  - left. split; [reflexivity|]. eexists. reflexivity.
Qed.

Lemma has_required_inv (df : DataFrame) :
  has_required df = true ->
  has_column df "STATE/UT" = true
  /\ has_column df "DISTRICT" = true
  /\ has_column df "YEAR" = true.
Proof.
  unfold has_required, required_columns. cbn [forallb].
  rewrite !andb_true_iff. tauto.
Qed.

(** The two blocks of views, on a prepared table whose labels and chosen
    crime types are pairwise distinct: both answer, whatever the other
    one shows. *)
Lemma views_run (pd : Pandas) (parse : string -> option Z) (p : Picks) (df : DataFrame) :
  has_required df = true ->
  NoDup (columns df) ->
  (forall chosen, pick_crimes p = Some chosen -> NoDup chosen) ->
  exists sel fd,
    sidebar parse p df = Some sel
    /\ filtered_data (working sel) (selected_state sel) (selected_district sel)
         (selected_year sel) = Some fd
    /\ bind (try (sidebar parse p df))
         (fun sel => filtered_view pd sel ;;; total_views pd parse sel)
       = ((fst (filtered_view pd sel) ++ fst (total_views pd parse sel))%list, inr tt)
    /\ (((empty fd = true \/ selected_crimes sel = [])
         /\ fst (filtered_view pd sel) = [StWarning no_data_warning])
        \/ (empty fd = false /\ selected_crimes sel <> []
            /\ fst (filtered_view pd sel)
               = [StDataframe (getitems fd (selected_crimes sel));
                  StWrite (total_selected pd fd (selected_crimes sel));
                  pie_event (cleaned (total_selected pd fd (selected_crimes sel)))]))
    /\ ((has_column (working sel) "TOTAL IPC CRIMES" = false
         /\ fst (total_views pd parse sel) = [StWarning no_total_warning])
        \/ (has_column (working sel) "TOTAL IPC CRIMES" = true
            /\ exists d top tr,
                 coerce_total parse (working sel) = Some d
                 /\ top_states pd d = Some top
                 /\ trend_data pd parse d (selected_state sel) = Some tr
                 /\ fst (total_views pd parse sel)
                    = [ranking_event top; trend_event tr])).
Proof.
  intros Hreq Hnd Hpick. destruct (has_required_inv df Hreq) as [Hs [Hd Hy]].
  destruct (getitem_present_once df _ Hs (NoDup_label_count df _ Hnd)) as [st Hst].
  destruct (getitem_present_once df _ Hd (NoDup_label_count df _ Hnd)) as [di Hdi].
  destruct (getitem_present_once df _ Hy (NoDup_label_count df _ Hnd)) as [ye Hye].
  destruct (sidebar_some parse p df _ _ _ Hst Hdi Hye) as [sel [Hsel Hcols]].
  destruct (getitem_same_header df (working sel) _ _ Hcols Hst) as [st' Hst'].
  destruct (getitem_same_header df (working sel) _ _ Hcols Hdi) as [di' Hdi'].
  destruct (getitem_same_header df (working sel) _ _ Hcols Hye) as [ye' Hye'].
  destruct (filtered_data_some (working sel) (selected_state sel)
              (selected_district sel) (selected_year sel) _ _ _ Hst' Hdi' Hye')
    as [fd Hfd].
  assert (Hcount : label_count (working sel) "TOTAL IPC CRIMES" <= 1).
  { unfold label_count. rewrite Hcols. apply NoDup_label_count, Hnd. }
  assert (Hdist : distinct (columns (getitems fd (selected_crimes sel))) = true).
  { apply distinct_NoDup. apply getitems_NoDup.
    - destruct (filtered_data_take _ _ _ _ _ Hfd) as [m ->].
      rewrite take_rows_columns, Hcols. exact Hnd.
    - destruct (sidebar_inv parse p df sel Hsel) as [_ [_ [_ [_ [_ [_ [_ ->]]]]]]].
      apply multiselect_NoDup; [apply valid_defaults_NoDup|exact Hpick]. }
  assert (Hfv : exists evs, filtered_view pd sel = (evs, inr tt)
                  /\ (((empty fd = true \/ selected_crimes sel = [])
                        /\ evs = [StWarning no_data_warning])
                      \/ (empty fd = false /\ selected_crimes sel <> []
                          /\ evs = [StDataframe (getitems fd (selected_crimes sel));
                                    StWrite (total_selected pd fd (selected_crimes sel));
                                    pie_event (cleaned (total_selected pd fd
                                                          (selected_crimes sel)))]))).
  { destruct (empty fd) eqn:He.
    - eexists. split; [apply (filtered_view_warned pd sel fd Hfd); now left|].
      left. split; [now left|reflexivity].
    - destruct (selected_crimes sel) as [|c cs] eqn:Ec.
      + eexists. split; [apply (filtered_view_warned pd sel fd Hfd); now right|].
        left. split; [now right|reflexivity].
      + eexists. split.
        * apply (filtered_view_shown pd sel fd Hfd He); rewrite Ec;
            [discriminate|exact Hdist].
        * right. rewrite Ec. split; [reflexivity|]. split; [discriminate|reflexivity]. }
  destruct Hfv as [evs [Hfv Hshape]].
  assert (Htv : exists evs', total_views pd parse sel = (evs', inr tt)
                  /\ ((has_column (working sel) "TOTAL IPC CRIMES" = false
                       /\ evs' = [StWarning no_total_warning])
                      \/ (has_column (working sel) "TOTAL IPC CRIMES" = true
                          /\ exists d top tr,
                               coerce_total parse (working sel) = Some d
                               /\ top_states pd d = Some top
                               /\ trend_data pd parse d (selected_state sel) = Some tr
                               /\ evs' = [ranking_event top; trend_event tr]))).
  { destruct (total_views_cases pd parse sel _ _ Hst' Hye' Hcount)
      as [[Hc Hrun]|[Hc [d [top [tr [H1 [H2 [H3 Hrun]]]]]]]].
    - eexists. split; [exact Hrun|]. left. now split.
    - eexists. split; [exact Hrun|]. right. split; [exact Hc|].
      exists d, top, tr. now repeat split. }
  destruct Htv as [evs' [Htv Hshape']].
  exists sel, fd. split; [exact Hsel|]. split; [exact Hfd|].
  rewrite Hsel, Hfv, Htv. cbn [fst]. split.
  { unfold try, ret. rewrite bind_ret. cbn beta. rewrite Hfv. now apply bind_run. }
  split; [exact Hshape|exact Hshape'].
Qed.

(** C8, as the specification states it, fails: a fourth condition ends
    the session.  The file [twice_murder] is found and read, and its
    header has the three dimensions; but its columns Murder and murder
    both become MURDER, the default choice of crime types selects both,
    and [st.dataframe] raises on the table with the label twice.  The run
    ends there, with nothing on the page: no message, and the totals
    block, which has nothing to do with the failure, is never reached. *)
Lemma session_outcomes_counterexample :
  ~ (no_files twice_murder_world
     \/ unreadable twice_murder_world sample_picks
     \/ missing_dimension twice_murder_world sample_picks)
  /\ app int64_pandas parse_decimal twice_murder_world sample_picks = ([], inl Raised)
  /\ ~ (forall w p,
          snd (app int64_pandas parse_decimal w p) <> inr tt ->
          no_files w \/ unreadable w p \/ missing_dimension w p).
Proof.
  assert (H : ~ (no_files twice_murder_world
                 \/ unreadable twice_murder_world sample_picks
                 \/ missing_dimension twice_murder_world sample_picks)).
  { intros [H|[[f [e [Hf Hr]]]|[f [df [Hf [Hr Hq]]]]]].
    - discriminate H.
    - simpl in Hr. discriminate.
    - simpl in Hr. injection Hr as <-. vm_compute in Hq. discriminate. }
  split; [exact H|]. split; [vm_compute; reflexivity|].
  intros C. apply H. apply C. vm_compute. discriminate.
Qed.

(** C8, amended.  When the canonical header of the chosen file has no
    label twice and the user chose no crime type twice, a run ends in
    [st.stop()] exactly when the folder has no CSV file, or the chosen
    file cannot be read, or a dimension column is still missing after the
    backfill; the page then holds one error message and nothing else.  In
    every other case the run reaches its last line with both blocks of
    views on the page, the second after the first: the filtered block is
    the no-data warning (no row selected or no crime type chosen), or the
    table, the totals and the pie chart or its placeholder; the totals
    block is the warning that the total column is absent, or the ranking
    chart or its warning followed by the trend chart or its warning. *)
Theorem session_outcomes (pd : Pandas) (parse : string -> option Z) (w : World)
  (p : Picks) :
  (forall f df, selectbox (csv_files w) (pick_file p) = Some f ->
                read_csv w (path_join DATA_FOLDER f) = inr df ->
                NoDup (columns (standardize df))) ->
  (forall chosen, pick_crimes p = Some chosen -> NoDup chosen) ->
  (snd (app pd parse w p) = inl Stopped
   <-> no_files w \/ unreadable w p \/ missing_dimension w p)
  /\ (snd (app pd parse w p) = inl Stopped ->
      exists msg, fst (app pd parse w p) = [StError msg])
  /\ (snd (app pd parse w p) <> inl Stopped ->
      exists f df sel fd,
        selectbox (csv_files w) (pick_file p) = Some f
        /\ read_csv w (path_join DATA_FOLDER f) = inr df
        /\ sidebar parse p (backfill (standardize df)) = Some sel
        /\ filtered_data (working sel) (selected_state sel) (selected_district sel)
             (selected_year sel) = Some fd
        /\ app pd parse w p
           = ((fst (filtered_view pd sel) ++ fst (total_views pd parse sel))%list,
              inr tt)
        /\ (((empty fd = true \/ selected_crimes sel = [])
             /\ fst (filtered_view pd sel) = [StWarning no_data_warning])
            \/ (empty fd = false /\ selected_crimes sel <> []
                /\ fst (filtered_view pd sel)
                   = [StDataframe (getitems fd (selected_crimes sel));
                      StWrite (total_selected pd fd (selected_crimes sel));
                      pie_event (cleaned (total_selected pd fd (selected_crimes sel)))]))
        /\ ((has_column (working sel) "TOTAL IPC CRIMES" = false
             /\ fst (total_views pd parse sel) = [StWarning no_total_warning])
            \/ (has_column (working sel) "TOTAL IPC CRIMES" = true
                /\ exists d top tr,
                     coerce_total parse (working sel) = Some d
                     /\ top_states pd d = Some top
                     /\ trend_data pd parse d (selected_state sel) = Some tr
                     /\ fst (total_views pd parse sel)
                        = [ranking_event top; trend_event tr]))).
Proof.
  intros Hfree Hpick. unfold app.
  destruct (load_cases w p) as [[Hno Hl]|[[f [e [Hf [Hr Hl]]]]|[f [df [Hf [Hr Hl]]]]]];
    rewrite Hl.
  - cbn [bind fst snd]. split; [split; [intros _; now left|reflexivity]|].
    split; [intros _; eexists; reflexivity|]. intros H. now contradiction H.
  - cbn [bind fst snd]. split.
    { split; [intros _; right; left; now exists f, e|reflexivity]. }
    split; [intros _; eexists; reflexivity|]. intros H. now contradiction H.
  - rewrite bind_ret.
    destruct (prepare_cases df) as [[Hreq [msg Hp]]|[Hreq Hp]]; rewrite Hp.
    + cbn [bind fst snd]. split.
      { split; [intros _; right; right; now exists f, df|reflexivity]. }
      split; [intros _; now exists msg|]. intros H. now contradiction H.
    + rewrite bind_ret.
      pose proof (backfill_NoDup _ (Hfree _ _ Hf Hr)) as Hnd.
      destruct (views_run pd parse p _ Hreq Hnd Hpick)
        as [sel [fd [Hsel [Hfd [Hrun [Hshape Hshape']]]]]].
      rewrite Hrun. cbn [fst snd]. split; [split|split].
      * discriminate.
      * intros [Hno|[[f' [e [Hf' Hr']]]|[f' [df' [Hf' [Hr' Hreq']]]]]].
        -- apply selectbox_In in Hf. unfold no_files in Hno. rewrite Hno in Hf.
           destruct Hf.
        -- rewrite Hf in Hf'. injection Hf' as <-. rewrite Hr in Hr'. discriminate.
        -- rewrite Hf in Hf'. injection Hf' as <-. rewrite Hr in Hr'.
           injection Hr' as <-. rewrite Hreq in Hreq'. discriminate.
      * discriminate.
      * intros _. exists f, df, sel, fd. now repeat split.
Qed.

(** ** Choices that select nothing *)

Lemma options_In (df : DataFrame) (s : option value) (st col : column) (c : string) :
  getitem df "STATE/UT" = Some st ->
  getitem df c = Some col ->
  exists opts,
    (let? sd := state_data df s in let? x := getitem sd c in Some (sorted_unique x))
    = Some opts
    /\ forall v, In v opts <->
         exists k, In (k, Some v) (combine (cells st) (cells col))
                   /\ cell_eqb k s = true.
Proof.
  intros Hst Hc. rewrite (state_data_inv df s st Hst).
  rewrite getitem_take_rows, Hc. cbn [option_map]. eexists. split; [reflexivity|].
  intros v. rewrite sorted_unique_In, cells_col_select. unfold eq_mask.
  apply select_combine_In.
Qed.

(** C10. The districts offered and the years offered are those of the
    rows of the selected state, the years whatever the district; and
    there is a table, and answers each taken from the list offered, for
    which the exact-match selection has no row and the view shows the
    no-data warning: in the sample, North Goa occurs in 2012 only and
    2013 in South Goa only. *)
Theorem valid_choices_empty_selection (pd : Pandas) (parse : string -> option Z) :
  (forall df s st di ye,
     getitem df "STATE/UT" = Some st ->
     getitem df "DISTRICT" = Some di ->
     getitem df "YEAR" = Some ye ->
     exists ds ys,
       district_options df s = Some ds
       /\ year_options df s = Some ys
       /\ (forall d, In d ds <->
             exists k, In (k, Some d) (combine (cells st) (cells di))
                       /\ cell_eqb k s = true)
       /\ (forall y, In y ys <->
             exists k, In (k, Some y) (combine (cells st) (cells ye))
                       /\ cell_eqb k s = true))
  /\ exists df p sel fd,
       well_formed df
       /\ sidebar parse p df = Some sel
       /\ selected_state sel = Some (VStr "Goa") /\ In (VStr "Goa") (states sel)
       /\ selected_district sel = Some (VStr "North Goa")
       /\ In (VStr "North Goa") (districts sel)
       /\ selected_year sel = Some (VNum 2013) /\ In (VNum 2013) (years sel)
       /\ filtered_data (working sel) (selected_state sel) (selected_district sel)
            (selected_year sel) = Some fd
       /\ rows fd = []
       /\ filtered_view pd sel = ([StWarning no_data_warning], inr tt).
Proof.
  split.
  - intros df s st di ye Hst Hdi Hye.
    destruct (options_In df s st di "DISTRICT" Hst Hdi) as [ds [Hds Hd]].
    destruct (options_In df s st ye "YEAR" Hst Hye) as [ys [Hys Hy]].
    exists ds, ys. split; [exact Hds|]. split; [exact Hys|]. split; assumption.
  - exists sample, (mkPicks 0 0 0 1 None).
    eexists. eexists. split; [exact sample_well_formed|].
    split; [reflexivity|].
    split; [reflexivity|]. split; [vm_compute; tauto|].
    split; [reflexivity|]. split; [vm_compute; tauto|].
    split; [reflexivity|]. split; [vm_compute; tauto|].
    split; [reflexivity|]. split; reflexivity.
Qed.

(** ** The theorems on the sample data *)

Lemma coerce_and_drop_invariant_witness :
  getitem (backfill (standardize raw_sample)) "YEAR"
  = Some (ObjCol [Some "2012"; Some "n/a"; Some "2013"; Some "2012"])
  /\ exists df',
       coerce_and_drop parse_decimal (backfill (standardize raw_sample)) = Some df'
       /\ columns df' = ["STATE/UT"; "YEAR"; "MURDER"; "TOTAL IPC CRIMES"; "DISTRICT"]
       /\ getitem df' "YEAR" = Some (NumCol [Some 2012%Z; Some 2012%Z])
       /\ Forall (fun p => In (fst p) required_columns ->
                           Forall (fun x => x <> None) (cells (snd p)))
            (cols df').
Proof.
  split; [reflexivity|].
  destruct (coerce_and_drop_invariant parse_decimal (backfill (standardize raw_sample))
              (ObjCol [Some "2012"; Some "n/a"; Some "2013"; Some "2012"]) eq_refl)
    as [df' [Hcd [Hcols [_ [Hall _]]]]].
  exists df'. split; [exact Hcd|]. split; [rewrite Hcols; reflexivity|].
  split; [|exact Hall].
  vm_compute in Hcd. injection Hcd as <-. reflexivity.
Defined.

Lemma pie_chart_input_witness :
  filtered_data (working sample_selection) (selected_state sample_selection)
    (selected_district sample_selection) (selected_year sample_selection)
  = Some (take_rows sample [true; false; false])
  /\ cleaned (total_selected int64_pandas (take_rows sample [true; false; false])
                (selected_crimes sample_selection))
     = [("MURDER", 5%Z); ("RAPE", 2%Z)]
  /\ forall c, In (StPyplot c) (fst (filtered_view int64_pandas sample_selection)) ->
       c = [("MURDER", 5%Z); ("RAPE", 2%Z)]
       /\ c <> [] /\ Forall (fun p => (0 < snd p)%Z) c.
Proof.
  split; [reflexivity|]. split; [reflexivity|].
  exact (proj1 (proj2 (proj2
           (pie_chart_input int64_pandas sample_selection
              (take_rows sample [true; false; false]) eq_refl)))).
Defined.



Lemma session_outcomes_witness :
  (forall f df, selectbox (csv_files sample_world) (pick_file sample_picks) = Some f ->
                read_csv sample_world (path_join DATA_FOLDER f) = inr df ->
                NoDup (columns (standardize df)))
  /\ (forall chosen, pick_crimes sample_picks = Some chosen -> NoDup chosen)
  /\ (snd (app int64_pandas parse_decimal sample_world sample_picks) = inl Stopped
      <-> no_files sample_world \/ unreadable sample_world sample_picks
          \/ missing_dimension sample_world sample_picks)
  /\ app int64_pandas parse_decimal sample_world sample_picks
     = ([StDataframe (mkDF 1 [("MURDER", NumCol [Some 5%Z])]);
         StWrite [("MURDER", Some 5%Z)];
         StPyplot [("MURDER", 5%Z)];
         StBarChart [(VStr "Kerala", 70%Z); (VStr "Goa", 50%Z)];
         StLineChart [(VNum 2012, 50%Z)]], inr tt).
Proof.
  assert (H : forall f df,
                selectbox (csv_files sample_world) (pick_file sample_picks) = Some f ->
                read_csv sample_world (path_join DATA_FOLDER f) = inr df ->
                NoDup (columns (standardize df))).
  { intros f df _ E. simpl in E. injection E as <-.
    apply distinct_NoDup. reflexivity. }
  assert (H' : forall chosen, pick_crimes sample_picks = Some chosen -> NoDup chosen).
  { intros chosen E. discriminate E. }
  split; [exact H|]. split; [exact H'|]. split; [|reflexivity].
  exact (proj1 (session_outcomes int64_pandas parse_decimal sample_world sample_picks
                  H H')).
Defined.

(** * Further properties of the script *)

(** ** The data folder: line 14 *)

Lemma substring_all (s : string) : substring 0 (String.length s) s = s.
Proof. induction s as [|c r IH]; simpl; [reflexivity|]. now rewrite IH. Qed.

Lemma substring_skip (pre suf : string) :
  substring (String.length pre) (String.length suf) (pre ++ suf) = suf.
Proof. induction pre as [|c r IH]; simpl; [apply substring_all|exact IH]. Qed.

Lemma append_length (a b : string) :
  String.length (a ++ b) = String.length a + String.length b.
Proof. induction a as [|c r IH]; simpl; [reflexivity|]. now rewrite IH. Qed.

Lemma substring_split (k : nat) (s : string) :
  k <= String.length s ->
  s = substring 0 k s ++ substring k (String.length s - k) s.
Proof.
  revert k. induction s as [|c r IH]; intros [|k] H; simpl in *.
  - reflexivity.
  - lia.
  - now rewrite substring_all.
  - f_equal. apply IH. lia.
Qed.

Lemma endswith_iff (s suf : string) :
  PyStr.endswith s suf = true <-> exists pre, s = pre ++ suf.
Proof.
  unfold PyStr.endswith. rewrite andb_true_iff, Nat.leb_le, String.eqb_eq. split.
  - intros [Hle Hsub].
    exists (substring 0 (String.length s - String.length suf) s).
    assert (Hk : String.length s - String.length suf <= String.length s) by lia.
    pose proof (substring_split _ s Hk) as H.
    replace (String.length s - (String.length s - String.length suf))
      with (String.length suf) in H by lia.
    rewrite Hsub in H. exact H.
  - intros [pre ->]. rewrite append_length. split; [lia|].
    replace (String.length pre + String.length suf - String.length suf)
      with (String.length pre) by lia.
    apply substring_skip.
Qed.

Lemma filter_split_perm {A : Type} (f : A -> bool) (l : list A) :
  Permutation l (filter f l ++ filter (fun x => negb (f x)) l).
Proof.
  induction l as [|x l IH]; [constructor|].
  cbn [filter]. destruct (f x); cbn [negb].
  - apply (perm_skip x IH).
  - apply Permutation_cons_app. exact IH.
Qed.

(** X1. The datasets offered are the names of the folder that end in
    ".csv", compared exactly, and no other name of the listing ends so;
    the run stops for want of files exactly when no name ends in ".csv". *)
Theorem csv_files_suffix (w : World) (p : Picks) :
  (forall f, In f (csv_files w) <->
             In f (listdir w) /\ exists stem, f = stem ++ ".csv")
  /\ (exists rest, Permutation (listdir w) (csv_files w ++ rest)
                   /\ forall f, In f rest -> forall stem, f <> stem ++ ".csv")
  /\ (load w p = ([StError "No CSV files found in the data folder."], inl Stopped)
      <-> forall f, In f (listdir w) -> forall stem, f <> stem ++ ".csv").
Proof.
  assert (Hin : forall f, In f (csv_files w) <->
                          In f (listdir w) /\ exists stem, f = stem ++ ".csv").
  { intros f. unfold csv_files. rewrite filter_In, endswith_iff. reflexivity. }
  split; [exact Hin|]. split.
  - exists (filter (fun f => negb (PyStr.endswith f ".csv")) (listdir w)). split.
    + apply filter_split_perm.
    + intros f Hf stem ->. apply filter_In in Hf. destruct Hf as [_ Hf].
      assert (E : PyStr.endswith (stem ++ ".csv") ".csv" = true)
        by (apply endswith_iff; now exists stem).
      rewrite E in Hf. discriminate.
  - split.
    + intros Hl f Hf stem ->.
      destruct (load_cases w p) as [[Hno _]|[[f' [e [_ [_ Hl']]]]|[f' [df [_ [_ Hl']]]]]].
      * unfold no_files in Hno.
        assert (Hc : In (stem ++ ".csv") (csv_files w))
          by (apply Hin; split; [exact Hf|now exists stem]).
        rewrite Hno in Hc. destruct Hc.
      * rewrite Hl in Hl'. discriminate.
      * rewrite Hl in Hl'. discriminate.
    + intros Hnone. destruct (load_cases w p) as [[_ Hl]|[[f [e [Hf _]]]|[f [df [Hf _]]]]].
      * exact Hl.
      * apply selectbox_In, Hin in Hf. destruct Hf as [Hf [stem ->]].
        now contradiction (Hnone _ Hf stem).
      * apply selectbox_In, Hin in Hf. destruct Hf as [Hf [stem ->]].
        now contradiction (Hnone _ Hf stem).
Qed.

(** ** Stripping and normalising a label: line 31 *)

(** X2. Stripping a label takes away a run of white space at the front
    and one at the back and nothing else, and what is left neither begins
    nor ends with a white-space character. *)
Theorem strip_decomposition (s : string) :
  exists a b,
    s = a ++ PyStr.strip s ++ b
    /\ PyStr.all PyStr.isspace a = true
    /\ PyStr.all PyStr.isspace b = true
    /\ (forall c r, PyStr.strip s = String c r -> PyStr.isspace c = false)
    /\ (forall r c, PyStr.strip s = r ++ String c "" -> PyStr.isspace c = false).
Proof.
  destruct (lstrip_split s) as [a [Ha Hsa]].
  destruct (rstrip_split (PyStr.lstrip s)) as [b [Hb Hsb]].
  exists a, b. unfold PyStr.strip. split; [now rewrite <- Hb|].
  split; [exact Hsa|]. split; [exact Hsb|]. split.
  - intros c r H. apply (left_clean_inv c r). rewrite <- H.
    apply rstrip_left_clean, lstrip_left_clean.
  - intros r c H. apply (right_clean_last _ r c (rstrip_right_clean _) H).
Qed.

Lemma squash_fixed (s : string) :
  is_upper s = true -> no_newline s = true -> squash s = s.
Proof.
  unfold is_upper, no_newline. induction s as [|c r IH]; [reflexivity|].
  simpl. rewrite !andb_true_iff. intros [Hu Hur] [[Hl Hc] Hnr].
  apply negb_true_iff in Hu, Hl, Hc. rewrite Hl, Hc. simpl.
  unfold PyStr.upper_char. rewrite Hu. f_equal. now apply IH.
Qed.

(** X3. The labels the normalisation leaves alone are exactly those in
    normal form already: nothing to strip, no lower-case letter, no line
    feed and no carriage return. *)
Theorem normalize_label_fixed_points (s : string) :
  normalize_label s = s
  <-> PyStr.strip s = s /\ is_upper s = true /\ no_newline s = true.
Proof.
  split.
  - intros H. split; [|split].
    + rewrite <- H at 2. rewrite <- H at 1. apply normalize_label_clean.
    + rewrite <- H, normalize_label_squash. apply squash_upper.
    + rewrite <- H, normalize_label_squash. apply squash_no_newline.
  - intros [Hs [Hu Hn]]. rewrite normalize_label_squash, Hs. now apply squash_fixed.
Qed.

(** ** The header transformation twice: lines 31-41 *)

Lemma canonical_label_idem (l : string) :
  rename_label rename_map (normalize_label (rename_label rename_map (normalize_label l)))
  = rename_label rename_map (normalize_label l).
Proof.
  assert (Hn : normalize_label (normalize_label l) = normalize_label l).
  { rewrite (normalize_label_squash (normalize_label l)), normalize_label_clean.
    rewrite normalize_label_squash. apply squash_idem. }
  destruct (rename_label_cases (normalize_label l)) as [E|[[_ E]|[[_ E]|[_ E]]]];
    rewrite E; [|reflexivity|reflexivity|reflexivity].
  rewrite Hn. exact E.
Qed.

(** X4. Standardising a header that has been standardised changes
    nothing: the canonical names are in normal form and none of them is a
    synonym the rename table maps away; on a frame, neither the labels nor
    the data move the second time. *)
Theorem standardize_idempotent (df : DataFrame) :
  standardize_header (standardize_header (columns df)) = standardize_header (columns df)
  /\ standardize (standardize df) = standardize df.
Proof.
  assert (H : forall ls, standardize_header (standardize_header ls)
                         = standardize_header ls).
  { intros ls. unfold standardize_header, rename_columns, str_upper, str_replace,
      str_strip. rewrite !map_map. apply map_ext. intros l.
    exact (canonical_label_idem l). }
  split; [apply H|].
  assert (E : forall d, standardize d
                        = mkDF (nrows d)
                            (map (fun p => (rename_label rename_map (normalize_label (fst p)),
                                            snd p)) (cols d))).
  { intros d. rewrite <- standardize_cols.
    change (nrows d) with (nrows (standardize d)). now destruct (standardize d). }
  rewrite (E (standardize df)), (E df). cbn [nrows cols]. f_equal.
  rewrite map_map. apply map_ext. intros [l c]. cbn [fst snd].
  now rewrite canonical_label_idem.
Qed.

(** ** Backfill and validation: lines 44-55 *)

Lemma backfill_has (df : DataFrame) (c : string) :
  has_column (backfill df) c
  = has_column df c || existsb (String.eqb c) (map fst (backfill_extra df)).
Proof. rewrite backfill_cols. apply has_column_app. Qed.

Lemma backfill_has_district_year (df : DataFrame) :
  has_column (backfill df) "DISTRICT" = true /\ has_column (backfill df) "YEAR" = true.
Proof.
  rewrite !backfill_has. unfold backfill_extra.
  destruct (has_column df "DISTRICT"), (has_column df "YEAR"); now split.
Qed.

Lemma backfill_complete (df : DataFrame) :
  has_column df "DISTRICT" = true -> has_column df "YEAR" = true -> backfill df = df.
Proof.
  intros Hd Hy. rewrite backfill_cols. unfold backfill_extra. rewrite Hd, Hy.
  simpl. rewrite app_nil_r. now destruct df.
Qed.

(** X5. The backfill is idempotent: a table that has been through it has
    both columns, and going through it again adds nothing. *)
Theorem backfill_idempotent (df : DataFrame) :
  backfill (backfill df) = backfill df.
Proof.
  destruct (backfill_has_district_year df) as [Hd Hy].
  now apply backfill_complete.
Qed.

Lemma rename_to_state (n : string) :
  rename_label rename_map n = "STATE/UT"
  <-> n = "STATE/UT" \/ n = "STATES/UTS" \/ n = "STATE".
Proof.
  split.
  - intros H. destruct (rename_label_cases n) as [E|[[En E]|[[En E]|[En E]]]].
    + left. congruence.
    + right. now left.
    + right. now right.
    + rewrite E in H. discriminate.
  - intros [-> | [-> | ->]]; reflexivity.
Qed.

(** X6. The validator can fail for the state column only: after the
    backfill, the three dimension columns are all there exactly when some
    raw label normalises to STATE/UT, STATES/UTS or STATE, and the run
    stops with the missing-columns message exactly when none does. *)
Theorem validation_needs_state (df : DataFrame) :
  let has_state :=
    exists l, In l (columns df)
              /\ (normalize_label l = "STATE/UT"
                  \/ normalize_label l = "STATES/UTS"
                  \/ normalize_label l = "STATE") in
  (has_required (backfill (standardize df)) = true <-> has_state)
  /\ (prepare df = ([], inr (backfill (standardize df))) <-> has_state)
  /\ (prepare df
      = ([StError
            "This dataset is missing required columns: 'STATE/UT', 'DISTRICT', or 'YEAR'"],
         inl Stopped)
      <-> ~ has_state).
Proof.
  intros has_state.
  assert (H : has_required (backfill (standardize df)) = true <-> has_state).
  { unfold has_required, required_columns. cbn [forallb].
    destruct (backfill_has_district_year (standardize df)) as [Hd Hy].
    rewrite Hd, Hy, !andb_true_r, backfill_has.
    assert (E : existsb (String.eqb "STATE/UT")
                  (map fst (backfill_extra (standardize df))) = false).
    { unfold backfill_extra.
      destruct (has_column (standardize df) "DISTRICT"),
        (has_column (standardize df) "YEAR"); reflexivity. }
    rewrite E, orb_false_r, has_column_In.
    unfold columns at 1. rewrite standardize_cols, map_map. cbn [fst].
    rewrite in_map_iff. unfold has_state, columns. split.
    - intros [[l c] [Hl Hin]]. cbn [fst] in Hl. exists l. split.
      + apply in_map_iff. now exists (l, c).
      + now apply rename_to_state.
    - intros [l [Hin Hl]]. apply in_map_iff in Hin. destruct Hin as [[l' c] [<- Hin]].
      exists (l', c). split; [|exact Hin]. now apply rename_to_state. }
  split; [exact H|]. unfold prepare.
  destruct (has_required (backfill (standardize df))) eqn:E; cbn [negb].
  - split; [split; [intros _; now apply H|reflexivity]|].
    split; [discriminate|]. intros Hn. contradiction Hn. now apply H.
  - split.
    + split; [discriminate|]. intros Hs. apply H in Hs. discriminate.
    + split; [|reflexivity]. intros _ Hs. apply H in Hs. discriminate.
Qed.

(** ** From the file's table to the selection: lines 30-87 *)

Lemma standardize_well_formed (df : DataFrame) :
  well_formed df -> well_formed (standardize df).
Proof.
  unfold well_formed. rewrite standardize_cols. intros H. apply Forall_map.
  eapply Forall_impl; [|exact H]. now intros [l c].
Qed.

Lemma select_le {A : Type} (m : list bool) (xs : list A) :
  List.length (select m xs) <= List.length xs.
Proof.
  revert xs. induction m as [|b m IH]; intros [|x xs]; simpl; try lia.
  specialize (IH xs). destruct b; simpl; lia.
Qed.

Lemma take_rows_nrows (df : DataFrame) (m : list bool) :
  nrows (take_rows df m) <= nrows df.
Proof.
  unfold take_rows. cbn [nrows].
  pose proof (select_le m (seq 0 (nrows df))) as H. now rewrite length_seq in H.
Qed.

Lemma setitem_nrows (df : DataFrame) (c : string) (col : column) :
  nrows (setitem df c col) = nrows df.
Proof. unfold setitem. now destruct (has_column df c). Qed.

(** X7. From a well-formed table as read, the working dataset and every
    selection made in it are well-formed, carry the canonical header
    unchanged, and have no more rows than the table they come from. *)
Theorem pipeline_shape (parse : string -> option Z) (p : Picks) (raw : DataFrame)
  (sel : Selection) :
  well_formed raw ->
  sidebar parse p (backfill (standardize raw)) = Some sel ->
  well_formed (working sel)
  /\ columns (working sel) = columns (backfill (standardize raw))
  /\ nrows (working sel) <= nrows raw
  /\ forall fd,
       filtered_data (working sel) (selected_state sel) (selected_district sel)
         (selected_year sel) = Some fd ->
       well_formed fd
       /\ columns fd = columns (working sel)
       /\ nrows fd <= nrows (working sel).
Proof.
  intros Hwf Hs. apply sidebar_inv in Hs. destruct Hs as [Hcd _].
  assert (Hwf' : well_formed (backfill (standardize raw)))
    by now apply backfill_well_formed, standardize_well_formed.
  pose proof (coerce_and_drop_well_formed _ _ _ Hwf' Hcd) as Hw.
  split; [exact Hw|]. split; [exact (coerce_and_drop_columns _ _ _ Hcd)|]. split.
  - unfold coerce_and_drop in Hcd.
    destruct (getitem _ "YEAR") as [year|]; [|discriminate].
    injection Hcd as <-. unfold dropna.
    eapply Nat.le_trans; [apply take_rows_nrows|].
    rewrite setitem_nrows, backfill_cols. cbn [nrows]. apply Nat.le_refl.
  - intros fd Hfd. destruct (filtered_data_take _ _ _ _ _ Hfd) as [m ->].
    split; [now apply take_rows_well_formed|].
    split; [apply take_rows_columns|apply take_rows_nrows].
Qed.

Lemma pipeline_shape_witness :
  well_formed raw_sample
  /\ exists sel,
       sidebar parse_decimal sample_picks (backfill (standardize raw_sample)) = Some sel
       /\ well_formed (working sel)
       /\ nrows (working sel) <= nrows raw_sample.
Proof.
  assert (Hwf : well_formed raw_sample) by (repeat constructor).
  split; [exact Hwf|]. eexists. split; [reflexivity|].
  pose proof (pipeline_shape parse_decimal sample_picks raw_sample _ Hwf eq_refl) as H.
  split; [exact (proj1 H)|exact (proj1 (proj2 (proj2 H)))].
Defined.

(** ** The lists of choices: lines 66-76 *)

Section LocallySorted.

Context {A : Type} (leb : A -> A -> bool).
Hypothesis leb_total : forall x y, leb x y = false -> leb y x = true.

Let le (x y : A) : Prop := leb x y = true.

Lemma insert_HdRel (a x : A) (l : list A) :
  le a x -> HdRel le a l -> HdRel le a (insert leb x l).
Proof.
  intros Hax Hl. destruct l as [|y l]; simpl; [now constructor|].
  destruct (leb x y); constructor; [exact Hax|]. now inversion Hl.
Qed.

Lemma insert_Sorted (x : A) (l : list A) : Sorted le l -> Sorted le (insert leb x l).
Proof.
  induction 1 as [|y l Hs IH Hy]; simpl; [repeat constructor|].
  destruct (leb x y) eqn:E.
  - constructor; [now constructor|]. now constructor.
  - constructor; [exact IH|]. apply insert_HdRel; [|exact Hy].
    exact (leb_total _ _ E).
Qed.

Lemma sort_Sorted (l : list A) : Sorted le (sort leb l).
Proof. induction l as [|x l IH]; simpl; [constructor|]. now apply insert_Sorted. Qed.

End LocallySorted.

Lemma value_leb_total (a b : value) : value_leb a b = false -> value_leb b a = true.
Proof.
  destruct a as [x|x], b as [y|y]; simpl; try congruence.
  - apply Z_leb_total.
  - intros H. destruct (String.leb_total x y) as [E|E]; congruence.
Qed.

Lemma sorted_unique_Sorted (c : column) :
  Sorted (fun a b => value_leb a b = true) (sorted_unique c).
Proof. apply sort_Sorted. exact value_leb_total. Qed.

Lemma coerce_and_drop_year (parse : string -> option Z) (df w : DataFrame) :
  coerce_and_drop parse df = Some w ->
  exists ys, getitem w "YEAR" = Some (NumCol ys).
Proof.
  unfold coerce_and_drop. destruct (getitem df "YEAR") as [year|] eqn:Hy; [|discriminate].
  intros H. injection H as <-. unfold dropna. rewrite getitem_take_rows.
  rewrite (getitem_setitem _ _ _ _ Hy). eexists. reflexivity.
Qed.

(** X8. Each list of choices the sidebar offers is in sorted order and
    without repetition; the years offered are numbers in strictly
    increasing order. *)
Theorem option_lists_sorted (parse : string -> option Z) (p : Picks) (df : DataFrame)
  (sel : Selection) :
  sidebar parse p df = Some sel ->
  (Sorted (fun a b => value_leb a b = true) (states sel) /\ NoDup (states sel))
  /\ (Sorted (fun a b => value_leb a b = true) (districts sel) /\ NoDup (districts sel))
  /\ (NoDup (years sel)
      /\ exists zs, years sel = map VNum zs /\ StronglySorted Z.lt zs).
Proof.
  intros Hs. apply sidebar_inv in Hs.
  destruct Hs as [Hcd [Hst [_ [Hdi [_ [Hye _]]]]]].
  unfold state_options in Hst.
  destruct (getitem (working sel) "STATE/UT") as [st|] eqn:Est; [|discriminate].
  injection Hst as <-.
  unfold district_options in Hdi. unfold year_options in Hye.
  rewrite (state_data_inv _ _ _ Est) in Hdi, Hye.
  destruct (getitem _ "DISTRICT") as [di|]; [|discriminate]. injection Hdi as <-.
  rewrite getitem_take_rows in Hye.
  destruct (coerce_and_drop_year _ _ _ Hcd) as [ys Hys]. rewrite Hys in Hye.
  cbn [option_map col_select] in Hye. injection Hye as <-.
  split; [split; [apply sorted_unique_Sorted|apply sorted_unique_NoDup]|].
  split; [split; [apply sorted_unique_Sorted|apply sorted_unique_NoDup]|].
  split; [apply sorted_unique_NoDup|].
  rewrite sorted_unique_numeric. eexists. split; [reflexivity|].
  apply sorted_NoDup_lt.
  - apply sort_sorted; [exact Z_leb_total|exact Z_leb_trans].
  - apply (Permutation_NoDup (Permutation_sym (sort_perm _ _))).
    apply (unique_NoDup _ Z.eqb_eq).
Qed.

Lemma option_lists_sorted_witness :
  sidebar parse_decimal sample_picks sample = Some sample_selection
  /\ NoDup (states sample_selection)
  /\ exists zs, years sample_selection = map VNum zs /\ StronglySorted Z.lt zs.
Proof.
  split; [reflexivity|].
  pose proof (option_lists_sorted parse_decimal sample_picks sample sample_selection
                eq_refl) as H.
  split; [exact (proj2 (proj1 H))|exact (proj2 (proj2 (proj2 H)))].
Defined.

(** ** Choices and records: lines 62-87 *)

Lemma sidebar_columns (parse : string -> option Z) (p : Picks) (df : DataFrame)
  (sel : Selection) :
  sidebar parse p df = Some sel ->
  exists st di ys,
    getitem (working sel) "STATE/UT" = Some st
    /\ getitem (working sel) "DISTRICT" = Some di
    /\ getitem (working sel) "YEAR" = Some (NumCol ys)
    /\ states sel = sorted_unique st.
Proof.
  intros Hs. apply sidebar_inv in Hs.
  destruct Hs as [Hcd [Hst [_ [Hdi _]]]].
  unfold state_options in Hst.
  destruct (getitem (working sel) "STATE/UT") as [st|] eqn:Est; [|discriminate].
  injection Hst as Hst. unfold district_options in Hdi.
  rewrite (state_data_inv _ _ _ Est), getitem_take_rows in Hdi.
  destruct (getitem (working sel) "DISTRICT") as [di|] eqn:Edi; [|discriminate].
  destruct (coerce_and_drop_year _ _ _ Hcd) as [ys Hys].
  exists st, di, ys. now repeat split.
Qed.

Lemma working_complete (parse : string -> option Z) (df w : DataFrame)
  (c : string) (col : column) :
  coerce_and_drop parse df = Some w ->
  In c required_columns ->
  getitem w c = Some col ->
  Forall (fun x => is_present x = true) (cells col).
Proof.
  unfold coerce_and_drop. destruct (getitem df "YEAR") as [year|]; [|discriminate].
  intros H Hc Hg. injection H as <-.
  apply getitem_dict_get, dict_get_In in Hg.
  pose proof (dropna_complete (setitem df "YEAR" (NumCol (to_numeric parse year)))
                required_columns) as Hall.
  rewrite Forall_forall in Hall. apply (Hall _ Hg). now apply existsb_required.
Qed.

Lemma combine_In_l {A B : Type} (xs : list A) (ys : list B) (x : A) :
  List.length xs = List.length ys -> In x xs -> exists y, In (x, y) (combine xs ys).
Proof.
  revert ys. induction xs as [|a xs IH]; intros [|b ys] Hlen Hin; simpl in *;
    try contradiction; try discriminate.
  injection Hlen as Hlen. destruct Hin as [->|Hin].
  - exists b. now left.
  - destruct (IH ys Hlen Hin) as [y Hy]. exists y. now right.
Qed.

Lemma combine_map_same {A B C : Type} (f : A -> B) (g : A -> C) (l : list A) :
  combine (map f l) (map g l) = map (fun x => (f x, g x)) l.
Proof. induction l as [|x l IH]; simpl; [reflexivity|]. now rewrite IH. Qed.

Lemma selectbox_none {A : Type} (l : list A) (pick : nat) :
  selectbox l pick = None <-> l = [].
Proof.
  split.
  - destruct l as [|x l]; [reflexivity|].
    destruct (selectbox_nonempty x l pick) as [y Hy]. congruence.
  - intros ->. unfold selectbox. now destruct pick.
Qed.

Lemma value_eqb_refl (v : value) : value_eqb v v = true.
Proof. now apply value_eqb_eq. Qed.

(** In the working dataset, a state that occurs has a district and a year
    to offer. *)
Lemma state_has_options (parse : string -> option Z) (df w : DataFrame)
  (st col : column) (c : string) (s : value) :
  well_formed w ->
  coerce_and_drop parse df = Some w ->
  In c required_columns ->
  getitem w "STATE/UT" = Some st ->
  getitem w c = Some col ->
  In (Some s) (cells st) ->
  exists v, In (Some s, Some v) (combine (cells st) (cells col)).
Proof.
  intros Hwf Hcd Hc Hst Hcol Hin.
  assert (Hlen : List.length (cells st) = List.length (cells col)).
  { rewrite (getitem_length _ _ _ Hwf Hst). symmetry.
    exact (getitem_length _ _ _ Hwf Hcol). }
  destruct (combine_In_l _ _ _ Hlen Hin) as [x Hx].
  pose proof (working_complete _ _ _ _ _ Hcd Hc Hcol) as Hall.
  rewrite Forall_forall in Hall.
  specialize (Hall x (in_combine_r _ _ _ _ Hx)).
  destruct x as [v|]; [now exists v|discriminate].
Qed.

(** X9. The widgets answer from their lists, and the lists hang together:
    no state is selected exactly when the working dataset has no row;
    otherwise the state selected is one of the states offered, and a
    district and a year are offered and selected with it. *)
Theorem dependent_choices (parse : string -> option Z) (p : Picks) (df : DataFrame)
  (sel : Selection) :
  well_formed df ->
  sidebar parse p df = Some sel ->
  (selected_state sel = None <-> nrows (working sel) = 0)
  /\ (nrows (working sel) = 0 <-> states sel = [])
  /\ forall s, selected_state sel = Some s ->
       In s (states sel)
       /\ exists d y,
            selected_district sel = Some d /\ In d (districts sel)
            /\ selected_year sel = Some y /\ In y (years sel).
Proof.
  intros Hwf Hs.
  destruct (sidebar_columns _ _ _ _ Hs) as [st [di [ys [Hst [Hdi [Hys Hstates]]]]]].
  apply sidebar_inv in Hs.
  destruct Hs as [Hcd [_ [Hss [Hdo [Hsd [Hyo [Hsy _]]]]]]].
  pose proof (coerce_and_drop_well_formed _ _ _ Hwf Hcd) as Hw.
  assert (Hrows : nrows (working sel) = 0 <-> states sel = []).
  { rewrite Hstates, <- (getitem_length _ _ _ Hw Hst). split.
    - intros H. destruct (cells st) eqn:E; [|discriminate].
      unfold sorted_unique. now rewrite E.
    - intros H. destruct (cells st) as [|x l] eqn:E; [reflexivity|].
      pose proof (working_complete _ _ _ "STATE/UT" _ Hcd
                    (or_introl eq_refl) Hst) as Hall.
      rewrite E in Hall. inversion Hall as [|? ? Hx _]; subst.
      destruct x as [v|]; [|discriminate].
      assert (Hv : In v (sorted_unique st))
        by (apply sorted_unique_In; rewrite E; now left).
      rewrite H in Hv. destruct Hv. }
  split; [rewrite Hss, selectbox_none; symmetry; exact Hrows|].
  split; [exact Hrows|].
  intros s Hsel. rewrite Hss in Hsel.
  pose proof (selectbox_In _ _ _ Hsel) as Hin. split; [exact Hin|].
  rewrite Hstates in Hin. apply sorted_unique_In in Hin.
  rewrite Hss, Hsel in Hdo, Hyo.
  destruct (state_has_options _ _ _ _ _ "DISTRICT" s Hw Hcd
              (or_intror (or_introl eq_refl)) Hst Hdi Hin) as [d Hd].
  destruct (state_has_options _ _ _ _ _ "YEAR" s Hw Hcd
              (or_intror (or_intror (or_introl eq_refl))) Hst Hys Hin) as [y Hy].
  destruct (options_In _ (Some s) _ _ "DISTRICT" Hst Hdi) as [ds [Hds Hdin]].
  destruct (options_In _ (Some s) _ _ "YEAR" Hst Hys) as [yy [Hyy Hyin]].
  unfold district_options in Hdo. unfold year_options in Hyo.
  rewrite Hds in Hdo. rewrite Hyy in Hyo. injection Hdo as Eds. injection Hyo as Eys.
  rewrite Hsd, Hsy, <- Eds, <- Eys. clear Hsd Hsy Eds Eys.
  assert (Hd' : In d ds)
    by (apply Hdin; exists (Some s); split; [exact Hd|apply value_eqb_refl]).
  assert (Hy' : In y yy)
    by (apply Hyin; exists (Some s); split; [exact Hy|apply value_eqb_refl]).
  destruct ds as [|d0 ds]; [destruct Hd'|]. destruct yy as [|y0 yy]; [destruct Hy'|].
  destruct (selectbox_nonempty d0 ds (pick_district p)) as [d1 Hd1].
  destruct (selectbox_nonempty y0 yy (pick_year p)) as [y1 Hy1].
  exists d1, y1.
  split; [exact Hd1|]. split; [exact (selectbox_In _ _ _ Hd1)|].
  split; [exact Hy1|exact (selectbox_In _ _ _ Hy1)].
Qed.

Lemma dependent_choices_witness :
  well_formed sample
  /\ sidebar parse_decimal sample_picks sample = Some sample_selection
  /\ (selected_state sample_selection = None <-> nrows (working sample_selection) = 0)
  /\ forall s, selected_state sample_selection = Some s ->
       In s (states sample_selection)
       /\ exists d y,
            selected_district sample_selection = Some d
            /\ In d (districts sample_selection)
            /\ selected_year sample_selection = Some y
            /\ In y (years sample_selection).
Proof.
  split; [exact sample_well_formed|]. split; [reflexivity|].
  pose proof (dependent_choices parse_decimal sample_picks sample sample_selection
                sample_well_formed eq_refl) as H.
  split; [exact (proj1 H)|exact (proj2 (proj2 H))].
Defined.

(** X10. Every row of the working dataset can be reached through the
    filters: its state is among the states offered, its district and its
    year among those offered for that state, and selecting the three
    gives a subset that holds the row. *)
Theorem every_record_reachable (parse : string -> option Z) (p : Picks)
  (df : DataFrame) (sel : Selection) (r : row) :
  well_formed df ->
  sidebar parse p df = Some sel ->
  In r (rows (working sel)) ->
  exists s d y ds ys fd,
    field r "STATE/UT" = Some s /\ field r "DISTRICT" = Some d
    /\ field r "YEAR" = Some y
    /\ In s (states sel)
    /\ district_options (working sel) (Some s) = Some ds /\ In d ds
    /\ year_options (working sel) (Some s) = Some ys /\ In y ys
    /\ filtered_data (working sel) (Some s) (Some d) (Some y) = Some fd
    /\ In r (rows fd).
Proof.
  intros Hwf Hs Hr.
  destruct (sidebar_columns _ _ _ _ Hs) as [st [di [yc [Hst [Hdi [Hys Hstates]]]]]].
  apply sidebar_inv in Hs. destruct Hs as [Hcd _].
  pose proof (coerce_and_drop_well_formed _ _ _ Hwf Hcd) as Hw.
  pose proof (rows_field _ _ _ Hw Hst) as Fst.
  pose proof (rows_field _ _ _ Hw Hdi) as Fdi.
  pose proof (rows_field _ _ _ Hw Hys) as Fys.
  assert (Hpres : forall c col, In c required_columns -> getitem (working sel) c = Some col ->
                    map (fun r => field r c) (rows (working sel)) = cells col ->
                    exists v, field r c = Some v).
  { intros c col Hc Hg Hf.
    pose proof (working_complete _ _ _ _ _ Hcd Hc Hg) as Hall.
    rewrite <- Hf, Forall_map, Forall_forall in Hall. specialize (Hall r Hr).
    destruct (field r c) as [v|]; [now exists v|discriminate]. }
  destruct (Hpres _ _ (or_introl eq_refl) Hst Fst) as [s Es].
  destruct (Hpres _ _ (or_intror (or_introl eq_refl)) Hdi Fdi) as [d Ed].
  destruct (Hpres _ _ (or_intror (or_intror (or_introl eq_refl))) Hys Fys) as [y Ey].
  destruct (options_In _ (Some s) _ _ "DISTRICT" Hst Hdi) as [ds [Hds Hdin]].
  destruct (options_In _ (Some s) _ _ "YEAR" Hst Hys) as [ys [Hyy Hyin]].
  destruct (filtered_data_some (working sel) (Some s) (Some d) (Some y) _ _ _
              Hst Hdi Hys) as [fd Hfd].
  exists s, d, y, ds, ys, fd.
  split; [exact Es|]. split; [exact Ed|]. split; [exact Ey|]. split.
  { rewrite Hstates. apply sorted_unique_In. rewrite <- Fst, <- Es.
    apply in_map_iff. now exists r. }
  split; [exact Hds|]. split.
  { apply Hdin. exists (Some s). split; [|apply value_eqb_refl].
    rewrite <- Fst, <- Fdi, combine_map_same, <- Es, <- Ed.
    apply in_map_iff. now exists r. }
  split; [exact Hyy|]. split.
  { apply Hyin. exists (Some s). split; [|apply value_eqb_refl].
    rewrite <- Fst, <- Fys, combine_map_same, <- Es, <- Ey.
    apply in_map_iff. now exists r. }
  split; [exact Hfd|].
  destruct (filtered_data_rows _ _ _ _ _ Hw Hfd) as [_ [_ Hrows]].
  rewrite Hrows. apply filter_In. split; [exact Hr|].
  unfold exact_match. rewrite Es, Ed, Ey. cbn [cell_eqb].
  now rewrite !value_eqb_refl.
Qed.

Lemma every_record_reachable_witness :
  well_formed sample
  /\ sidebar parse_decimal sample_picks sample = Some sample_selection
  /\ In [("STATE/UT", Some (VStr "Goa")); ("DISTRICT", Some (VStr "South Goa"));
         ("YEAR", Some (VNum 2013)); ("MURDER", Some (VNum 0)); ("RAPE", None);
         ("TOTAL IPC CRIMES", Some (VNum 10))]
        (rows (working sample_selection))
  /\ exists s d y ds ys fd,
       s = VStr "Goa" /\ d = VStr "South Goa" /\ y = VNum 2013
       /\ In s (states sample_selection)
       /\ district_options (working sample_selection) (Some s) = Some ds /\ In d ds
       /\ year_options (working sample_selection) (Some s) = Some ys /\ In y ys
       /\ filtered_data (working sample_selection) (Some s) (Some d) (Some y) = Some fd
       /\ nrows fd = 1.
Proof.
  split; [exact sample_well_formed|]. split; [reflexivity|].
  assert (Hr : In [("STATE/UT", Some (VStr "Goa")); ("DISTRICT", Some (VStr "South Goa"));
                   ("YEAR", Some (VNum 2013)); ("MURDER", Some (VNum 0)); ("RAPE", None);
                   ("TOTAL IPC CRIMES", Some (VNum 10))]
                  (rows (working sample_selection))) by (right; left; reflexivity).
  split; [exact Hr|].
  destruct (every_record_reachable parse_decimal sample_picks sample sample_selection _
              sample_well_formed eq_refl Hr)
    as [s [d [y [ds [ys [fd [Es [Ed [Ey [H1 [H2 [H3 [H4 [H5 [H6 _]]]]]]]]]]]]]]].
  cbv in Es, Ed, Ey. injection Es as <-. injection Ed as <-. injection Ey as <-.
  exists (VStr "Goa"), (VStr "South Goa"), (VNum 2013), ds, ys, fd.
  repeat split; try assumption.
  vm_compute in H6. now injection H6 as <-.
Defined.

(** ** The crime types: lines 78-80 and 92 *)

Lemma crime_columns_In (df : DataFrame) (c : string) :
  In c (crime_columns df) <-> In c (columns df) /\ ~ In c required_columns.
Proof.
  unfold crime_columns. rewrite filter_In, negb_true_iff.
  rewrite <- existsb_required, not_true_iff_false. reflexivity.
Qed.

Lemma existsb_string_In (c : string) (l : list string) :
  existsb (String.eqb c) l = true <-> In c l.
Proof.
  rewrite existsb_exists. split.
  - intros [x [Hx E]]. apply String.eqb_eq in E. now subst.
  - intros H. exists c. split; [exact H|apply String.eqb_refl].
Qed.

(** X11. The crime types selected are always columns of the working
    dataset other than the three dimensions, whatever the user picked; so
    the table shown has a column for each of them, and no other.  Left
    untouched, the widget selects MURDER and RAPE, in that order, as far
    as the header has them. *)
Theorem selected_crimes_are_columns (parse : string -> option Z) (p : Picks)
  (df : DataFrame) (sel : Selection) (fd : DataFrame) :
  sidebar parse p df = Some sel ->
  filtered_data (working sel) (selected_state sel) (selected_district sel)
    (selected_year sel) = Some fd ->
  (forall c, In c (selected_crimes sel) ->
             In c (columns (working sel)) /\ ~ In c required_columns)
  /\ (forall l, In l (columns (getitems fd (selected_crimes sel)))
                <-> In l (selected_crimes sel))
  /\ (pick_crimes p = None ->
      selected_crimes sel
      = filter (fun c => existsb (String.eqb c) (columns (working sel)))
          ["MURDER"; "RAPE"]).
Proof.
  intros Hs Hfd. apply sidebar_inv in Hs.
  destruct Hs as [_ [_ [_ [_ [_ [_ [_ Hc]]]]]]].
  assert (Hdef : valid_defaults (working sel)
                 = filter (fun c => existsb (String.eqb c) (columns (working sel)))
                     ["MURDER"; "RAPE"]).
  { unfold valid_defaults. apply filter_ext_in. intros c Hin.
    apply eq_true_iff_eq. rewrite !existsb_string_In, crime_columns_In.
    split; [tauto|]. intros H. split; [exact H|].
    destruct Hin as [<-|[<-|[]]]; simpl; intuition discriminate. }
  assert (Hsub : forall c, In c (selected_crimes sel) -> In c (crime_columns (working sel))).
  { intros c Hin. rewrite Hc in Hin. unfold multiselect in Hin.
    destruct (pick_crimes p) as [chosen|].
    - apply filter_In in Hin. destruct Hin as [_ Hin]. now apply existsb_string_In.
    - unfold valid_defaults in Hin. apply filter_In in Hin. destruct Hin as [_ Hin].
      now apply existsb_string_In. }
  split; [intros c Hin; now apply crime_columns_In, Hsub|]. split.
  - intros l. rewrite getitems_columns.
    destruct (filtered_data_take _ _ _ _ _ Hfd) as [m ->]. rewrite take_rows_columns.
    split; [tauto|]. intros Hin. split; [exact Hin|].
    now apply (crime_columns_In (working sel)), Hsub.
  - intros Hp. rewrite Hc, Hp. exact Hdef.
Qed.

Lemma selected_crimes_are_columns_witness :
  sidebar parse_decimal sample_picks sample = Some sample_selection
  /\ filtered_data (working sample_selection) (selected_state sample_selection)
       (selected_district sample_selection) (selected_year sample_selection)
     = Some (take_rows sample [true; false; false])
  /\ forall l, In l (columns (getitems (take_rows sample [true; false; false])
                               (selected_crimes sample_selection)))
               <-> In l (selected_crimes sample_selection).
Proof.
  split; [reflexivity|]. split; [reflexivity|].
  exact (proj1 (proj2 (selected_crimes_are_columns parse_decimal sample_picks sample
                         sample_selection (take_rows sample [true; false; false])
                         eq_refl eq_refl))).
Defined.

(** ** A dataset without rows: lines 82-133 *)

Lemma sorted_unique_nil (c : column) : cells c = [] -> sorted_unique c = [].
Proof. unfold sorted_unique. now intros ->. Qed.

Lemma trend_data_eq (pd : Pandas) (parse : string -> option Z) (df : DataFrame)
  (s : option value) (st y t : column) :
  getitem df "STATE/UT" = Some st ->
  getitem df "YEAR" = Some y ->
  getitem df "TOTAL IPC CRIMES" = Some t ->
  trend_data pd parse df s
  = Some (sort_index
            (groupby_sum pd (col_select (eq_mask st s) y)
               (to_numeric parse (col_select (eq_mask st s) t)))).
Proof.
  intros Hst Hy Ht. unfold trend_data. rewrite (state_data_inv df s st Hst).
  rewrite getitem_take_rows, Ht. cbn [option_map].
  assert (Hg : getitem (take_rows df (eq_mask st s)) "TOTAL IPC CRIMES"
               = Some (col_select (eq_mask st s) t)).
  { now rewrite getitem_take_rows, Ht. }
  destruct (coerce_total_inv parse _ _ Hg) as [_ [Ht' Hother]].
  rewrite Hother by discriminate. rewrite getitem_take_rows, Hy. cbn [option_map].
  rewrite Ht'. reflexivity.
Qed.

Lemma cells_empty (df : DataFrame) (c : string) (col : column) :
  well_formed df -> nrows df = 0 -> getitem df c = Some col -> cells col = [].
Proof.
  intros Hwf Hn Hg. pose proof (getitem_length _ _ _ Hwf Hg) as H.
  rewrite Hn in H. now destruct (cells col).
Qed.

(** X12. When the working dataset has no row (a file with a header only,
    or with no complete row), nothing is selected and the page holds
    warnings only: the no-data warning, then, if the header has the total
    column, the ranking warning and the trend warning. *)
Theorem empty_dataset_views (pd : Pandas) (parse : string -> option Z) (p : Picks)
  (df : DataFrame) (sel : Selection) :
  well_formed df ->
  sidebar parse p df = Some sel ->
  nrows (working sel) = 0 ->
  selected_state sel = None
  /\ selected_district sel = None
  /\ selected_year sel = None
  /\ filtered_view pd sel = ([StWarning no_data_warning], inr tt)
  /\ (forall t, getitem (working sel) "TOTAL IPC CRIMES" = Some t ->
        total_views pd parse sel
        = ([StWarning "No data available for 'TOTAL IPC CRIMES' to generate bar chart.";
            StWarning "No data available for the crime trend chart."], inr tt)).
Proof.
  intros Hwf Hs Hn.
  destruct (sidebar_columns _ _ _ _ Hs) as [st [di [ys [Hst [Hdi [Hys Hstates]]]]]].
  apply sidebar_inv in Hs.
  destruct Hs as [Hcd [_ [Hss [Hdo [Hsd [Hyo [Hsy _]]]]]]].
  pose proof (coerce_and_drop_well_formed _ _ _ Hwf Hcd) as Hw.
  pose proof (cells_empty _ _ _ Hw Hn Hst) as Est.
  pose proof (cells_empty _ _ _ Hw Hn Hdi) as Edi.
  pose proof (cells_empty _ _ _ Hw Hn Hys) as Eys.
  assert (Hnone : selected_state sel = None).
  { rewrite Hss, Hstates, (sorted_unique_nil _ Est). now destruct (pick_state p). }
  assert (Hopt : forall c col, getitem (working sel) c = Some col -> cells col = [] ->
            (let? sd := state_data (working sel) (selected_state sel) in
             let? x := getitem sd c in Some (sorted_unique x)) = Some []).
  { intros c col Hg E. rewrite (state_data_inv _ _ _ Hst), getitem_take_rows, Hg.
    cbn [option_map]. f_equal. apply sorted_unique_nil.
    rewrite cells_col_select, E. apply select_nil_r. }
  split; [exact Hnone|]. split.
  { unfold district_options in Hdo. rewrite (Hopt _ _ Hdi Edi) in Hdo.
    injection Hdo as Hdo. rewrite Hsd, <- Hdo. now destruct (pick_district p). }
  split.
  { unfold year_options in Hyo. rewrite (Hopt _ _ Hys Eys) in Hyo.
    injection Hyo as Hyo. rewrite Hsy, <- Hyo. now destruct (pick_year p). }
  split.
  { destruct (filtered_data_some (working sel) (selected_state sel)
                (selected_district sel) (selected_year sel) _ _ _ Hst Hdi Hys)
      as [fd Hfd].
    apply (filtered_view_warned pd sel fd Hfd). left.
    destruct (filtered_data_take _ _ _ _ _ Hfd) as [m ->].
    pose proof (take_rows_nrows (working sel) m) as Hle. unfold empty.
    destruct (nrows (take_rows (working sel) m)); [reflexivity|lia]. }
  intros t Ht.
  destruct (coerce_total_inv parse _ _ Ht) as [Hd [Ht' Hother]].
  set (d := setitem _ _ _) in *.
  assert (Hst' : getitem d "STATE/UT" = Some st)
    by (rewrite Hother; [exact Hst|discriminate]).
  assert (Hys' : getitem d "YEAR" = Some (NumCol ys))
    by (rewrite Hother; [exact Hys|discriminate]).
  assert (Htop : top_states pd d = Some []).
  { unfold top_states. rewrite Hst', Ht'. unfold groupby_sum.
    now rewrite (sorted_unique_nil _ Est). }
  assert (Htr : trend_data pd parse d (selected_state sel) = Some []).
  { rewrite (trend_data_eq pd parse d _ _ _ _ Hst' Hys' Ht'). unfold groupby_sum.
    rewrite sorted_unique_nil; [reflexivity|].
    rewrite cells_col_select, Eys. apply select_nil_r. }
  exact (total_views_run pd parse sel d [] [] (getitem_has_column _ _ _ Ht) Hd Htop Htr).
Qed.

Lemma empty_dataset_views_witness :
  well_formed header_only
  /\ exists sel,
       sidebar parse_decimal sample_picks header_only = Some sel
       /\ nrows (working sel) = 0
       /\ selected_state sel = None
       /\ filtered_view int64_pandas sel = ([StWarning no_data_warning], inr tt)
       /\ total_views int64_pandas parse_decimal sel
          = ([StWarning "No data available for 'TOTAL IPC CRIMES' to generate bar chart.";
              StWarning "No data available for the crime trend chart."], inr tt).
Proof.
  assert (Hwf : well_formed header_only) by (repeat constructor).
  split; [exact Hwf|]. eexists. split; [reflexivity|]. split; [reflexivity|].
  pose proof (empty_dataset_views int64_pandas parse_decimal sample_picks header_only _ Hwf
                eq_refl eq_refl) as H.
  split; [exact (proj1 H)|]. split; [exact (proj1 (proj2 (proj2 (proj2 H))))|].
  exact (proj2 (proj2 (proj2 (proj2 H))) (ObjCol []) eq_refl).
Defined.

(** ** What the cut to five keeps: line 119 *)

Lemma StronglySorted_app_inv {A : Type} (R : A -> A -> Prop) (a b : list A) :
  StronglySorted R (a ++ b) -> forall x y, In x a -> In y b -> R x y.
Proof.
  induction a as [|z a IH]; intros Hs x y Hx Hy; [destruct Hx|].
  simpl in Hs. apply StronglySorted_inv in Hs. destruct Hs as [Hs Hz].
  destruct Hx as [->|Hx].
  - rewrite Forall_forall in Hz. apply Hz. apply in_or_app. now right.
  - now apply IH.
Qed.

(** X14. The ranking keeps the largest sums: its entries are per-state
    sums of the table, as many as there are states up to five, and a
    state left out has a sum no greater than any entry kept, whatever
    order the sort gives equal sums.  With at most five states nothing is
    cut: the ranking holds every state's sum once. *)
Theorem top_states_are_largest (pd : Pandas) (df : DataFrame) (st t : column)
  (top : list (value * Z)) :
  getitem df "STATE/UT" = Some st ->
  getitem df "TOTAL IPC CRIMES" = Some t ->
  top_states pd df = Some top ->
  (forall e, In e top -> In e (groupby_sum pd st (numbers t)))
  /\ List.length top = Nat.min 5 (List.length (sorted_unique st))
  /\ (forall e e', In e' top -> In e (groupby_sum pd st (numbers t)) -> ~ In e top ->
                   (snd e <= snd e')%Z)
  /\ (List.length (sorted_unique st) <= 5 ->
      Permutation top (groupby_sum pd st (numbers t))).
Proof.
  intros Hst Ht Htop.
  assert (E : top = firstn 5 (sort_values_desc pd (groupby_sum pd st (numbers t)))).
  { unfold top_states in Htop. rewrite Hst, Ht in Htop. unfold head in Htop.
    congruence. }
  clear Htop. subst top. set (g := groupby_sum pd st (numbers t)).
  set (l := sort_values_desc pd g).
  assert (Hperm : Permutation l g) by apply sort_perm.
  assert (Hlen : List.length l = List.length (sorted_unique st)).
  { rewrite (Permutation_length Hperm). unfold g, groupby_sum. apply length_map. }
  pose proof (sort_values_desc_sorted pd g) as Hsorted. fold l in Hsorted.
  split; [|split; [|split]].
  - intros e He. apply (Permutation_in _ Hperm). exact (firstn_In _ _ _ He).
  - now rewrite length_firstn, Hlen.
  - intros e e' He' He Hn.
    apply (Permutation_in _ (Permutation_sym Hperm)) in He.
    rewrite <- (firstn_skipn 5 l) in He, Hsorted.
    apply in_app_or in He. destruct He as [He|He]; [contradiction|].
    apply (desc_leb_le pd).
    exact (StronglySorted_app_inv _ _ _ Hsorted e' e He' He).
  - intros H5. rewrite firstn_all2 by lia. exact Hperm.
Qed.

Lemma top_states_are_largest_witness :
  getitem sample "STATE/UT" = Some (ObjCol [Some "Goa"; Some "Goa"; Some "Kerala"])
  /\ top_states int64_pandas sample = Some [(VStr "Kerala", 70%Z); (VStr "Goa", 60%Z)]
  /\ Permutation [(VStr "Kerala", 70%Z); (VStr "Goa", 60%Z)]
       (groupby_sum int64_pandas (ObjCol [Some "Goa"; Some "Goa"; Some "Kerala"])
          (numbers (NumCol [Some 50%Z; Some 10%Z; Some 70%Z]))).
Proof.
  split; [reflexivity|]. split; [reflexivity|].
  destruct (top_states_are_largest int64_pandas sample
              (ObjCol [Some "Goa"; Some "Goa"; Some "Kerala"])
              (NumCol [Some 50%Z; Some 10%Z; Some 70%Z])
              [(VStr "Kerala", 70%Z); (VStr "Goa", 60%Z)] eq_refl eq_refl eq_refl)
    as [_ [_ [_ H]]].
  apply H. vm_compute. lia.
Defined.

(** ** What normalising a label keeps: line 31 *)

Lemma list_ascii_append (a b : string) :
  list_ascii_of_string (a ++ b)
  = (list_ascii_of_string a ++ list_ascii_of_string b)%list.
Proof. induction a as [|c a IH]; simpl; [reflexivity|]. now rewrite IH. Qed.

Lemma visible_space (a : string) : PyStr.all PyStr.isspace a = true -> visible a = [].
Proof.
  unfold visible. induction a as [|c a IH]; simpl; [reflexivity|].
  rewrite andb_true_iff. intros [Hc Ha]. rewrite Hc. simpl. now apply IH.
Qed.

Lemma visible_append (a b : string) : visible (a ++ b) = (visible a ++ visible b)%list.
Proof. unfold visible. now rewrite list_ascii_append, filter_app. Qed.

Lemma visible_squash (s : string) : visible (squash s) = map PyStr.upper_char (visible s).
Proof.
  unfold visible. induction s as [|c r IH]; simpl; [reflexivity|].
  destruct (Ascii.eqb c PyStr.LF || Ascii.eqb c PyStr.CR) eqn:E.
  - rewrite (newline_is_space c E). simpl. exact IH.
  - simpl. rewrite upper_char_space. destruct (PyStr.isspace c); simpl; now rewrite IH.
Qed.

(** X15. Normalising a label touches white space and letter case only:
    the characters other than white space are kept, all of them and in
    order, each upper-cased.  Two raw labels therefore get one normal
    form only if they agree up to white space and case. *)
Theorem normalize_label_keeps_visible (s s' : string) :
  visible (normalize_label s) = map PyStr.upper_char (visible s)
  /\ (normalize_label s = normalize_label s' ->
      map PyStr.upper_char (visible s) = map PyStr.upper_char (visible s')).
Proof.
  assert (H : forall x, visible (normalize_label x) = map PyStr.upper_char (visible x)).
  { intros x. rewrite normalize_label_squash, visible_squash. f_equal.
    destruct (lstrip_split x) as [a [Ha Hsa]].
    destruct (rstrip_split (PyStr.lstrip x)) as [b [Hb Hsb]].
    unfold PyStr.strip. rewrite Ha at 2. rewrite Hb at 2.
    rewrite !visible_append, (visible_space a Hsa), (visible_space b Hsb).
    now rewrite app_nil_r. }
  split; [apply H|]. intros E. now rewrite <- !H, E.
Qed.

(** ** Writing a column and reading it back: lines 45, 49, 62, 118 *)

Lemma filter_labelled_map (l : list (string * column)) (c : string) (col : column) :
  List.length
    (filter (labelled c)
       (map (fun p => if String.eqb (fst p) c then (fst p, col) else p) l))
  = List.length (filter (labelled c) l).
Proof. now rewrite filter_setitem_same, length_map. Qed.

(** X16. Assigning a column and reading it back: under a label that no
    column or one column carries, the column read is the one assigned;
    under a label carried by several columns there is still no single
    column to read.  The columns under other labels and the number of
    rows are as before. *)
Theorem setitem_then_getitem (df : DataFrame) (c : string) (col : column) :
  (label_count df c <= 1 -> getitem (setitem df c col) c = Some col)
  /\ (1 < label_count df c -> getitem (setitem df c col) c = None)
  /\ (forall c', c' <> c -> getitem (setitem df c col) c' = getitem df c')
  /\ nrows (setitem df c col) = nrows df.
Proof.
  split; [|split; [|split]].
  - intros Hle. destruct (has_column df c) eqn:Hc.
    + destruct (getitem_present_once df c Hc Hle) as [old Hold].
      exact (getitem_setitem _ _ _ _ Hold).
    + rewrite (setitem_absent _ _ _ Hc), getitem_filter. cbn [cols].
      rewrite filter_app, (filter_absent _ _ Hc). cbn [filter app]. unfold labelled.
      cbn [fst]. now rewrite String.eqb_refl.
  - intros Hgt. assert (Hc : has_column df c = true) by (apply has_column_count; lia).
    rewrite (setitem_present _ _ _ Hc), getitem_filter. cbn [cols].
    rewrite label_count_filter in Hgt.
    pose proof (filter_labelled_map (cols df) c col) as Hlen.
    destruct (filter (labelled c) (map _ (cols df))) as [|q [|q' t]];
      [reflexivity| |now destruct q].
    simpl in Hlen. lia.
  - intros c' Hne. destruct (has_column df c) eqn:Hc.
    + now apply getitem_setitem_other.
    + rewrite (setitem_absent _ _ _ Hc), !getitem_filter. cbn [cols].
      rewrite filter_app. cbn [filter]. unfold labelled at 2. cbn [fst].
      destruct (String.eqb_spec c c') as [E|_]; [congruence|]. now rewrite app_nil_r.
  - apply setitem_nrows.
Qed.

(** ** The selection inside the state's rows: lines 70 and 83-87 *)

Lemma filter_andb {A : Type} (f g : A -> bool) (l : list A) :
  filter (fun x => f x && g x) l = filter g (filter f l).
Proof.
  induction l as [|x l IH]; simpl; [reflexivity|].
  destruct (f x); simpl; [destruct (g x)|]; now rewrite IH.
Qed.

(** X17. The selected subset lies inside the rows the option lists are
    drawn from: the rows of the selected state are the rows of the
    working dataset with that state, and the selected subset is what the
    district and year tests keep of them. *)
Theorem filtered_inside_state_data (df : DataFrame) (s d y : option value)
  (sd fd : DataFrame) :
  well_formed df ->
  state_data df s = Some sd ->
  filtered_data df s d y = Some fd ->
  rows sd = filter (fun r => cell_eqb (field r "STATE/UT") s) (rows df)
  /\ rows fd
     = filter (fun r => cell_eqb (field r "DISTRICT") d && cell_eqb (field r "YEAR") y)
         (rows sd)
  /\ forall r, In r (rows fd) -> In r (rows sd).
Proof.
  intros Hwf Hsd Hfd.
  assert (Hs : rows sd = filter (fun r => cell_eqb (field r "STATE/UT") s) (rows df)).
  { unfold state_data in Hsd.
    destruct (getitem df "STATE/UT") as [st|] eqn:Est; [|discriminate].
    injection Hsd as <-. rewrite filter_select.
    rewrite <- (map_map (fun r => field r "STATE/UT") (fun x => cell_eqb x s)).
    rewrite (rows_field _ _ _ Hwf Est). apply rows_take_rows; [exact Hwf|].
    unfold eq_mask. rewrite length_map. exact (getitem_length _ _ _ Hwf Est). }
  assert (Hf : rows fd
               = filter (fun r => cell_eqb (field r "DISTRICT") d
                                  && cell_eqb (field r "YEAR") y) (rows sd)).
  { destruct (filtered_data_rows _ _ _ _ _ Hwf Hfd) as [_ [_ Hr]].
    rewrite Hr, Hs, <- filter_andb. apply filter_ext. intros r.
    unfold exact_match. now rewrite andb_assoc. }
  split; [exact Hs|]. split; [exact Hf|].
  intros r Hr. rewrite Hf in Hr. now apply filter_In in Hr.
Qed.

Lemma filtered_inside_state_data_witness :
  well_formed sample
  /\ state_data sample (Some (VStr "Goa")) = Some (take_rows sample [true; true; false])
  /\ filtered_data sample (Some (VStr "Goa")) (Some (VStr "North Goa")) (Some (VNum 2012))
     = Some (take_rows sample [true; false; false])
  /\ forall r, In r (rows (take_rows sample [true; false; false])) ->
               In r (rows (take_rows sample [true; true; false])).
Proof.
  split; [exact sample_well_formed|]. split; [reflexivity|]. split; [reflexivity|].
  exact (proj2 (proj2 (filtered_inside_state_data sample (Some (VStr "Goa"))
                         (Some (VStr "North Goa")) (Some (VNum 2012))
                         (take_rows sample [true; true; false])
                         (take_rows sample [true; false; false])
                         sample_well_formed eq_refl eq_refl))).
Defined.

(** ** When the pie chart is drawn: lines 96-110 *)

(** X18. With rows selected and crime types chosen under distinct
    labels, the pie chart is drawn exactly when pandas gives some
    selected numeric column a total over the selected rows that is a
    number and strictly positive, and the placeholder is shown exactly
    when it gives none. *)
Theorem pie_chart_shown_iff (pd : Pandas) (sel : Selection) (fd : DataFrame) :
  filtered_data (working sel) (selected_state sel) (selected_district sel)
    (selected_year sel) = Some fd ->
  empty fd = false ->
  selected_crimes sel <> [] ->
  distinct (columns (getitems fd (selected_crimes sel))) = true ->
  let positive :=
    exists l xs z, In (l, NumCol xs) (cols (getitems fd (selected_crimes sel)))
                   /\ frame_sum pd l xs = Some z /\ (0 < z)%Z in
  ((exists c, In (StPyplot c) (fst (filtered_view pd sel))) <-> positive)
  /\ (In (StInfo "No valid data for pie chart.") (fst (filtered_view pd sel))
      <-> ~ positive).
Proof.
  intros Hfd He Hc Hd positive.
  rewrite (filtered_view_shown pd sel fd Hfd He Hc Hd). cbn [fst].
  set (total := total_selected pd fd (selected_crimes sel)).
  assert (Hpos : cleaned total <> [] <-> positive).
  { unfold positive. split.
    - intros Hne. destruct (cleaned total) as [|[l z] rest] eqn:E; [congruence|].
      assert (Hin : In (l, z) (cleaned total)) by (rewrite E; now left).
      apply cleaned_In in Hin. destruct Hin as [Hin Hz].
      apply sum_numeric_only_In in Hin. destruct Hin as [xs [Hx Hs]].
      exists l, xs, z. now repeat split.
    - intros [l [xs [z [Hx [Hs Hz]]]]] Hnil.
      assert (Hin : In (l, z) (cleaned total)).
      { apply cleaned_In. split; [|exact Hz]. apply sum_numeric_only_In.
        exists xs. now split. }
      rewrite Hnil in Hin. destruct Hin. }
  unfold pie_event. destruct (cleaned total) as [|q rest] eqn:E.
  - split.
    + split; [|intros Hp; apply Hpos in Hp; congruence].
      intros [c [H|[H|[H|[]]]]]; discriminate.
    + split; [intros _ Hp; apply Hpos in Hp; congruence|].
      intros _. right. right. now left.
  - assert (Hp : positive) by (apply Hpos; discriminate). split.
    + split; [intros _; exact Hp|]. intros _. eexists. right. right. now left.
    + split; [|intros Hn; contradiction].
      intros [H|[H|[H|[]]]]; discriminate.
Qed.

Lemma pie_chart_shown_iff_witness :
  filtered_data (working sample_selection) (selected_state sample_selection)
    (selected_district sample_selection) (selected_year sample_selection)
  = Some (take_rows sample [true; false; false])
  /\ exists c, In (StPyplot c) (fst (filtered_view int64_pandas sample_selection)).
Proof.
  split; [reflexivity|].
  apply (proj1 (pie_chart_shown_iff int64_pandas sample_selection
                  (take_rows sample [true; false; false]) eq_refl eq_refl
                  ltac:(discriminate) eq_refl)).
  exists "MURDER", [Some 5%Z], 5%Z. split; [now left|]. split; [reflexivity|lia].
Defined.
